(** * kanaval: validators for the kana analysis-state container

    A shallow embedding of the validators in [inst/include/kanaval]
    ([inputs.hpp], [pca.hpp], [combine_embeddings.hpp],
    [custom_selections.hpp]) over a small model of an HDF5 container,
    followed by the properties of the validators. *)

From Stdlib Require Import ZArith String DecimalString Lia.
From stdpp Require Import gmap strings list.

Local Open Scope Z_scope.
Set Warnings "-register-all".

(** ** The container *)

(** [H5T_class_t], restricted to the three classes the validators ask for. *)
Inductive H5T_class_t := H5T_INTEGER | H5T_FLOAT | H5T_STRING.

Global Instance H5T_class_t_eq_dec : EqDecision H5T_class_t.
Proof. solve_decision. Defined.

(** The elements of a dataset.  Floating-point payloads are never read by
    the validators, only their class and extent are. *)
Inductive Payload :=
| Integers (vals : list Z)
| Floats
| Strings (vals : list string).

(** An [H5::DataSet]: the dimensions of its dataspace (the empty list for a
    scalar), which are unsigned, and its elements in row-major order. *)
Record DataSet := mkDataSet { ds_dims : list N; ds_data : Payload }.

(** An object of the file.  The children of a group are kept in the order
    in which [getObjnameByIdx] enumerates them. *)
Inductive Node :=
| GroupNode (children : list (string * Node))
| DataSetNode (d : DataSet).

(** [H5::Group] (and [H5::H5File], which is used as its root group). *)
Abbreviation Group := (list (string * Node)).

Definition getTypeClass (d : DataSet) : H5T_class_t :=
  match ds_data d with
  | Integers _ => H5T_INTEGER
  | Floats => H5T_FLOAT
  | Strings _ => H5T_STRING
  end.

Definition getSimpleExtentNdims (d : DataSet) : Z := Z.of_nat (length (ds_dims d)).

Fixpoint child (g : Group) (name : string) : option Node :=
  match g with
  | [] => None
  | (n, o) :: rest => if String.eqb n name then Some o else child rest name
  end.

Definition exists_ (g : Group) (name : string) : bool :=
  match child g name with Some _ => true | None => false end.

Definition getNumObjs (g : Group) : Z := Z.of_nat (length g).

Definition getObjnameByIdx (g : Group) (idx : nat) : string :=
  match g !! idx with Some (n, _) => n | None => EmptyString end.

(** ** Machine integers *)

(** [hsize_t] is an unsigned 64-bit integer; its arithmetic wraps. *)
Definition hsize_max : Z := 2 ^ 64.

Definition hsize_add (a b : Z) : Z := (a + b) mod hsize_max.

(** [static_cast<size_t>(i)] for an [int] [i]: negative values wrap. *)
Definition size_t_of_int (i : Z) : Z := if i <? 0 then hsize_max + i else i.

(** [int] is a signed 32-bit integer.  The values read from the file are
    compared as they are; the one sum the validators take
    ([std::accumulate] over [sample_groups]) wraps around, as the compiled
    code does.  The number of children of a group is taken to fit an
    [int]. *)
Definition int_wrap (z : Z) : Z := (z + 2 ^ 31) mod 2 ^ 32 - 2 ^ 31.

Definition int_add (a b : Z) : Z := int_wrap (a + b).

Arguments int_wrap : simpl never.
Arguments int_add : simpl never.

(** [std::to_string] on a non-negative [int]. *)
Definition to_string (i : Z) : string := NilZero.string_of_int (Z.to_int i).

(** ** Errors *)

(** The faults of the storage accessor ([MissingEntry], [TypeMismatch],
    [ShapeMismatch], [RangeViolation]), the [std::runtime_error]s thrown by
    the validators with their message, and the context frames added by
    [utils::combine_errors]. *)
Inductive Error :=
| MissingEntry
| TypeMismatch
| ShapeMismatch
| RangeViolation
| runtime_error (what : string)
| Wrapped (context : string) (inner : Error).

Inductive result (A : Type) :=
| Ok (a : A)
| Err (e : Error).
Arguments Ok {A} a.
Arguments Err {A} e.

Global Instance result_ret : MRet result := fun A a => Ok a.

Global Instance result_bind : MBind result := fun A B k r =>
  match r with
  | Ok a => k a
  | Err e => Err e
  end.

(** [if (cond) throw std::runtime_error(msg);] *)
Definition throw_if (cond : bool) (msg : string) : result unit :=
  if cond then Err (runtime_error msg) else Ok tt.

Definition is_ok {A} (r : result A) : bool :=
  match r with Ok _ => true | Err _ => false end.

(** ** utils.hpp *)

Module utils.

(** Modelled from the spec: [utils::combine_errors] of [utils.hpp], the
    [wrap(inner, context)] of the error context chain; the result carries
    the context in front of the inner fault. *)
Definition combine_errors (e : Error) (msg : string) : Error := Wrapped msg e.

(** [try { body } catch (std::exception& e) { throw utils::combine_errors(e, msg); }] *)
Definition try_catch {A} (body : result A) (msg : string) : result A :=
  match body with
  | Ok a => Ok a
  | Err e => Err (combine_errors e msg)
  end.

(** Modelled from the spec: [utils::check_and_open_group] of [utils.hpp],
    the accessor's [open_group(parent, name) -> Group | MissingEntry]. *)
Definition check_and_open_group (handle : Group) (name : string) : result Group :=
  match child handle name with
  | Some (GroupNode g) => Ok g
  | _ => Err MissingEntry
  end.

(** Modelled from the spec: [utils::check_and_open_dataset(handle, name,
    type)] of [utils.hpp], the accessor's typed open without an expected
    shape: [MissingEntry] when no dataset has that name, [TypeMismatch]
    when its class differs. *)
Definition check_and_open_dataset (handle : Group) (name : string)
    (expected_type : H5T_class_t) : result DataSet :=
  match child handle name with
  | Some (DataSetNode d) =>
      if decide (getTypeClass d = expected_type) then Ok d else Err TypeMismatch
  | _ => Err MissingEntry
  end.

(** Modelled from the spec: [utils::check_and_open_dataset(handle, name,
    type, dims)] of [utils.hpp], the accessor's
    [open_array(parent, name, expected_type, expected_shape)]: in addition
    [ShapeMismatch] when the extent is not [dims].  [{}] is the shape of a
    scalar. *)
Definition check_and_open_dataset_dims (handle : Group) (name : string)
    (expected_type : H5T_class_t) (expected_dims : list Z) : result DataSet :=
  d ← check_and_open_dataset handle name expected_type;
  if decide (Z.of_N <$> ds_dims d = expected_dims) then Ok d else Err ShapeMismatch.

(** Modelled from the spec: [utils::check_and_open_scalar] of [utils.hpp],
    the accessor's [open_scalar(parent, name, expected_type)]. *)
Definition check_and_open_scalar (handle : Group) (name : string)
    (expected_type : H5T_class_t) : result DataSet :=
  check_and_open_dataset_dims handle name expected_type [].

Definition strings_of (d : DataSet) : list string :=
  match ds_data d with Strings vals => vals | _ => [] end.

Definition integers_of (d : DataSet) : list Z :=
  match ds_data d with Integers vals => vals | _ => [] end.

(** Modelled from the spec: [utils::load_string(dhandle)] of [utils.hpp],
    the value of an opened scalar string dataset. *)
Definition load_string_of (dhandle : DataSet) : string :=
  hd EmptyString (strings_of dhandle).

(** Modelled from the spec: [utils::load_string(handle, name)] of
    [utils.hpp]: open the scalar string [name] and read it. *)
Definition load_string (handle : Group) (name : string) : result string :=
  d ← check_and_open_scalar handle name H5T_STRING;
  Ok (load_string_of d).

(** Modelled from the spec: [utils::load_string_vector(dhandle)] of
    [utils.hpp], the elements of an opened one-dimensional string dataset;
    any other extent is a [ShapeMismatch]. *)
Definition load_string_vector_of (dhandle : DataSet) : result (list string) :=
  if getSimpleExtentNdims dhandle =? 1 then Ok (strings_of dhandle)
  else Err ShapeMismatch.

(** Modelled from the spec: [utils::load_string_vector(handle, name)] of
    [utils.hpp], the accessor's [open_array] for a string array. *)
Definition load_string_vector (handle : Group) (name : string) : result (list string) :=
  d ← check_and_open_dataset handle name H5T_STRING;
  load_string_vector_of d.

(** Modelled from the spec: [utils::load_integer_vector<int>(handle, name)]
    of [utils.hpp], the accessor's [open_array] for an integer array. *)
Definition load_integer_vector (handle : Group) (name : string) : result (list Z) :=
  d ← check_and_open_dataset handle name H5T_INTEGER;
  if getSimpleExtentNdims d =? 1 then Ok (integers_of d) else Err ShapeMismatch.

(** Modelled from the spec: [utils::load_integer_scalar<int>(handle, name)]
    of [utils.hpp], the accessor's [open_scalar] for an integer. *)
Definition load_integer_scalar (handle : Group) (name : string) : result Z :=
  d ← check_and_open_scalar handle name H5T_INTEGER;
  Ok (hd 0 (integers_of d)).

(** Modelled from the spec: [utils::load_integer_scalar<hsize_t>(handle,
    name)] of [utils.hpp]; the parameters phase requires [offset] and
    [size] to be non-negative integers, and the value read is an
    [hsize_t]. *)
Definition load_integer_scalar_hsize (handle : Group) (name : string) : result Z :=
  v ← load_integer_scalar handle name;
  if (0 <=? v) && (v <? hsize_max) then Ok v else Err RangeViolation.

End utils.

(** ** inputs.hpp *)

Module inputs.

Record Details := mkDetails {
  modalities : list string;
  num_features : list Z;
  num_cells : Z;
  num_samples : Z
}.

Record ParamDump := mkParamDump {
  num_matrices : Z;
  multi_matrix : bool;
  multi_sample : bool
}.

(** *** [validate_parameters] *)

(** The block that reads [format]: the flag [multi_matrix] and [formats]. *)
Definition load_formats (phandle : Group) (version : Z) : result (bool * list string) :=
  fhandle ← utils.check_and_open_dataset phandle "format" H5T_STRING;
  if getSimpleExtentNdims fhandle =? 0 then
    Ok (false, [utils.load_string_of fhandle])
  else
    throw_if (version <? 1001000) "'format' should be a scalar string in version 1.0";;
    formats ← utils.load_string_vector_of fhandle;
    Ok (true, formats).

(** The loop over [names] with the [std::unordered_set] [stuff]. *)
Fixpoint check_sample_names (names : list string) (stuff : gset string) : result unit :=
  match names with
  | [] => Ok tt
  | s :: rest =>
      throw_if (bool_decide (s ∈ stuff))
        ("duplicated sample name '" +:+ s +:+ "' in 'sample_names'");;
      check_sample_names rest ({[ s ]} ∪ stuff)
  end.

(** "Checking the runs". *)
Definition load_runs (phandle : Group) (multi_matrix : bool) (formats : list string)
    (nfiles : Z) : result (list Z) :=
  if multi_matrix then
    runs ← utils.load_integer_vector phandle "sample_groups";
    throw_if (negb (length runs =? length formats)%nat)
      "'sample_groups' and 'format' should have the same length";;
    let total_files := fold_left int_add runs 0 in
    throw_if (negb (total_files =? nfiles))
      "sum of 'sample_groups' is not equal to the length of 'files'";;
    names ← utils.load_string_vector phandle "sample_names";
    throw_if (negb (length names =? length formats)%nat)
      "'sample_names' and 'format' should have the same length";;
    check_sample_names names ∅;;
    Ok runs
  else
    Ok [nfiles].

(** The body of the inner loop, for the file at position [sofar]: its
    [type] and, when embedded, its [(offset, size)]. *)
Definition file_info (fihandle : Group) (embedded : bool) (sofar : Z)
    : result (string * list (Z * Z)) :=
  let current := to_string sofar in
  utils.try_catch
    (curfihandle ← utils.check_and_open_group fihandle current;
     utils.check_and_open_dataset_dims curfihandle "name" H5T_STRING [];;
     type ← utils.load_string curfihandle "type";
     if embedded then
       offset ← utils.load_integer_scalar_hsize curfihandle "offset";
       size ← utils.load_integer_scalar_hsize curfihandle "size";
       Ok (type, [(offset, size)])
     else
       utils.check_and_open_dataset_dims curfihandle "id" H5T_STRING [];;
       Ok (type, []))
    ("failed to retrieve information for file " +:+ current).

(** The inner loop [for (int s = 0; s < runs[r]; ++s, ++sofar)], run [n]
    more times; the state is [sofar], [types] and [bytes]. *)
Fixpoint run_files (fihandle : Group) (embedded : bool) (n : nat)
    (sofar : Z) (types : list string) (bytes : list (Z * Z))
    : result (Z * list string * list (Z * Z)) :=
  match n with
  | O => Ok (sofar, types, bytes)
  | S n' =>
      '(type, b) ← file_info fihandle embedded sofar;
      run_files fihandle embedded n' (sofar + 1) (types ++ [type]) (bytes ++ b)
  end.

(** The counting loop over [types] with the [std::unordered_map]
    [expected]. *)
Fixpoint count_types (types : list string) (expected : gmap string Z)
    : result (gmap string Z) :=
  match types with
  | [] => Ok expected
  | t :: rest =>
      match expected !! t with
      | None =>
          Err (runtime_error ("unknown file type '" +:+ t +:+ "' when format is 'MatrixMarket'"))
      | Some c => count_types rest (<[ t := c + 1 ]> expected)
      end
  end.

(** [expected[key]] *)
Definition at_ (expected : gmap string Z) (key : string) : Z :=
  default 0 (expected !! key).

(** The checks on the [types] of one run, by its format [curf]. *)
Definition check_types (curf : string) (types : list string) : result unit :=
  if String.eqb curf "MatrixMarket" then
    expected ← count_types types
      (<[ "annotations" := 0 ]> (<[ "genes" := 0 ]> (<[ "mtx" := 0 ]> ∅)));
    throw_if (negb (at_ expected "mtx" =? 1))
      "expected exactly one 'mtx' file when format is 'MatrixMarket'";;
    throw_if (at_ expected "genes" >? 1)
      "expected no more than one 'genes' file when format is 'MatrixMarket'";;
    throw_if (at_ expected "annotations" >? 1)
      "expected no more than one 'annotation' file when format is 'MatrixMarket'"
  else if String.eqb curf "10X" then
    throw_if (negb (length types =? 1)%nat || negb (String.eqb (hd EmptyString types) "h5"))
      "expected exactly one 'h5' file when format is '10X'"
  else if String.eqb curf "H5AD" then
    throw_if (negb (length types =? 1)%nat || negb (String.eqb (hd EmptyString types) "h5"))
      "expected exactly one 'h5' file when format is 'H5AD'"
  else Ok tt.

(** "Checking the files": the outer loop from run [r] on, over the runs
    that are left; it returns the recorded [bytes]. *)
Fixpoint check_files (fihandle : Group) (embedded : bool) (formats : list string)
    (runs : list Z) (r : nat) (sofar : Z) (bytes : list (Z * Z))
    : result (list (Z * Z)) :=
  match runs with
  | [] => Ok bytes
  | run :: rest =>
      let curf := nth r formats EmptyString in
      '(sofar', types, bytes') ← run_files fihandle embedded (Z.to_nat run) sofar [] bytes;
      check_types curf types;;
      check_files fihandle embedded formats rest (S r) sofar' bytes'
  end.

(** "Checking the files make sense": the loop over [bytes] with the
    running [hsize_t] [sofar]. *)
Fixpoint check_bytes (bytes : list (Z * Z)) (sofar : Z) : result unit :=
  match bytes with
  | [] => Ok tt
  | b :: rest =>
      throw_if (negb (b.1 =? sofar))
        "offsets and sizes of 'files' are not sorted and contiguous";;
      check_bytes rest (hsize_add sofar b.2)
  end.

(** "Checking if there's a batch variable". *)
Definition check_sample_factor (phandle : Group) (multi_matrix : bool) : result bool :=
  if negb multi_matrix && exists_ phandle "sample_factor" then
    utils.check_and_open_dataset_dims phandle "sample_factor" H5T_STRING [];;
    Ok true
  else Ok multi_matrix.

Definition validate_parameters (handle : Group) (embedded : bool) (version : Z)
    : result ParamDump :=
  phandle ← utils.check_and_open_group handle "parameters";
  '(multi_matrix, formats) ← load_formats phandle version;
  let num_matrices := Z.of_nat (length formats) in
  fihandle ← utils.check_and_open_group phandle "files";
  let nfiles := getNumObjs fihandle in
  runs ← load_runs phandle multi_matrix formats nfiles;
  bytes ← check_files fihandle embedded formats runs 0 0 [];
  (if embedded then check_bytes bytes 0 else Ok tt);;
  multi_sample ← check_sample_factor phandle multi_matrix;
  Ok (mkParamDump num_matrices multi_matrix multi_sample).

(** *** [validate_results] *)

(** The loop over the children of [num_features], [n] more times from
    [idx]; the state is the pair of vectors of [output]. *)
Fixpoint load_modalities (fhandle : Group) (n idx : nat)
    (modalities : list string) (num_features : list Z)
    : result (list string * list Z) :=
  match n with
  | O => Ok (modalities, num_features)
  | S n' =>
      let modality := getObjnameByIdx fhandle idx in
      nf ← utils.load_integer_scalar fhandle modality;
      load_modalities fhandle n' (S idx) (modalities ++ [modality]) (num_features ++ [nf])
  end.

(** "Pulling out the dimensions and modalities": [modalities],
    [num_features] and [num_cells] of [output]. *)
Definition load_dimensions (rhandle : Group) (version : Z)
    : result (list string * list Z * Z) :=
  if version <? 2000000 then
    dims ← utils.load_integer_vector rhandle "dimensions";
    throw_if (negb (length dims =? 2)%nat)
      "'dimensions' should be a dataset of length 2";;
    throw_if ((nth 0 dims 0 <? 0) || (nth 1 dims 0 <? 0))
      "'dimensions' should contain non-negative integers";;
    Ok (["RNA"%string], [nth 0 dims 0], nth 1 dims 0)
  else
    num_cells ← utils.load_integer_scalar rhandle "num_cells";
    fhandle ← utils.check_and_open_group rhandle "num_features";
    let nmodals := getNumObjs fhandle in
    throw_if (nmodals =? 0) "number of modalities should be positive";;
    '(modalities, num_features) ← load_modalities fhandle (Z.to_nat nmodals) 0 [] [];
    Ok (modalities, num_features, num_cells).

(** "Checking the number of samples". *)
Definition load_num_samples (rhandle : Group) (param_info : ParamDump) : result Z :=
  num_samples ←
    (if exists_ rhandle "num_samples"
     then utils.load_integer_scalar rhandle "num_samples"
     else Ok 1);
  (if multi_matrix param_info then
     throw_if (negb (num_samples =? num_matrices param_info))
       "'num_samples' should be equal to the number of matrices"
   else
     throw_if (negb (multi_sample param_info) && negb (num_samples =? 1))
       "'num_samples' should be 1 for single matrix inputs without 'sample_factor'");;
  Ok num_samples.

(** The loop of the lambda [check_unique], with the [std::unordered_set]
    [used]. *)
Fixpoint check_unique_from (idx : list Z) (msg : string) (used : gset Z) : result unit :=
  match idx with
  | [] => Ok tt
  | i :: rest =>
      throw_if (i <? 0) (msg +:+ " contains negative values");;
      throw_if (bool_decide (i ∈ used)) (msg +:+ " contains duplicate values");;
      check_unique_from rest msg ({[ i ]} ∪ used)
  end.

Definition check_unique (idx : list Z) (msg : string) : result unit :=
  check_unique_from idx msg ∅.

(** The loop over the modalities of [output], [n] more times from [m]. *)
Fixpoint check_modality_identities (ihandle : Group) (output : Details) (n m : nat)
    : result unit :=
  match n with
  | O => Ok tt
  | S n' =>
      let modality := nth m (modalities output) EmptyString in
      idx ← utils.load_integer_vector ihandle modality;
      throw_if (negb (Z.of_nat (length idx) =? size_t_of_int (nth m (num_features output) 0)))
        ("'identities' for modality '" +:+ modality
           +:+ "' should have length equal to its number of features");;
      check_unique idx ("'identities' for modality '" +:+ modality +:+ "'");;
      check_modality_identities ihandle output n' (S m)
  end.

(** The loop over [perms], with the vector [used] of [perms.size()]
    flags; [size] is [perms.size()]. *)
Fixpoint check_permutation_from (perms : list Z) (size : Z) (used : list Z) : result unit :=
  match perms with
  | [] => Ok tt
  | p :: rest =>
      throw_if ((p <? 0) || (size <=? size_t_of_int p))
        "'permutation' contains out-of-range values";;
      throw_if (negb (default 0 (used !! Z.to_nat p) =? 0))
        "duplicated index in 'permutation'";;
      check_permutation_from rest size (<[ Z.to_nat p := 1 ]> used)
  end.

Definition check_permutation (perms : list Z) : result unit :=
  check_permutation_from perms (Z.of_nat (length perms)) (replicate (length perms) 0).

(** The row-identity checks at the end of [validate_results]. *)
Definition check_identities (rhandle : Group) (param_info : ParamDump) (version : Z)
    (output : Details) : result unit :=
  if 2000000 <=? version then
    ihandle ← utils.check_and_open_group rhandle "identities";
    check_modality_identities ihandle output (length (modalities output)) 0
  else if 1002000 <=? version then
    idx ← utils.load_integer_vector rhandle "identities";
    throw_if (negb (Z.of_nat (length idx) =? size_t_of_int (nth 0 (num_features output) 0)))
      "'identities' should have length equal to the number of genes";;
    check_unique idx "'identities'"
  else if multi_matrix param_info then
    idx ← utils.load_integer_vector rhandle "indices";
    throw_if (negb (Z.of_nat (length idx) =? size_t_of_int (nth 0 (num_features output) 0)))
      "'indices' should have length equal to the number of genes";;
    check_unique idx "'indices'"
  else
    perms ← utils.load_integer_vector rhandle "permutation";
    throw_if (negb (Z.of_nat (length perms) =? size_t_of_int (nth 0 (num_features output) 0)))
      "'permutation' should have length equal to the number of genes";;
    check_permutation perms.

Definition validate_results (handle : Group) (param_info : ParamDump) (version : Z)
    : result Details :=
  rhandle ← utils.check_and_open_group handle "results";
  '(modalities, num_features, num_cells) ← load_dimensions rhandle version;
  num_samples ← load_num_samples rhandle param_info;
  let output := mkDetails modalities num_features num_cells num_samples in
  check_identities rhandle param_info version output;;
  Ok output.

(** *** [validate] *)

Definition validate (handle : Group) (embedded : bool) (version : Z) : result Details :=
  ihandle ← utils.check_and_open_group handle "inputs";
  dump ← utils.try_catch (validate_parameters ihandle embedded version)
            "failed to retrieve parameters from 'inputs'";
  utils.try_catch (validate_results ihandle dump version)
    "failed to retrieve results from 'inputs'".

End inputs.

(** ** misc.hpp *)

(** Modelled from the spec: [check_block_method] of [misc.hpp]; the
    dimensionality-reduction parameters require a [block_method] among
    [none], [regress] and [mnn]. *)
Definition check_block_method (method : string) (version : Z) : result unit :=
  if String.eqb method "none" || String.eqb method "regress" || String.eqb method "mnn"
  then Ok tt
  else Err RangeViolation.

(** Modelled from the spec: [check_pca_contents] of [misc.hpp]; the
    results hold a float matrix [pcs] shaped [[num_cells, observed_pcs]],
    where [observed_pcs] is the stored width and is at most the requested
    [max_pcs], and a float array [var_exp] of length [observed_pcs]; the
    observed width is returned. *)
Definition check_pca_contents (rhandle : Group) (max_pcs num_cells : Z) : result Z :=
  dhandle ← utils.check_and_open_dataset rhandle "pcs" H5T_FLOAT;
  match ds_dims dhandle with
  | [d0; d1] =>
      let obs_pcs := Z.of_N d1 in
      if negb (Z.of_N d0 =? size_t_of_int num_cells) then Err ShapeMismatch
      else if max_pcs <? obs_pcs then Err RangeViolation
      else
        utils.check_and_open_dataset_dims rhandle "var_exp" H5T_FLOAT
          [size_t_of_int obs_pcs];;
        Ok obs_pcs
  | _ => Err ShapeMismatch
  end.

Module markers.

(** Modelled from the spec: [markers::effects] of [misc.hpp], the effect
    sizes of the fixed set of statistics that follow [means] and
    [detected]: [lfc], [delta_detected], [cohen] and [auc]. *)
Definition effects : list string := ["lfc"; "delta_detected"; "cohen"; "auc"].

End markers.

(** ** pca.hpp *)

Module pca.

Definition validate_parameters (handle : Group) (version : Z) : result (Z * string) :=
  phandle ← utils.check_and_open_group handle "parameters";
  nhvgs ← utils.load_integer_scalar phandle "num_hvgs";
  throw_if (nhvgs <=? 0) "number of HVGs must be positive in 'num_hvgs'";;
  npcs ← utils.load_integer_scalar phandle "num_pcs";
  throw_if (npcs <=? 0) "number of PCs must be positive in 'num_pcs'";;
  method ←
    (if 1001000 <=? version then
       method ← utils.load_string phandle "block_method";
       check_block_method method version;;
       Ok method
     else Ok EmptyString);
  Ok (npcs, method).

Definition validate_results (handle : Group) (max_pcs : Z) (block_method : string)
    (num_cells version : Z) : result Z :=
  rhandle ← utils.check_and_open_group handle "results";
  obs_pcs ← check_pca_contents rhandle max_pcs num_cells;
  (if (1001000 <=? version) && (version <? 2000000) then
     if String.eqb block_method "mnn" then
       utils.check_and_open_dataset_dims rhandle "corrected" H5T_FLOAT
         [size_t_of_int num_cells; size_t_of_int obs_pcs];;
       Ok tt
     else Ok tt
   else Ok tt);;
  Ok obs_pcs.

Definition validate (handle : Group) (num_cells version : Z) : result Z :=
  phandle ← utils.check_and_open_group handle "pca";
  '(npcs, bmethod) ← utils.try_catch (validate_parameters phandle version)
                        "failed to retrieve parameters from 'pca'";
  utils.try_catch (validate_results phandle npcs bmethod num_cells version)
    "failed to retrieve results from 'pca'".

End pca.

(** ** combine_embeddings.hpp *)

Module combine_embeddings.

(** The loop over [modalities] that opens one weight each. *)
Fixpoint check_weights (whandle : Group) (modalities : list string) : result unit :=
  match modalities with
  | [] => Ok tt
  | m :: rest =>
      utils.check_and_open_scalar whandle m H5T_FLOAT;;
      check_weights whandle rest
  end.

Definition validate_parameters (handle : Group) (modalities : list string) : result unit :=
  phandle ← utils.check_and_open_group handle "parameters";
  utils.check_and_open_scalar phandle "approximate" H5T_INTEGER;;
  whandle ← utils.check_and_open_group phandle "weights";
  if negb (getNumObjs whandle =? 0) then check_weights whandle modalities
  else Ok tt.

Definition validate_results (handle : Group) (num_cells : Z) (modalities : list string)
    (total_dims : Z) : result unit :=
  rhandle ← utils.check_and_open_group handle "results";
  if (1 <? length modalities)%nat then
    let pdims := [size_t_of_int num_cells; size_t_of_int total_dims] in
    utils.check_and_open_dataset_dims rhandle "combined" H5T_FLOAT pdims;;
    Ok tt
  else Ok tt.

Definition validate (handle : Group) (num_cells : Z) (modalities : list string)
    (total_dims version : Z) : result unit :=
  if version <? 2000000 then Ok tt
  else
    phandle ← utils.check_and_open_group handle "combine_embeddings";
    utils.try_catch (validate_parameters phandle modalities)
      "failed to retrieve parameters from 'combine_embeddings'";;
    utils.try_catch (validate_results phandle num_cells modalities total_dims)
      "failed to retrieve results from 'combine_embeddings'".

End combine_embeddings.

(** ** custom_selections.hpp *)

Module custom_selections.

(** The inner loop over the indices [involved] of the selection [name]. *)
Fixpoint check_involved (involved : list Z) (num_cells : Z) (name : string) : result unit :=
  match involved with
  | [] => Ok tt
  | i :: rest =>
      throw_if ((i <? 0) || (num_cells <=? i))
        ("indices out of range for selection '" +:+ name +:+ "'");;
      check_involved rest num_cells name
  end.

(** The loop over the children of [selections], [n] more times from [i];
    the state is [output]. *)
Fixpoint check_selections (shandle : Group) (num_cells : Z) (n i : nat)
    (output : list string) : result (list string) :=
  match n with
  | O => Ok output
  | S n' =>
      let name := getObjnameByIdx shandle i in
      let output := output ++ [name] in
      involved ← utils.load_integer_vector shandle name;
      check_involved involved num_cells (List.last output EmptyString);;
      check_selections shandle num_cells n' (S i) output
  end.

Definition validate_parameters (handle : Group) (num_cells : Z) : result (list string) :=
  phandle ← utils.check_and_open_group handle "parameters";
  shandle ← utils.check_and_open_group phandle "selections";
  check_selections shandle num_cells (Z.to_nat (getNumObjs shandle)) 0 [].

(** The loop over [markers::effects] of [validate_custom_markers]. *)
Fixpoint check_effects (shandle : Group) (effects : list string) (dims : list Z)
    : result unit :=
  match effects with
  | [] => Ok tt
  | eff :: rest =>
      utils.check_and_open_dataset_dims shandle eff H5T_FLOAT dims;;
      check_effects shandle rest dims
  end.

Definition validate_custom_markers (shandle : Group) (num_features : Z) : result unit :=
  let dims := [size_t_of_int num_features] in
  utils.check_and_open_dataset_dims shandle "means" H5T_FLOAT dims;;
  utils.check_and_open_dataset_dims shandle "detected" H5T_FLOAT dims;;
  check_effects shandle markers.effects dims.

(** The loop over [selections] of the first [validate_results]. *)
Fixpoint check_markers (mhandle : Group) (selections : list string) (num_features : Z)
    : result unit :=
  match selections with
  | [] => Ok tt
  | s :: rest =>
      utils.try_catch
        (shandle ← utils.check_and_open_group mhandle s;
         validate_custom_markers shandle num_features)
        ("failed to retrieve statistics for selection '" +:+ s
           +:+ "' in 'results/markers'");;
      check_markers mhandle rest num_features
  end.

(** [validate_results(handle, selections, num_features)], for the files
    before version 2.0. *)
Definition validate_results (handle : Group) (selections : list string)
    (num_features : Z) : result unit :=
  rhandle ← utils.check_and_open_group handle "results";
  mhandle ← utils.check_and_open_group rhandle "markers";
  throw_if (negb (getNumObjs mhandle =? Z.of_nat (length selections)))
    "number of groups in 'markers' is not consistent with the expected number of selections";;
  check_markers mhandle selections num_features.

(** The loop over the modalities of one selection, [n] more times from
    [a].  [num_features[a]] is read for every [a] below
    [modalities.size()]; the callers pass vectors of the same length. *)
Fixpoint check_selection_modalities (shandle : Group) (modalities : list string)
    (num_features : list Z) (n a : nat) : result unit :=
  match n with
  | O => Ok tt
  | S n' =>
      let modality := nth a modalities EmptyString in
      utils.try_catch
        (ahandle ← utils.check_and_open_group shandle modality;
         validate_custom_markers ahandle (nth a num_features 0))
        ("failed to retrieve statistics for modality '" +:+ modality +:+ "'");;
      check_selection_modalities shandle modalities num_features n' (S a)
  end.

(** The loop over [selections] of the second [validate_results]. *)
Fixpoint check_per_selection (mhandle : Group) (selections modalities : list string)
    (num_features : list Z) : result unit :=
  match selections with
  | [] => Ok tt
  | s :: rest =>
      utils.try_catch
        (shandle ← utils.check_and_open_group mhandle s;
         check_selection_modalities shandle modalities num_features (length modalities) 0)
        ("failed to retrieve statistics for selection '" +:+ s
           +:+ "' in 'results/per_selection'");;
      check_per_selection mhandle rest modalities num_features
  end.

(** [validate_results(handle, selections, modalities, num_features)], for
    the files from version 2.0 on. *)
Definition validate_results_per_modality (handle : Group)
    (selections modalities : list string) (num_features : list Z) : result unit :=
  rhandle ← utils.check_and_open_group handle "results";
  mhandle ← utils.check_and_open_group rhandle "per_selection";
  throw_if (negb (getNumObjs mhandle =? Z.of_nat (length selections)))
    "number of groups in 'per_selection' is not consistent with the expected number of selections";;
  check_per_selection mhandle selections modalities num_features.

(** [num_features[0]] is read before version 2.0; the callers pass a
    vector that is not empty. *)
Definition validate (handle : Group) (num_cells : Z) (modalities : list string)
    (num_features : list Z) (version : Z) : result unit :=
  mhandle ← utils.check_and_open_group handle "custom_selections";
  collected ← utils.try_catch (validate_parameters mhandle num_cells)
                 "failed to retrieve parameters from 'custom_selections'";
  utils.try_catch
    (if 2000000 <=? version
     then validate_results_per_modality mhandle collected modalities num_features
     else validate_results mhandle collected (nth 0 num_features 0))
    "failed to retrieve results from 'custom_selections'".

End custom_selections.

(** ** Building containers *)

Module build.

Definition scalar_string (s : string) : Node :=
  DataSetNode (mkDataSet [] (Strings [s])).

Definition scalar_integer (v : Z) : Node :=
  DataSetNode (mkDataSet [] (Integers [v])).

Definition string_vector (l : list string) : Node :=
  DataSetNode (mkDataSet [N.of_nat (length l)] (Strings l)).

Definition integer_vector (l : list Z) : Node :=
  DataSetNode (mkDataSet [N.of_nat (length l)] (Integers l)).

Definition float_array (dims : list N) : Node :=
  DataSetNode (mkDataSet dims Floats).

(** One entry of [files] for an embedded file. *)
Definition embedded_file (type : string) (offset size : Z) : Node :=
  GroupNode [("name", scalar_string "file"); ("type", scalar_string type);
             ("offset", scalar_integer offset); ("size", scalar_integer size)].

(** The children of [files], named by their position from [i] on. *)
Fixpoint files_from (i : Z) (files : list Node) : Group :=
  match files with
  | [] => []
  | f :: rest => (to_string i, f) :: files_from (i + 1) rest
  end.

(** An [inputs] group with the parameters of several matrices. *)
Definition multi_matrix_parameters (format : list string) (sample_groups : list Z)
    (sample_names : list string) (files : list Node) : Group :=
  [("parameters", GroupNode [
      ("format", string_vector format);
      ("sample_groups", integer_vector sample_groups);
      ("sample_names", string_vector sample_names);
      ("files", GroupNode (files_from 0 files))])].

(** The three embedded files of the end-to-end scenario. *)
Definition scenario_files (types : list string) (third_offset : Z) : list Node :=
  [embedded_file (nth 0 types EmptyString) 0 100;
   embedded_file (nth 1 types EmptyString) 100 200;
   embedded_file (nth 2 types EmptyString) third_offset 50].

Definition scenario (format types : list string) (third_offset : Z) : Group :=
  multi_matrix_parameters format [2; 1] ["a"; "b"]%string
    (scenario_files types third_offset).

(** An [inputs] group with the parameters of a single matrix. *)
Definition single_matrix_parameters (format : string) (files : list Node) : Group :=
  [("parameters", GroupNode [
      ("format", scalar_string format);
      ("files", GroupNode (files_from 0 files))])].

(** Three embedded files whose sizes add up to [2 ^ 64 + 50]. *)
Definition wrapping_bytes : list (Z * Z) :=
  [(0, 2 ^ 64 - 1); (2 ^ 64 - 1, 1); (0, 50)].

Definition wrapping_files : list Node :=
  map (λ b, embedded_file "blob" b.1 b.2) wrapping_bytes.

(** One entry of [files] for a linked file. *)
Definition linked_file (type id : string) : Node :=
  GroupNode [("name", scalar_string "file"); ("type", scalar_string type);
             ("id", scalar_string id)].

(** A version 1.2 file with one MatrixMarket matrix that is split by a
    [sample_factor], [genes] features, [cells] cells and the stored
    [num_samples]. *)
Definition sample_factor_file (genes : list Z) (cells num_samples : Z) : Group :=
  [("inputs", GroupNode [
      ("parameters", GroupNode [
          ("format", scalar_string "MatrixMarket");
          ("files", GroupNode (files_from 0 [linked_file "mtx" "matrix"]));
          ("sample_factor", scalar_string "batch")]);
      ("results", GroupNode [
          ("dimensions", integer_vector [Z.of_nat (length genes); cells]);
          ("num_samples", scalar_integer num_samples);
          ("identities", integer_vector genes)])])].

(** A version 2.0 file with one linked matrix of an application-defined
    format and the modality [RNA], with [genes] features and the stored
    [num_cells]. *)
Definition multimodal_file (genes : list Z) (num_cells : Z) : Group :=
  [("inputs", GroupNode [
      ("parameters", GroupNode [
          ("format", scalar_string "custom");
          ("files", GroupNode (files_from 0 [linked_file "blob" "matrix"]))]);
      ("results", GroupNode [
          ("num_cells", scalar_integer num_cells);
          ("num_features", GroupNode [("RNA", scalar_integer (Z.of_nat (length genes)))]);
          ("identities", GroupNode [("RNA", integer_vector genes)])])])].

(** A version 1.0 results group with a [permutation]. *)
Definition permutation_results (cells : Z) (permutation : list Z) : Group :=
  [("results", GroupNode [
      ("dimensions", integer_vector [Z.of_nat (length permutation); cells]);
      ("permutation", integer_vector permutation)])].

(** The results of a [pca] group: a [pcs] matrix of [num_cells] rows and
    [width] columns, a [var_exp] of length [var_exp], and [more]. *)
Definition pca_results (num_cells width var_exp : N) (more : Group) : Group :=
  [("pcs", float_array [num_cells; width]); ("var_exp", float_array [var_exp])] ++ more.

(** A [pca] group with [num_pcs] requested. *)
Definition pca_stage (block_method : string) (num_pcs : Z) (num_cells width var_exp : N)
    (more : Group) : Group :=
  [("parameters", GroupNode [
      ("num_hvgs", scalar_integer 2000);
      ("num_pcs", scalar_integer num_pcs);
      ("block_method", scalar_string block_method)]);
   ("results", GroupNode (pca_results num_cells width var_exp more))].

Definition pca_file (block_method : string) (num_pcs : Z) (num_cells width var_exp : N)
    (more : Group) : Group :=
  [("pca", GroupNode (pca_stage block_method num_pcs num_cells width var_exp more))].

(** A [combine_embeddings] group with unit weights and empty results. *)
Definition combine_stage : Group :=
  [("parameters", GroupNode [("approximate", scalar_integer 0);
                             ("weights", GroupNode [])]);
   ("results", GroupNode [])].

(** A [custom_selections] group with two selections. *)
Definition selections : Group :=
  [("clusterA", integer_vector [0; 3]); ("clusterB", integer_vector [1; 7])].

Definition selections_stage : Group :=
  [("parameters", GroupNode [("selections", GroupNode selections)])].

(** The parameters of three matrices of an application-defined format
    whose sample groups are [1], [-2147483647] and [-2147483648], over a
    [files] group with the two children ["0"] and ["junk"]. *)
Definition negative_groups_parameters : Group :=
  [("parameters", GroupNode [
      ("format", string_vector ["custom"; "custom"; "custom"]);
      ("sample_groups", integer_vector [1; -2147483647; -2147483648]);
      ("sample_names", string_vector ["a"; "b"; "c"]);
      ("files", GroupNode [("0", linked_file "blob" "matrix");
                           ("junk", scalar_integer 0)])])].

(** The statistics of one selection, for [n] features. *)
Definition statistics (n : N) : Group :=
  map (λ name, (name, float_array [n])) ("means" :: "detected" :: markers.effects)%string.

(** The [custom_selections] group of a file before version 2.0, with the
    two selections and their markers for [n] genes. *)
Definition selections_stage_markers (n : N) : Group :=
  selections_stage ++
  [("results", GroupNode [
      ("markers", GroupNode [("clusterA", GroupNode (statistics n));
                             ("clusterB", GroupNode (statistics n))])])].

(** The [custom_selections] group of a file from version 2.0 on, with the
    two selections; [clusterB] has the statistics of the modalities
    [second]. *)
Definition selections_stage_per_selection (rna adt : N) (second : Group) : Group :=
  selections_stage ++
  [("results", GroupNode [
      ("per_selection", GroupNode [
          ("clusterA", GroupNode [("RNA", GroupNode (statistics rna));
                                  ("ADT", GroupNode (statistics adt))]);
          ("clusterB", GroupNode second)])])].

End build.

(** ** The statements of the specification *)

Module spec.

(** The byte ranges form a contiguous partition starting at zero:
    [offset_0 = 0] and [offset_{k+1} = offset_k + size_k] for every [k]. *)
Definition contiguous_partition (bytes : list (Z * Z)) : Prop :=
  (∀ b, bytes !! 0%nat = Some b → b.1 = 0) ∧
  (∀ (k : nat) b b', bytes !! k = Some b → bytes !! S k = Some b' → b'.1 = b.1 + b.2).



(** The child of [files] for position [k] is a group with a scalar string
    [name], a scalar string [type] and, when embedded, [hsize_t] scalars
    [offset] and [size], otherwise a scalar string [id]. *)
Definition file_entry (fihandle : Group) (embedded : bool) (k : Z) : Prop :=
  ∃ curfihandle,
    utils.check_and_open_group fihandle (to_string k) = Ok curfihandle ∧
    is_ok (utils.check_and_open_dataset_dims curfihandle "name" H5T_STRING []) = true ∧
    is_ok (utils.load_string curfihandle "type") = true ∧
    if embedded
    then is_ok (utils.load_integer_scalar_hsize curfihandle "offset") = true ∧
         is_ok (utils.load_integer_scalar_hsize curfihandle "size") = true
    else is_ok (utils.check_and_open_dataset_dims curfihandle "id" H5T_STRING []) = true.

(** The [type] stored for the file at position [k] of [files]. *)
Definition file_type (fihandle : Group) (k : Z) : result string :=
  curfihandle ← utils.check_and_open_group fihandle (to_string k);
  utils.load_string curfihandle "type".

(** [types] are the types stored for the files of a run of [run] files
    that starts at position [start], in the order of the files. *)
Definition run_types (fihandle : Group) (start run : Z) (types : list string) : Prop :=
  length types = Z.to_nat run ∧
  ∀ (j : nat) ty, types !! j = Some ty →
    file_type fihandle (start + Z.of_nat j) = Ok ty.

(** The number of times [t] occurs among the file types of a run. *)
Definition occurrences (t : string) (types : list string) : Z :=
  Z.of_nat (count_occ string_dec types t).

(** The total number of iterations of the loop over the files: a run
    that is not positive has none. *)
Fixpoint files_visited (runs : list Z) : Z :=
  match runs with
  | [] => 0
  | run :: rest => Z.of_nat (Z.to_nat run) + files_visited rest
  end.

(** [sum(sample_groups)]. *)
Definition sum (l : list Z) : Z := foldr Z.add 0 l.

(** The selection [name] of the group [shandle] is an integer array whose
    indices all lie in [[0, num_cells)]. *)
Definition selection_in_range (shandle : Group) (num_cells : Z) (name : string) : Prop :=
  ∃ involved, utils.load_integer_vector shandle name = Ok involved ∧
              Forall (λ i, 0 ≤ i < num_cells) involved.

(** The selection [name] is an integer array with an index outside
    [[0, num_cells)]. *)
Definition selection_out_of_range (shandle : Group) (num_cells : Z) (name : string) : Prop :=
  ∃ involved, utils.load_integer_vector shandle name = Ok involved ∧
              Exists (λ i, i < 0 ∨ num_cells ≤ i) involved.

End spec.

(** * Properties *)

(** ** The error monad *)

Lemma bind_Ok {A B} (r : result A) (k : A → result B) (b : B) :
  r ≫= k = Ok b ↔ ∃ a, r = Ok a ∧ k a = Ok b.
Proof.
  destruct r as [a|e]; simpl; split.
  - eauto.
  - intros (a' & [= ->] & H). exact H.
  - discriminate.
  - intros (a' & [=] & _).
Qed.

Lemma throw_if_Ok (c : bool) (msg : string) (u : unit) :
  throw_if c msg = Ok u ↔ c = false.
Proof. destruct c, u; simpl; split; congruence. Qed.

Lemma try_catch_Ok {A} (body : result A) (msg : string) (a : A) :
  utils.try_catch body msg = Ok a ↔ body = Ok a.
Proof. destruct body; simpl; split; congruence. Qed.

(** Invert every hypothesis that says a sequence of steps succeeded. *)
Ltac inv_ok :=
  repeat match goal with
  | H : _ ≫= _ = Ok _ |- _ =>
      let a := fresh "a" in let Ha := fresh "Ha" in
      apply bind_Ok in H; destruct H as (a & Ha & H)
  | H : throw_if _ _ = Ok _ |- _ => apply throw_if_Ok in H
  | H : utils.try_catch _ _ = Ok _ |- _ => apply try_catch_Ok in H
  | H : Ok _ = Ok _ |- _ => injection H as H
  | H : Err _ = Ok _ |- _ => discriminate H
  | H : (let '(_, _) := ?p in _) = Ok _ |- _ => destruct p
  | H : (if ?c then _ else _) = Ok _ |- _ =>
      let E := fresh "E" in destruct c eqn:E
  end.

(** ** combine_embeddings *)

(** C10: before version 2.0 [combine_embeddings::validate] returns at once,
    whatever the file holds: the [combine_embeddings] group may be missing
    or malformed. *)
Theorem combine_embeddings_skipped_before_v2
    (handle : Group) (num_cells : Z) (modalities : list string) (total_dims version : Z) :
  version < 2000000 →
  combine_embeddings.validate handle num_cells modalities total_dims version = Ok tt.
Proof.
  intros Hv. unfold combine_embeddings.validate.
  destruct (version <? 2000000) eqn:E; [reflexivity | lia].
Qed.

Lemma combine_embeddings_skipped_before_v2_witness :
  1002000 < 2000000 ∧
  combine_embeddings.validate [("combine_embeddings", build.scalar_integer 0)]
    10 ["RNA"; "ADT"]%string 20 1002000 = Ok tt.
Proof.
  split; [lia |].
  apply (combine_embeddings_skipped_before_v2
           [("combine_embeddings", build.scalar_integer 0)] 10 ["RNA"; "ADT"]%string 20 1002000).
  lia.
Defined.

Lemma check_and_open_dataset_dims_Ok (handle : Group) (name : string)
    (type : H5T_class_t) (dims : list Z) (d : DataSet) :
  utils.check_and_open_dataset_dims handle name type dims = Ok d ↔
  child handle name = Some (DataSetNode d) ∧ getTypeClass d = type ∧
  Z.of_N <$> ds_dims d = dims.
Proof.
  unfold utils.check_and_open_dataset_dims, utils.check_and_open_dataset.
  destruct (child handle name) as [[g|d']|]; simpl.
  - split; [discriminate | intros ([=] & _)].
  - destruct (decide (getTypeClass d' = type)) as [Ht|Ht]; simpl.
    + destruct (decide (Z.of_N <$> ds_dims d' = dims)) as [Hd|Hd].
      * split; [intros [= ->]; auto | intros ([= ->] & _); reflexivity].
      * split; [discriminate | intros ([= ->] & _ & Hd'); contradiction].
    + split; [discriminate | intros ([= ->] & Ht' & _); contradiction].
  - split; [discriminate | intros ([=] & _)].
Qed.

Lemma check_and_open_dataset_dims_absent (handle : Group) (name : string)
    (type : H5T_class_t) (dims : list Z) :
  child handle name = None →
  utils.check_and_open_dataset_dims handle name type dims = Err MissingEntry.
Proof.
  intros H. unfold utils.check_and_open_dataset_dims, utils.check_and_open_dataset.
  rewrite H. reflexivity.
Qed.

(** C8: in the results of [combine_embeddings], [combined] is looked for
    exactly when more than one modality is declared.  With at most one
    modality the results validate whether or not [combined] is there; with
    two or more, they validate exactly when [combined] is a float matrix
    of shape [[num_cells, total_dims]], so its absence is an error, which
    [validate] reports from version 2.0 on. *)
Theorem combined_required_iff_several_modalities
    (handle rhandle : Group) (num_cells : Z) (modalities : list string) (total_dims : Z) :
  utils.check_and_open_group handle "results" = Ok rhandle →
  ((length modalities ≤ 1)%nat →
     combine_embeddings.validate_results handle num_cells modalities total_dims = Ok tt) ∧
  ((1 < length modalities)%nat →
     (combine_embeddings.validate_results handle num_cells modalities total_dims = Ok tt ↔
      ∃ d, child rhandle "combined" = Some (DataSetNode d) ∧
           getTypeClass d = H5T_FLOAT ∧
           Z.of_N <$> ds_dims d = [size_t_of_int num_cells; size_t_of_int total_dims])) ∧
  ((1 < length modalities)%nat → child rhandle "combined" = None →
     combine_embeddings.validate_results handle num_cells modalities total_dims
       = Err MissingEntry ∧
     ∀ (file : Group) (version : Z),
       2000000 ≤ version →
       utils.check_and_open_group file "combine_embeddings" = Ok handle →
       combine_embeddings.validate_parameters handle modalities = Ok tt →
       combine_embeddings.validate file num_cells modalities total_dims version
         = Err (Wrapped "failed to retrieve results from 'combine_embeddings'" MissingEntry)).
Proof.
  intros Hr. unfold combine_embeddings.validate_results. rewrite Hr. simpl.
  split; [| split].
  - intros Hlen. destruct (1 <? length modalities)%nat eqn:E; [| reflexivity].
    apply Nat.ltb_lt in E. lia.
  - intros Hlen. apply Nat.ltb_lt in Hlen. rewrite Hlen. split.
    + intros H. inv_ok. apply check_and_open_dataset_dims_Ok in Ha. eauto.
    + intros (d & Hd). apply check_and_open_dataset_dims_Ok in Hd.
      rewrite Hd. reflexivity.
  - intros Hlen Habs.
    assert (Hres :
      combine_embeddings.validate_results handle num_cells modalities total_dims
        = Err MissingEntry).
    { unfold combine_embeddings.validate_results. rewrite Hr. simpl.
      apply Nat.ltb_lt in Hlen. rewrite Hlen.
      rewrite check_and_open_dataset_dims_absent by exact Habs. reflexivity. }
    split.
    + unfold combine_embeddings.validate_results in Hres.
      rewrite Hr in Hres. exact Hres.
    + intros file version Hv Hf Hp. unfold combine_embeddings.validate.
      destruct (version <? 2000000) eqn:E; [lia |].
      rewrite Hf. simpl. rewrite Hp. simpl. rewrite Hres. reflexivity.
Qed.

Lemma combined_required_iff_several_modalities_witness :
  utils.check_and_open_group build.combine_stage "results" = Ok [] ∧
  combine_embeddings.validate [("combine_embeddings", GroupNode build.combine_stage)]
    100 ["RNA"]%string 20 2001000 = Ok tt ∧
  combine_embeddings.validate [("combine_embeddings", GroupNode build.combine_stage)]
    100 ["RNA"; "ADT"]%string 45 2001000
    = Err (Wrapped "failed to retrieve results from 'combine_embeddings'" MissingEntry).
Proof.
  split; [reflexivity |]. split; [reflexivity |].
  refine (proj2 (proj2 (proj2 (combined_required_iff_several_modalities
            build.combine_stage [] 100 ["RNA"; "ADT"]%string 45 _)) _ _)
            [("combine_embeddings", GroupNode build.combine_stage)] 2001000 _ _ _).
  - reflexivity.
  - simpl. lia.
  - reflexivity.
  - lia.
  - reflexivity.
  - reflexivity.
Defined.

(** ** inputs: the parameters phase *)

Lemma check_types_10X (types : list string) :
  inputs.check_types "10X" types = Ok tt ↔ types = ["h5"%string].
Proof.
  unfold inputs.check_types. simpl. rewrite throw_if_Ok.
  destruct types as [|t [|t' rest]]; simpl.
  - split; discriminate.
  - destruct (String.eqb_spec t "h5") as [->|Hne]; simpl.
    + split; reflexivity.
    + split; [discriminate | intros [= ->]; contradiction].
  - split; discriminate.
Qed.

Lemma check_types_H5AD (types : list string) :
  inputs.check_types "H5AD" types = Ok tt ↔ types = ["h5"%string].
Proof.
  unfold inputs.check_types. simpl. rewrite throw_if_Ok.
  destruct types as [|t [|t' rest]]; simpl.
  - split; discriminate.
  - destruct (String.eqb_spec t "h5") as [->|Hne]; simpl.
    + split; reflexivity.
    + split; [discriminate | intros [= ->]; contradiction].
  - split; discriminate.
Qed.

(** C1, as stated, fails: with [format = ["10X", "10X"]] and
    [sample_groups = [2, 1]] the first matrix has two files, and the
    parameters phase rejects the container with offsets [[0, 100, 300]]. *)
Lemma scenario_10X_two_files_rejected :
  inputs.validate_parameters
    (build.scenario ["10X"; "10X"] ["h5"; "h5"; "h5"] 300)%string true 2001000
  = Err (runtime_error "expected exactly one 'h5' file when format is '10X'").
Proof. vm_compute. reflexivity. Qed.

(** C1, amended: a ["10X"] matrix is exactly one file of type ["h5"], so
    the scenario with [format = ["10X", "10X"]] and
    [sample_groups = [2, 1]] is rejected by the ["10X"] check with either
    vector of offsets, whatever the types of its three files.  With [format = ["MatrixMarket", "10X"]] and files
    of types [mtx], [genes], [h5], sizes [[100, 200, 50]] and offsets
    [[0, 100, 300]] the parameters phase succeeds, and with the third
    offset at [301] it fails with the contiguity error. *)
Theorem scenario_parameters_phase :
  (∀ types, inputs.check_types "10X" types = Ok tt ↔ types = ["h5"%string]) ∧
  (∀ t0 t1 t2 third_offset, third_offset = 300 ∨ third_offset = 301 →
     inputs.validate_parameters
       (build.scenario ["10X"; "10X"]%string [t0; t1; t2] third_offset) true 2001000
     = Err (runtime_error "expected exactly one 'h5' file when format is '10X'")) ∧
  inputs.validate_parameters
    (build.scenario ["MatrixMarket"; "10X"] ["mtx"; "genes"; "h5"] 300)%string true 2001000
  = Ok (inputs.mkParamDump 2 true true) ∧
  inputs.validate_parameters
    (build.scenario ["MatrixMarket"; "10X"] ["mtx"; "genes"; "h5"] 301)%string true 2001000
  = Err (runtime_error "offsets and sizes of 'files' are not sorted and contiguous").
Proof.
  split; [exact check_types_10X |].
  split; [intros t0 t1 t2 o [-> | ->]; vm_compute; reflexivity |].
  split; vm_compute; reflexivity.
Qed.








(** C3 on three embedded files at offsets [0], [2^64 - 1] and [0] with
    sizes [2^64 - 1], [1] and [50]: the offsets are neither sorted nor the
    running sums of the sizes before them (the third should be [2^64]),
    yet the running sum, an [hsize_t], wraps to [0], the contiguity check
    accepts the recorded pairs and the parameters phase succeeds. *)
Lemma wrapping_offsets_accepted :
  inputs.validate_parameters
    (build.single_matrix_parameters "custom" build.wrapping_files) true 2001000
  = Ok (inputs.mkParamDump 1 false false) ∧
  inputs.check_files (build.files_from 0 build.wrapping_files) true ["custom"%string] [3] 0 0 []
  = Ok build.wrapping_bytes ∧
  inputs.check_bytes build.wrapping_bytes 0 = Ok tt ∧
  ¬ spec.contiguous_partition build.wrapping_bytes.
Proof.
  split; [vm_compute; reflexivity |].
  split; [vm_compute; reflexivity |].
  split; [vm_compute; reflexivity |].
  intros [_ Hrec].
  specialize (Hrec 1%nat (2 ^ 64 - 1, 1) (0, 50) eq_refl eq_refl).
  simpl in Hrec. lia.
Qed.


(** *** Sample groups and sample names *)

Lemma int_wrap_add_l (a b : Z) : int_wrap (int_wrap a + b) = int_wrap (a + b).
Proof.
  unfold int_wrap. f_equal.
  replace ((a + 2 ^ 31) mod 2 ^ 32 - 2 ^ 31 + b + 2 ^ 31)
    with ((a + 2 ^ 31) mod 2 ^ 32 + b) by lia.
  rewrite Zplus_mod_idemp_l. f_equal. lia.
Qed.

Lemma accumulate_sum (runs : list Z) (init : Z) :
  fold_left int_add runs (int_wrap init) = int_wrap (init + spec.sum runs).
Proof.
  revert init. induction runs as [|x runs IH]; intros init; simpl.
  - f_equal. unfold spec.sum. simpl. lia.
  - unfold int_add at 2. rewrite int_wrap_add_l, IH. f_equal.
    unfold spec.sum. simpl. lia.
Qed.

Lemma accumulate_from_zero (runs : list Z) :
  fold_left int_add runs 0 = int_wrap (spec.sum runs).
Proof. apply (accumulate_sum runs 0). Qed.

Lemma check_sample_names_Ok (names : list string) (stuff : gset string) :
  inputs.check_sample_names names stuff = Ok tt ↔
  NoDup names ∧ ∀ s, s ∈ names → s ∉ stuff.
Proof.
  revert stuff. induction names as [|s rest IH]; intros stuff; simpl.
  - split; [intros _ | reflexivity]. split; [constructor |].
    intros s Hs. inversion Hs.
  - rewrite bind_Ok. split.
    + intros ([] & Hs & Hrest). apply throw_if_Ok in Hs.
      apply bool_decide_eq_false in Hs.
      apply IH in Hrest as [Hnd Hfresh]. split.
      * constructor; [| exact Hnd]. intros Hin. apply (Hfresh s Hin).
        apply elem_of_union_l, elem_of_singleton. reflexivity.
      * intros s' Hin. apply elem_of_cons in Hin as [-> | Hin]; [exact Hs |].
        intros Hs'. apply (Hfresh s' Hin). apply elem_of_union_r. exact Hs'.
    + intros [Hnd Hfresh]. apply NoDup_cons in Hnd as [Hnotin Hnd].
      exists tt. split.
      * apply throw_if_Ok. apply bool_decide_eq_false. apply Hfresh. left.
      * apply IH. split; [exact Hnd |].
        intros s' Hin. apply not_elem_of_union. split.
        -- apply not_elem_of_singleton. intros ->. contradiction.
        -- apply Hfresh. right. exact Hin.
Qed.

(** The loop over the names stops at the first name that repeats an
    earlier one, or one of [stuff]. *)
Lemma check_sample_names_error (names : list string) (stuff : gset string) :
  inputs.check_sample_names names stuff = Ok tt ∨
  ∃ pre s post,
    names = pre ++ s :: post ∧ NoDup pre ∧ (∀ x, x ∈ pre → x ∉ stuff) ∧
    (s ∈ pre ∨ s ∈ stuff) ∧
    inputs.check_sample_names names stuff
    = Err (runtime_error ("duplicated sample name '" +:+ s +:+ "' in 'sample_names'")).
Proof.
  revert stuff. induction names as [|s rest IH]; intros stuff; simpl.
  - left. reflexivity.
  - destruct (bool_decide (s ∈ stuff)) eqn:Hs; simpl.
    + right. exists [], s, rest. apply bool_decide_eq_true in Hs.
      split; [reflexivity |]. split; [constructor |].
      split; [intros x Hx; inversion Hx |]. split; [right; exact Hs | reflexivity].
    + apply bool_decide_eq_false in Hs.
      destruct (IH ({[ s ]} ∪ stuff)) as [H | (pre & s' & post & -> & Hnd & Hfresh & Hin & H)];
        [left; exact H |].
      right. exists (s :: pre), s', post.
      split; [reflexivity |]. split; [| split; [| split; [| exact H]]].
      * constructor; [| exact Hnd]. intros Hin'. apply (Hfresh s Hin').
        apply elem_of_union_l, elem_of_singleton. reflexivity.
      * intros x Hx. apply elem_of_cons in Hx as [-> | Hx]; [exact Hs |].
        intros Hx'. apply (Hfresh x Hx). apply elem_of_union_r. exact Hx'.
      * destruct Hin as [Hin | Hin]; [left; right; exact Hin |].
        apply elem_of_union in Hin as [Hin | Hin]; [| right; exact Hin].
        apply elem_of_singleton in Hin as ->. left. left.
Qed.

Lemma load_runs_Ok (phandle : Group) (formats : list string) (nfiles : Z) (runs : list Z) :
  inputs.load_runs phandle true formats nfiles = Ok runs ↔
  utils.load_integer_vector phandle "sample_groups" = Ok runs ∧
  ∃ names, utils.load_string_vector phandle "sample_names" = Ok names ∧
    length runs = length formats ∧ length names = length formats ∧
    int_wrap (spec.sum runs) = nfiles ∧ NoDup names.
Proof.
  unfold inputs.load_runs. split.
  - intros H.
    apply bind_Ok in H as (runs' & Hruns & H).
    apply bind_Ok in H as ([] & Hlen & H). apply throw_if_Ok in Hlen.
    apply bind_Ok in H as ([] & Hsum & H). apply throw_if_Ok in Hsum.
    apply bind_Ok in H as (names & Hnames & H).
    apply bind_Ok in H as ([] & Hlen' & H). apply throw_if_Ok in Hlen'.
    apply bind_Ok in H as ([] & Hdup & [= ->]).
    apply negb_false_iff, Nat.eqb_eq in Hlen, Hlen'.
    apply negb_false_iff, Z.eqb_eq in Hsum. rewrite accumulate_from_zero in Hsum.
    apply check_sample_names_Ok in Hdup as [Hnd _].
    split; [exact Hruns |]. exists names. repeat split; auto with lia.
  - intros (Hruns & names & Hnames & Hlen & Hlen' & Hsum & Hnd).
    rewrite Hruns. simpl.
    rewrite Hlen, Nat.eqb_refl. simpl.
    rewrite accumulate_from_zero, Hsum, Z.eqb_refl. simpl.
    rewrite Hnames. simpl.
    rewrite Hlen', Nat.eqb_refl. simpl.
    assert (Hdup : inputs.check_sample_names names ∅ = Ok tt).
    { apply check_sample_names_Ok. split; [exact Hnd |].
      intros s _. apply not_elem_of_empty. }
    rewrite Hdup. reflexivity.
Qed.

(** C5 on three matrices with the sample groups [1], [-2147483647] and
    [-2147483648] and two children of [files]: the groups add up to
    [-4294967294], not to [2], yet the [int] sum of [std::accumulate] wraps
    to [2], the check of the sum passes and the parameters phase
    succeeds, although the second child of [files] is not even a file. *)
Theorem negative_sample_groups_accepted :
  inputs.validate_parameters build.negative_groups_parameters false 2001000
  = Ok (inputs.mkParamDump 3 true true) ∧
  inputs.load_runs
    [("format", build.string_vector ["custom"; "custom"; "custom"]);
     ("sample_groups", build.integer_vector [1; -2147483647; -2147483648]);
     ("sample_names", build.string_vector ["a"; "b"; "c"]);
     ("files", GroupNode [("0", build.linked_file "blob" "matrix");
                          ("junk", build.scalar_integer 0)])]%string
    true ["custom"; "custom"; "custom"]%string 2
  = Ok [1; -2147483647; -2147483648] ∧
  spec.sum [1; -2147483647; -2147483648] = -4294967294 ∧
  spec.sum [1; -2147483647; -2147483648] ≠ 2 ∧
  utils.check_and_open_group
    [("0", build.linked_file "blob" "matrix"); ("junk", build.scalar_integer 0)] "1"
  = Err MissingEntry.
Proof.
  split; [vm_compute; reflexivity |].
  split; [vm_compute; reflexivity |].
  split; [reflexivity |].
  split; [vm_compute; discriminate | reflexivity].
Qed.

(** X22: for a multi-matrix input the block that reads the runs succeeds
    exactly when [sample_groups], [sample_names] and [format] have the
    same length, the [int] sum of [sample_groups] is the number of
    children of [files], and the sample names are pairwise distinct; the
    [int] sum is the sum whenever that lies in [[-2^31, 2^31)].  Each
    violation raises its own error, which fails [validate_parameters];
    the error for a repeated name carries the first name that repeats an
    earlier one.  For a single matrix none of the checks is made: the one
    run holds all the files. *)
Theorem multi_matrix_run_checks (phandle : Group) (formats : list string) (nfiles : Z) :
  (∀ runs, inputs.load_runs phandle true formats nfiles = Ok runs ↔
     utils.load_integer_vector phandle "sample_groups" = Ok runs ∧
     ∃ names, utils.load_string_vector phandle "sample_names" = Ok names ∧
       length runs = length formats ∧ length names = length formats ∧
       int_wrap (spec.sum runs) = nfiles ∧ NoDup names) ∧
  (∀ runs, - 2 ^ 31 ≤ spec.sum runs < 2 ^ 31 → int_wrap (spec.sum runs) = spec.sum runs) ∧
  (∀ runs names,
     utils.load_integer_vector phandle "sample_groups" = Ok runs →
     utils.load_string_vector phandle "sample_names" = Ok names →
     (length runs ≠ length formats →
        inputs.load_runs phandle true formats nfiles
        = Err (runtime_error "'sample_groups' and 'format' should have the same length")) ∧
     (length runs = length formats → int_wrap (spec.sum runs) ≠ nfiles →
        inputs.load_runs phandle true formats nfiles
        = Err (runtime_error "sum of 'sample_groups' is not equal to the length of 'files'")) ∧
     (length runs = length formats → int_wrap (spec.sum runs) = nfiles →
      length names ≠ length formats →
        inputs.load_runs phandle true formats nfiles
        = Err (runtime_error "'sample_names' and 'format' should have the same length")) ∧
     (length runs = length formats → int_wrap (spec.sum runs) = nfiles →
      length names = length formats → ¬ NoDup names →
        ∃ pre s post,
          names = pre ++ s :: post ∧ NoDup pre ∧ s ∈ pre ∧
          inputs.load_runs phandle true formats nfiles
          = Err (runtime_error ("duplicated sample name '" +:+ s +:+ "' in 'sample_names'")))) ∧
  inputs.load_runs phandle false formats nfiles = Ok [nfiles] ∧
  (∀ handle embedded version fihandle multi_matrix,
     utils.check_and_open_group handle "parameters" = Ok phandle →
     inputs.load_formats phandle version = Ok (multi_matrix, formats) →
     utils.check_and_open_group phandle "files" = Ok fihandle →
     nfiles = getNumObjs fihandle →
     (∀ e, inputs.load_runs phandle multi_matrix formats nfiles = Err e →
           inputs.validate_parameters handle embedded version = Err e) ∧
     (∀ dump, inputs.validate_parameters handle embedded version = Ok dump →
           inputs.multi_matrix dump = multi_matrix ∧
           inputs.num_matrices dump = Z.of_nat (length formats) ∧
           ∃ runs, inputs.load_runs phandle multi_matrix formats nfiles = Ok runs)).
Proof.
  split; [intros runs; apply load_runs_Ok |].
  split.
  { intros runs Hrange. unfold int_wrap.
    rewrite Z.mod_small by lia. lia. }
  split.
  { intros runs names Hruns Hnames. unfold inputs.load_runs. rewrite Hruns. simpl.
    split; [| split; [| split]].
    - intros Hlen. apply Nat.eqb_neq in Hlen. rewrite Hlen. reflexivity.
    - intros Hlen Hsum. rewrite Hlen, Nat.eqb_refl. simpl.
      rewrite accumulate_from_zero. apply Z.eqb_neq in Hsum. rewrite Hsum.
      reflexivity.
    - intros Hlen Hsum Hlen'. rewrite Hlen, Nat.eqb_refl. simpl.
      rewrite accumulate_from_zero, Hsum, Z.eqb_refl. simpl.
      rewrite Hnames. simpl. apply Nat.eqb_neq in Hlen'. rewrite Hlen'. reflexivity.
    - intros Hlen Hsum Hlen' Hdup. rewrite Hlen, Nat.eqb_refl. simpl.
      rewrite accumulate_from_zero, Hsum, Z.eqb_refl. simpl.
      rewrite Hnames. simpl. rewrite Hlen', Nat.eqb_refl. simpl.
      destruct (check_sample_names_error names ∅)
        as [H | (pre & s & post & Hsplit & Hnd & _ & Hin & H)].
      + apply check_sample_names_Ok in H as [Hnd _]. contradiction.
      + exists pre, s, post. split; [exact Hsplit |]. split; [exact Hnd |]. split.
        * destruct Hin as [Hin | Hin]; [exact Hin |].
          exfalso. revert Hin. apply not_elem_of_empty.
        * rewrite H. reflexivity. }
  split; [reflexivity |].
  intros handle embedded version fihandle multi Hp Hf Hfi ->.
  unfold inputs.validate_parameters. rewrite Hp. simpl. rewrite Hf. simpl.
  rewrite Hfi. simpl. split.
  - intros e He. rewrite He. reflexivity.
  - intros dump H.
    apply bind_Ok in H as (runs & Hruns & H).
    apply bind_Ok in H as (bytes & Hbytes & H).
    apply bind_Ok in H as ([] & Hcheck & H).
    apply bind_Ok in H as (ms & Hms & [= <-]).
    simpl. eauto.
Qed.

(** ** custom_selections *)

Lemma check_involved_Ok (involved : list Z) (num_cells : Z) (name : string) :
  custom_selections.check_involved involved num_cells name = Ok tt ↔
  Forall (λ i, 0 ≤ i < num_cells) involved.
Proof.
  induction involved as [|i rest IH]; simpl.
  - split; [constructor | reflexivity].
  - rewrite bind_Ok, Forall_cons. split.
    + intros ([] & Hi & Hrest). apply throw_if_Ok in Hi. apply IH in Hrest.
      split; [lia | exact Hrest].
    + intros [Hi Hrest]. exists tt. split; [| apply IH; exact Hrest].
      apply throw_if_Ok. lia.
Qed.

Lemma check_involved_error (involved : list Z) (num_cells : Z) (name : string) :
  Exists (λ i, i < 0 ∨ num_cells ≤ i) involved →
  custom_selections.check_involved involved num_cells name
  = Err (runtime_error ("indices out of range for selection '" +:+ name +:+ "'")).
Proof.
  induction 1 as [i rest Hi | i rest Hex IH]; simpl.
  - replace ((i <? 0) || (num_cells <=? i)) with true by lia. reflexivity.
  - destruct ((i <? 0) || (num_cells <=? i)); simpl; [reflexivity | exact IH].
Qed.

Lemma in_range_or_out (involved : list Z) (num_cells : Z) :
  Forall (λ i, 0 ≤ i < num_cells) involved ∨
  Exists (λ i, i < 0 ∨ num_cells ≤ i) involved.
Proof.
  induction involved as [|i rest [IH | IH]].
  - left. constructor.
  - destruct (decide (0 ≤ i < num_cells)) as [Hi | Hi].
    + left. constructor; assumption.
    + right. apply Exists_cons_hd. lia.
  - right. apply Exists_cons_tl. exact IH.
Qed.

Lemma getObjnameByIdx_lookup (g : Group) (idx : nat) (name : string) :
  (g.*1) !! idx = Some name → getObjnameByIdx g idx = name.
Proof.
  unfold getObjnameByIdx. rewrite list_lookup_fmap.
  destruct (g !! idx) as [[n o]|]; simpl; intros H; congruence.
Qed.

(** The loop over the selections, started at child [i] with [n] children
    left: it succeeds exactly when each of them is in range, and then it
    has appended their names in order. *)
Lemma check_selections_Ok (shandle : Group) (num_cells : Z) (n i : nat)
    (output out : list string) :
  (i + n = length shandle)%nat →
  custom_selections.check_selections shandle num_cells n i output = Ok out ↔
  out = output ++ drop i (shandle.*1) ∧
  ∀ name, name ∈ drop i (shandle.*1) → spec.selection_in_range shandle num_cells name.
Proof.
  revert i output. induction n as [|n IH]; intros i output Hlen; simpl.
  - rewrite drop_ge by (rewrite length_fmap; lia). rewrite app_nil_r. split.
    + intros [= ->]. split; [reflexivity |]. intros name Hin. inversion Hin.
    + intros [-> _]. reflexivity.
  - destruct ((shandle.*1) !! i) as [name|] eqn:Hname.
    2: { apply lookup_ge_None in Hname. rewrite length_fmap in Hname. lia. }
    rewrite (getObjnameByIdx_lookup _ _ _ Hname).
    rewrite (drop_S _ _ _ Hname). rewrite last_last.
    rewrite bind_Ok. split.
    + intros (involved & Hload & H). apply bind_Ok in H as ([] & Hinv & H).
      apply IH in H as [-> Hrest]; [| lia].
      split; [rewrite <- app_assoc; reflexivity |].
      intros name' Hin. apply elem_of_cons in Hin as [-> | Hin]; [| auto].
      exists involved. split; [exact Hload |]. apply check_involved_Ok in Hinv. exact Hinv.
    + intros [-> Hall].
      destruct (Hall name) as (involved & Hload & Hrange); [left |].
      exists involved. split; [exact Hload |].
      apply bind_Ok. exists tt. split; [apply check_involved_Ok; exact Hrange |].
      apply IH; [lia |]. split; [rewrite <- app_assoc; reflexivity |].
      intros name' Hin. apply Hall. right. exact Hin.
Qed.

Lemma drop_cons_inv {A} (l : list A) (i : nat) (x : A) (rest : list A) :
  drop i l = x :: rest → l !! i = Some x ∧ drop (S i) l = rest.
Proof.
  intros H.
  assert (Hx : l !! i = Some x).
  { rewrite <- (Nat.add_0_r i), <- lookup_drop, H. reflexivity. }
  split; [exact Hx |]. rewrite (drop_S _ _ _ Hx) in H. congruence.
Qed.

(** The loop stops at the first child that is not an integer array with all
    its indices in range: a child with an index out of range is reported
    by name, and the error of a child that does not load is passed on. *)
Lemma check_selections_first (shandle : Group) (num_cells : Z) (pre : list string) :
  ∀ (n i : nat) (output : list string) (name : string) (post : list string),
    drop i (shandle.*1) = pre ++ name :: post →
    (i + n = length shandle)%nat →
    (∀ x, x ∈ pre → spec.selection_in_range shandle num_cells x) →
    (spec.selection_out_of_range shandle num_cells name →
       custom_selections.check_selections shandle num_cells n i output
       = Err (runtime_error ("indices out of range for selection '" +:+ name +:+ "'"))) ∧
    (∀ e, utils.load_integer_vector shandle name = Err e →
       custom_selections.check_selections shandle num_cells n i output = Err e).
Proof.
  induction pre as [|p pre IH]; intros n i output name post Hdrop Hlen Hpre.
  - simpl in Hdrop. apply drop_cons_inv in Hdrop as [Hname _].
    destruct n as [|n].
    { apply lookup_lt_Some in Hname. rewrite length_fmap in Hname. lia. }
    simpl. rewrite (getObjnameByIdx_lookup _ _ _ Hname). rewrite last_last. split.
    + intros (involved & Hload & Hex). rewrite Hload. simpl.
      rewrite (check_involved_error _ _ name Hex). reflexivity.
    + intros e He. rewrite He. reflexivity.
  - simpl in Hdrop. apply drop_cons_inv in Hdrop as [Hp Hdrop].
    destruct n as [|n].
    { apply lookup_lt_Some in Hp. rewrite length_fmap in Hp. lia. }
    destruct (Hpre p) as (involved & Hload & Hrange); [left |].
    assert (Hstep : ∀ r,
      custom_selections.check_selections shandle num_cells n (S i) (output ++ [p]) = r →
      custom_selections.check_selections shandle num_cells (S n) i output = r).
    { intros r <-. simpl. rewrite (getObjnameByIdx_lookup _ _ _ Hp). rewrite last_last.
      rewrite Hload. simpl.
      apply check_involved_Ok with (name := p) in Hrange. rewrite Hrange. reflexivity. }
    destruct (IH n (S i) (output ++ [p]) name post Hdrop) as [Hout Herr].
    + lia.
    + intros x Hx. apply Hpre. right. exact Hx.
    + split.
      * intros Hbad. apply Hstep. apply Hout. exact Hbad.
      * intros e He. apply Hstep. apply Herr. exact He.
Qed.

(** A failing loop has such a first child. *)
Lemma check_selections_Err (shandle : Group) (num_cells : Z) (n i : nat)
    (output : list string) (e : Error) :
  (i + n = length shandle)%nat →
  custom_selections.check_selections shandle num_cells n i output = Err e →
  ∃ pre name post,
    drop i (shandle.*1) = pre ++ name :: post ∧
    (∀ x, x ∈ pre → spec.selection_in_range shandle num_cells x) ∧
    ((spec.selection_out_of_range shandle num_cells name ∧
      e = runtime_error ("indices out of range for selection '" +:+ name +:+ "'")) ∨
     utils.load_integer_vector shandle name = Err e).
Proof.
  revert i output. induction n as [|n IH]; intros i output Hlen; simpl.
  - discriminate.
  - destruct ((shandle.*1) !! i) as [name|] eqn:Hname.
    2: { apply lookup_ge_None in Hname. rewrite length_fmap in Hname. lia. }
    rewrite (getObjnameByIdx_lookup _ _ _ Hname). rewrite last_last.
    rewrite (drop_S _ _ _ Hname).
    destruct (utils.load_integer_vector shandle name) as [involved|e'] eqn:Hload; simpl.
    2: { intros [= <-]. exists [], name, (drop (S i) (shandle.*1)).
         split; [reflexivity |]. split; [intros x Hx; inversion Hx | right; exact Hload]. }
    destruct (in_range_or_out involved num_cells) as [Hrange | Hout].
    + pose proof Hrange as Hok.
      apply check_involved_Ok with (name := name) in Hok. rewrite Hok. simpl.
      intros H. apply IH in H as (pre & name' & post & Hdrop & Hpre & Hcase); [| lia].
      exists (name :: pre), name', post. split; [rewrite Hdrop; reflexivity |].
      split; [| exact Hcase].
      intros x Hx. apply elem_of_cons in Hx as [-> | Hx]; [| auto].
      exists involved. auto.
    + rewrite (check_involved_error _ _ name Hout). simpl. intros [= <-].
      exists [], name, (drop (S i) (shandle.*1)).
      split; [reflexivity |]. split; [intros x Hx; inversion Hx |].
      left. split; [exists involved; auto | reflexivity].
Qed.

(** C9: [custom_selections::validate_parameters] succeeds exactly when
    every selection is an integer array with all its indices in
    [[0, num_cells)], and it then returns the names of the selections in
    the order of the children; a selection with a negative index or one
    that is [num_cells] or more makes it fail.  The failure is that of
    the first child, in the order of the children, that is not an
    integer array with all its indices in range: when that child has an
    index out of range the error names it, whatever the children after
    it hold, and when it does not load as an integer array the error of
    the accessor is raised.  Every failure is of one of these two
    kinds. *)
Theorem selections_indices_in_range (handle phandle shandle : Group) (num_cells : Z) :
  utils.check_and_open_group handle "parameters" = Ok phandle →
  utils.check_and_open_group phandle "selections" = Ok shandle →
  (∀ output, custom_selections.validate_parameters handle num_cells = Ok output ↔
     output = shandle.*1 ∧
     ∀ name, name ∈ shandle.*1 → spec.selection_in_range shandle num_cells name) ∧
  ((∃ name, name ∈ shandle.*1 ∧ spec.selection_out_of_range shandle num_cells name) →
     is_ok (custom_selections.validate_parameters handle num_cells) = false) ∧
  (∀ pre name post,
     shandle.*1 = pre ++ name :: post →
     (∀ x, x ∈ pre → spec.selection_in_range shandle num_cells x) →
     spec.selection_out_of_range shandle num_cells name →
     custom_selections.validate_parameters handle num_cells
     = Err (runtime_error ("indices out of range for selection '" +:+ name +:+ "'"))) ∧
  (∀ pre name post e,
     shandle.*1 = pre ++ name :: post →
     (∀ x, x ∈ pre → spec.selection_in_range shandle num_cells x) →
     utils.load_integer_vector shandle name = Err e →
     custom_selections.validate_parameters handle num_cells = Err e) ∧
  (∀ e, custom_selections.validate_parameters handle num_cells = Err e →
     ∃ pre name post,
       shandle.*1 = pre ++ name :: post ∧
       (∀ x, x ∈ pre → spec.selection_in_range shandle num_cells x) ∧
       ((spec.selection_out_of_range shandle num_cells name ∧
         e = runtime_error ("indices out of range for selection '" +:+ name +:+ "'")) ∨
        utils.load_integer_vector shandle name = Err e)).
Proof.
  intros Hp Hs. unfold custom_selections.validate_parameters.
  rewrite Hp. simpl. rewrite Hs. simpl.
  unfold getNumObjs. rewrite Nat2Z.id.
  assert (Hchar : ∀ output,
    custom_selections.check_selections shandle num_cells (length shandle) 0 [] = Ok output ↔
    output = shandle.*1 ∧
    ∀ name, name ∈ shandle.*1 → spec.selection_in_range shandle num_cells name).
  { intros output. rewrite (check_selections_Ok _ _ _ 0 [] output) by lia.
    rewrite drop_0. reflexivity. }
  split; [exact Hchar |]. split; [| split; [| split]].
  - intros (name & Hin & involved & Hload & Hex).
    destruct (custom_selections.check_selections _ _ _ _ _) as [output|e] eqn:E; [| reflexivity].
    destruct (proj1 (Hchar output) eq_refl) as [_ Hall].
    destruct (Hall name Hin) as (involved' & Hload' & Hrange).
    rewrite Hload in Hload'. injection Hload' as <-.
    rewrite Forall_forall in Hrange. apply Exists_exists in Hex as (x & Hx & Hbad).
    specialize (Hrange x Hx). lia.
  - intros pre name post Hnames Hpre Hbad.
    apply (proj1 (check_selections_first shandle num_cells pre (length shandle) 0 []
                    name post ltac:(rewrite drop_0; exact Hnames) ltac:(lia) Hpre)).
    exact Hbad.
  - intros pre name post e Hnames Hpre He.
    apply (proj2 (check_selections_first shandle num_cells pre (length shandle) 0 []
                    name post ltac:(rewrite drop_0; exact Hnames) ltac:(lia) Hpre)).
    exact He.
  - intros e H. apply check_selections_Err in H; [| lia].
    rewrite drop_0 in H. exact H.
Qed.

(** ** inputs: the results phase *)

(** *** The legacy [permutation] *)

Lemma size_t_of_int_nonneg (i : Z) : 0 ≤ i → size_t_of_int i = i.
Proof. intros H. unfold size_t_of_int. destruct (i <? 0) eqn:E; [lia | reflexivity]. Qed.

(** The loop over [perms] with the flags [used]: it succeeds exactly when
    the values left are in range, not flagged yet and pairwise distinct. *)
Lemma check_permutation_from_Ok (perms used : list Z) :
  inputs.check_permutation_from perms (Z.of_nat (length used)) used = Ok tt ↔
  Forall (λ p, 0 ≤ p < Z.of_nat (length used) ∧ used !! Z.to_nat p = Some 0) perms ∧
  NoDup perms.
Proof.
  revert used. induction perms as [|p rest IH]; intros used; simpl.
  - split; [intros _; split; constructor | reflexivity].
  - rewrite bind_Ok. split.
    + intros ([] & Hrange & H). apply throw_if_Ok in Hrange.
      apply bind_Ok in H as ([] & Hflag & H). apply throw_if_Ok in Hflag.
      apply orb_false_iff in Hrange as [Hneg Hsize].
      apply Z.ltb_ge in Hneg. rewrite size_t_of_int_nonneg in Hsize by exact Hneg.
      apply Z.leb_gt in Hsize.
      apply negb_false_iff, Z.eqb_eq in Hflag.
      destruct (used !! Z.to_nat p) as [v|] eqn:Hv.
      2: { apply lookup_ge_None in Hv. lia. }
      simpl in Hflag. subst v.
      rewrite <- (length_insert used (Z.to_nat p) 1) in H.
      apply IH in H as [Hall Hnd]. rewrite length_insert in Hall.
      rewrite Forall_forall in Hall.
      split.
      * constructor; [auto |]. apply Forall_forall. intros q Hq.
        destruct (Hall q Hq) as [Hqr Hqv]. split; [exact Hqr |].
        destruct (decide (Z.to_nat p = Z.to_nat q)) as [Heq|Hne].
        -- rewrite <- Heq in Hqv. rewrite list_lookup_insert_eq in Hqv by lia.
           discriminate.
        -- rewrite list_lookup_insert_ne in Hqv by exact Hne. exact Hqv.
      * constructor; [| exact Hnd]. intros Hin.
        destruct (Hall p Hin) as [_ Hpv].
        rewrite list_lookup_insert_eq in Hpv by lia. discriminate.
    + intros [Hall Hnd]. apply Forall_cons in Hall as [[Hpr Hpv] Hall].
      apply NoDup_cons in Hnd as [Hnotin Hnd].
      exists tt. split.
      { apply throw_if_Ok. rewrite size_t_of_int_nonneg by lia. lia. }
      apply bind_Ok. exists tt. split.
      { apply throw_if_Ok. rewrite Hpv. reflexivity. }
      rewrite <- (length_insert used (Z.to_nat p) 1).
      apply IH. rewrite length_insert. split; [| exact Hnd].
      rewrite Forall_forall in Hall |- *. intros q Hq.
      destruct (Hall q Hq) as [Hqr Hqv]. split; [exact Hqr |].
      rewrite list_lookup_insert_ne; [exact Hqv |].
      intros Heq. apply Hnotin. replace p with q by lia. exact Hq.
Qed.

Lemma check_permutation_from_error (perms : list Z) (size : Z) (used : list Z) :
  inputs.check_permutation_from perms size used = Ok tt ∨
  inputs.check_permutation_from perms size used
    = Err (runtime_error "'permutation' contains out-of-range values") ∨
  inputs.check_permutation_from perms size used
    = Err (runtime_error "duplicated index in 'permutation'").
Proof.
  revert used. induction perms as [|p rest IH]; intros used; simpl.
  - left. reflexivity.
  - destruct ((p <? 0) || (size <=? size_t_of_int p)); simpl; [right; left; reflexivity |].
    destruct (negb (default 0 (used !! Z.to_nat p) =? 0)); simpl;
      [right; right; reflexivity | apply IH].
Qed.

Lemma check_permutation_Ok (perms : list Z) :
  inputs.check_permutation perms = Ok tt ↔
  Forall (λ p, 0 ≤ p < Z.of_nat (length perms)) perms ∧ NoDup perms.
Proof.
  unfold inputs.check_permutation.
  rewrite <- (length_replicate (length perms) 0) at 1.
  rewrite check_permutation_from_Ok. rewrite length_replicate.
  split; intros [Hall Hnd]; (split; [| exact Hnd]).
  - eapply Forall_impl; [exact Hall |]. intros p [Hp _]. exact Hp.
  - eapply Forall_impl; [exact Hall |]. intros p Hp. simpl in Hp.
    split; [exact Hp |]. apply lookup_replicate_2. lia.
Qed.

(** Values in [[0, length)] without a repeat are the indices
    [0 .. length - 1], each exactly once. *)
Lemma in_range_NoDup_bijection (perms : list Z) :
  Forall (λ p, 0 ≤ p < Z.of_nat (length perms)) perms ∧ NoDup perms ↔
  perms ≡ₚ seqZ 0 (Z.of_nat (length perms)).
Proof.
  split.
  - intros [Hall Hnd]. apply submseteq_length_Permutation.
    + apply NoDup_submseteq; [exact Hnd |]. intros p Hp.
      rewrite Forall_forall in Hall. apply elem_of_seqZ. specialize (Hall p Hp). lia.
    + rewrite length_seqZ. lia.
  - intros Hperm. split.
    + apply Forall_forall. intros p Hp. rewrite Hperm in Hp.
      apply elem_of_seqZ in Hp. lia.
    + rewrite Hperm. apply NoDup_seqZ.
Qed.

(** Before version 2.0 the dimensions give the one modality [RNA], with a
    non-negative number of features and of cells. *)
Lemma load_dimensions_before_v2 (rhandle : Group) (version : Z)
    (modalities : list string) (num_features : list Z) (num_cells : Z) :
  version < 2000000 →
  inputs.load_dimensions rhandle version = Ok (modalities, num_features, num_cells) →
  modalities = ["RNA"%string] ∧ 0 ≤ num_cells ∧
  ∃ genes, num_features = [genes] ∧ 0 ≤ genes.
Proof.
  intros Hv. unfold inputs.load_dimensions.
  destruct (version <? 2000000) eqn:E; [| lia]. intros H.
  apply bind_Ok in H as (dims & Hdims & H).
  apply bind_Ok in H as ([] & Hlen & H).
  apply bind_Ok in H as ([] & Hneg & [= <- <- <-]).
  apply throw_if_Ok, orb_false_iff in Hneg as [H0 H1].
  split; [reflexivity |]. split; [lia |]. eexists. split; [reflexivity | lia].
Qed.

(** For a single matrix before version 1.2, what is left of
    [validate_results] after the dimensions and the number of samples is
    the check of [permutation]. *)
Lemma validate_results_permutation (handle rhandle : Group) (param_info : inputs.ParamDump)
    (version : Z) (modalities : list string) (num_features : list Z)
    (num_cells num_samples : Z) :
  version < 1002000 →
  inputs.multi_matrix param_info = false →
  utils.check_and_open_group handle "results" = Ok rhandle →
  inputs.load_dimensions rhandle version = Ok (modalities, num_features, num_cells) →
  inputs.load_num_samples rhandle param_info = Ok num_samples →
  inputs.validate_results handle param_info version =
    ((perms ← utils.load_integer_vector rhandle "permutation";
      throw_if (negb (Z.of_nat (length perms) =? nth 0 num_features 0))
        "'permutation' should have length equal to the number of genes";;
      inputs.check_permutation perms);;
     Ok (inputs.mkDetails modalities num_features num_cells num_samples)).
Proof.
  intros Hv Hmm Hr Hdims Hns.
  unfold inputs.validate_results. rewrite Hr. simpl. rewrite Hdims. simpl.
  rewrite Hns. simpl. unfold inputs.check_identities. simpl.
  destruct (2000000 <=? version) eqn:E1; [lia |].
  destruct (1002000 <=? version) eqn:E2; [lia |].
  rewrite Hmm.
  assert (Hv2 : version < 2000000) by lia.
  destruct (load_dimensions_before_v2 _ _ _ _ _ Hv2 Hdims)
    as (_ & _ & genes & -> & Hgenes).
  simpl. rewrite size_t_of_int_nonneg by exact Hgenes. reflexivity.
Qed.

(** C2: for a single matrix before version 1.2, once the dimensions and
    the number of samples have been read, the results validate exactly
    when [permutation] is an integer array whose length is the number of
    features of the first modality and whose values are in
    [[0, length)] without a repeat, that is when it lists every index
    [0 .. length - 1] exactly once.  A length mismatch, a value out of
    range and a repeated value each raise an error. *)
Theorem permutation_accepted_iff_bijection
    (handle rhandle : Group) (param_info : inputs.ParamDump) (version : Z)
    (modalities : list string) (num_features : list Z) (num_cells num_samples : Z) :
  version < 1002000 →
  inputs.multi_matrix param_info = false →
  utils.check_and_open_group handle "results" = Ok rhandle →
  inputs.load_dimensions rhandle version = Ok (modalities, num_features, num_cells) →
  inputs.load_num_samples rhandle param_info = Ok num_samples →
  (∀ output, inputs.validate_results handle param_info version = Ok output ↔
     output = inputs.mkDetails modalities num_features num_cells num_samples ∧
     ∃ perms, utils.load_integer_vector rhandle "permutation" = Ok perms ∧
       Z.of_nat (length perms) = nth 0 num_features 0 ∧
       Forall (λ p, 0 ≤ p < Z.of_nat (length perms)) perms ∧ NoDup perms) ∧
  (∀ perms, utils.load_integer_vector rhandle "permutation" = Ok perms →
     (is_ok (inputs.validate_results handle param_info version) = true ↔
        Z.of_nat (length perms) = nth 0 num_features 0 ∧
        perms ≡ₚ seqZ 0 (Z.of_nat (length perms))) ∧
     (Z.of_nat (length perms) ≠ nth 0 num_features 0 →
        inputs.validate_results handle param_info version
        = Err (runtime_error "'permutation' should have length equal to the number of genes")) ∧
     (Z.of_nat (length perms) = nth 0 num_features 0 →
      Exists (λ p, p < 0 ∨ Z.of_nat (length perms) ≤ p) perms ∨ ¬ NoDup perms →
        inputs.validate_results handle param_info version
        = Err (runtime_error "'permutation' contains out-of-range values") ∨
        inputs.validate_results handle param_info version
        = Err (runtime_error "duplicated index in 'permutation'"))).
Proof.
  intros Hv Hmm Hr Hdims Hns.
  rewrite (validate_results_permutation _ _ _ _ _ _ _ _ Hv Hmm Hr Hdims Hns).
  split.
  - intros output. split.
    + intros H. apply bind_Ok in H as ([] & H & [= <-]).
      apply bind_Ok in H as (perms & Hload & H).
      apply bind_Ok in H as ([] & Hlen & H). apply throw_if_Ok in Hlen.
      apply check_permutation_Ok in H.
      split; [reflexivity |]. exists perms. split; [exact Hload |]. split; [lia | exact H].
    + intros (-> & perms & Hload & Hlen & Hperm).
      rewrite Hload. simpl. rewrite Hlen, Z.eqb_refl. simpl.
      apply check_permutation_Ok in Hperm. rewrite Hperm. reflexivity.
  - intros perms Hload. rewrite Hload. simpl. split; [| split].
    + rewrite <- in_range_NoDup_bijection, <- check_permutation_Ok.
      destruct (Z.of_nat (length perms) =? nth 0 num_features 0) eqn:E; simpl.
      * apply Z.eqb_eq in E.
        destruct (inputs.check_permutation perms) as [[]|e]; simpl.
        -- split; auto.
        -- split; [discriminate | intros [_ [=]]].
      * apply Z.eqb_neq in E. split; [discriminate | intros [E' _]; contradiction].
    + intros Hlen. apply Z.eqb_neq in Hlen. rewrite Hlen. reflexivity.
    + intros Hlen Hbad. rewrite Hlen, Z.eqb_refl. simpl.
      assert (Hno : inputs.check_permutation perms ≠ Ok tt).
      { intros H. apply check_permutation_Ok in H as [Hall Hnd].
        destruct Hbad as [Hex | Hdup]; [| contradiction].
        rewrite Forall_forall in Hall. apply Exists_exists in Hex as (p & Hp & Hout).
        specialize (Hall p Hp). simpl in Hall. lia. }
      unfold inputs.check_permutation in Hno |- *.
      destruct (check_permutation_from_error perms (Z.of_nat (length perms))
                  (replicate (length perms) 0)) as [H | [H | H]].
      * contradiction.
      * left. rewrite H. reflexivity.
      * right. rewrite H. reflexivity.
Qed.

(** *** The [Details] that [validate] returns *)

Lemma load_num_samples_Ok (rhandle : Group) (param_info : inputs.ParamDump) (num_samples : Z) :
  inputs.load_num_samples rhandle param_info = Ok num_samples →
  (inputs.multi_matrix param_info = true → num_samples = inputs.num_matrices param_info) ∧
  (inputs.multi_matrix param_info = false → inputs.multi_sample param_info = false →
     num_samples = 1).
Proof.
  unfold inputs.load_num_samples. intros H.
  apply bind_Ok in H as (ns & Hns & H).
  apply bind_Ok in H as ([] & Hcheck & [= <-]).
  destruct (inputs.multi_matrix param_info); apply throw_if_Ok in Hcheck.
  - split; [intros _; lia | discriminate].
  - split; [discriminate |]. intros _ Hms. rewrite Hms in Hcheck. simpl in Hcheck. lia.
Qed.

Lemma load_formats_Ok (phandle : Group) (version : Z) (multi_matrix : bool)
    (formats : list string) :
  inputs.load_formats phandle version = Ok (multi_matrix, formats) →
  multi_matrix = false → length formats = 1%nat.
Proof.
  unfold inputs.load_formats. intros H Hmm. subst multi_matrix.
  apply bind_Ok in H as (fhandle & Hf & H).
  destruct (getSimpleExtentNdims fhandle =? 0).
  - injection H as <-. reflexivity.
  - apply bind_Ok in H as ([] & _ & H). apply bind_Ok in H as (fs & _ & [=]).
Qed.

Lemma validate_parameters_Ok (handle : Group) (embedded : bool) (version : Z)
    (dump : inputs.ParamDump) :
  inputs.validate_parameters handle embedded version = Ok dump →
  0 ≤ inputs.num_matrices dump ∧
  (inputs.multi_matrix dump = false → inputs.num_matrices dump = 1) ∧
  (inputs.multi_matrix dump = true → inputs.multi_sample dump = true).
Proof.
  unfold inputs.validate_parameters. intros H.
  apply bind_Ok in H as (phandle & Hp & H).
  apply bind_Ok in H as ([multi formats] & Hf & H).
  apply bind_Ok in H as (fihandle & Hfi & H).
  apply bind_Ok in H as (runs & Hruns & H).
  apply bind_Ok in H as (bytes & Hbytes & H).
  apply bind_Ok in H as ([] & Hcheck & H).
  apply bind_Ok in H as (ms & Hms & [= <-]). simpl.
  split; [lia |]. split.
  - intros Hmm. rewrite (load_formats_Ok _ _ _ _ Hf Hmm). reflexivity.
  - intros ->. unfold inputs.check_sample_factor in Hms. simpl in Hms. congruence.
Qed.

(** C4, as stated, fails: a single matrix with a [sample_factor] may store
    any [num_samples], and a file that stores zero validates. *)
Lemma zero_samples_accepted :
  inputs.validate (build.sample_factor_file [4; 0; 2] 10 0) false 1002000
  = Ok (inputs.mkDetails ["RNA"%string] [3] 10 0) ∧
  ¬ (0 < inputs.num_samples (inputs.mkDetails ["RNA"%string] [3] 10 0)).
Proof. split; [vm_compute; reflexivity | simpl; lia]. Qed.

(** From version 2.0 on, [num_cells] is read as it is stored. *)
Lemma stored_num_cells_returned :
  inputs.validate (build.multimodal_file [4; 0; 2] (-1)) false 2000000
  = Ok (inputs.mkDetails ["RNA"%string] [3] (-1) 1).
Proof. vm_compute. reflexivity. Qed.

(** C4, amended: in the [Details] of a successful [inputs::validate],
    [num_cells] is non-negative before version 2.0; [num_samples] is the
    integer that the results store under [num_samples], or 1 when they
    store none; it is the number of matrices, hence non-negative, for a
    multi-matrix input, is 1 for a single matrix without [sample_factor],
    and is not constrained any further for a single matrix with a
    [sample_factor]. *)
Theorem validated_details (handle : Group) (embedded : bool) (version : Z)
    (output : inputs.Details) :
  inputs.validate handle embedded version = Ok output →
  (version < 2000000 → 0 ≤ inputs.num_cells output) ∧
  ∃ ihandle dump rhandle,
    utils.check_and_open_group handle "inputs" = Ok ihandle ∧
    inputs.validate_parameters ihandle embedded version = Ok dump ∧
    utils.check_and_open_group ihandle "results" = Ok rhandle ∧
    (if exists_ rhandle "num_samples"
     then utils.load_integer_scalar rhandle "num_samples" = Ok (inputs.num_samples output)
     else inputs.num_samples output = 1) ∧
    (inputs.multi_matrix dump = true →
       inputs.num_samples output = inputs.num_matrices dump ∧
       0 ≤ inputs.num_samples output) ∧
    (inputs.multi_matrix dump = false → inputs.multi_sample dump = false →
       inputs.num_samples output = 1).
Proof.
  unfold inputs.validate. intros H.
  apply bind_Ok in H as (ihandle & Hi & H).
  apply bind_Ok in H as (dump & Hdump & H).
  apply try_catch_Ok in Hdump, H.
  unfold inputs.validate_results in H.
  apply bind_Ok in H as (rhandle & Hr & H).
  apply bind_Ok in H as ([[mods nfeat] ncells] & Hdims & H).
  apply bind_Ok in H as (ns & Hns & H).
  apply bind_Ok in H as ([] & Hid & [= <-]). simpl.
  split.
  - intros Hv. destruct (load_dimensions_before_v2 _ _ _ _ _ Hv Hdims) as (_ & Hc & _).
    exact Hc.
  - exists ihandle, dump, rhandle. split; [exact Hi |]. split; [exact Hdump |].
    split; [exact Hr |]. split.
    { unfold inputs.load_num_samples in Hns.
      apply bind_Ok in Hns as (stored & Hstored & Hns).
      apply bind_Ok in Hns as ([] & _ & [= <-]).
      destruct (exists_ rhandle "num_samples"); [exact Hstored |].
      injection Hstored as <-. reflexivity. }
    destruct (load_num_samples_Ok _ _ _ Hns) as [Hmulti Hsingle].
    destruct (validate_parameters_Ok _ _ _ _ Hdump) as (Hnm & _ & _).
    split; [| exact Hsingle].
    intros Hmm. specialize (Hmulti Hmm). split; [exact Hmulti | lia].
Qed.

Lemma validated_details_witness :
  inputs.validate (build.sample_factor_file [4; 0; 2] 10 2) false 1002000
  = Ok (inputs.mkDetails ["RNA"%string] [3] 10 2) ∧
  0 ≤ inputs.num_cells (inputs.mkDetails ["RNA"%string] [3] 10 2).
Proof.
  assert (H : inputs.validate (build.sample_factor_file [4; 0; 2] 10 2) false 1002000
              = Ok (inputs.mkDetails ["RNA"%string] [3] 10 2))
    by (vm_compute; reflexivity).
  split; [exact H |].
  apply (proj1 (validated_details _ false 1002000 _ H)). lia.
Defined.

(** ** pca *)

Lemma size_t_of_int_of_N (n : N) : size_t_of_int (Z.of_N n) = Z.of_N n.
Proof. apply size_t_of_int_nonneg. lia. Qed.

Lemma check_and_open_dataset_Ok (handle : Group) (name : string)
    (type : H5T_class_t) (d : DataSet) :
  utils.check_and_open_dataset handle name type = Ok d ↔
  child handle name = Some (DataSetNode d) ∧ getTypeClass d = type.
Proof.
  unfold utils.check_and_open_dataset.
  destruct (child handle name) as [[g|d']|]; simpl.
  - split; [discriminate | intros ([=] & _)].
  - destruct (decide (getTypeClass d' = type)) as [Ht|Ht].
    + split; [intros [= ->]; auto | intros ([= ->] & _); reflexivity].
    + split; [discriminate | intros ([= ->] & Ht'); contradiction].
  - split; [discriminate | intros ([=] & _)].
Qed.

(** What [check_pca_contents] has established when it returns. *)
Lemma check_pca_contents_Ok (rhandle : Group) (max_pcs num_cells obs_pcs : Z) :
  check_pca_contents rhandle max_pcs num_cells = Ok obs_pcs ↔
  ∃ pcs var_exp,
    child rhandle "pcs" = Some (DataSetNode pcs) ∧ getTypeClass pcs = H5T_FLOAT ∧
    Z.of_N <$> ds_dims pcs = [size_t_of_int num_cells; obs_pcs] ∧
    obs_pcs ≤ max_pcs ∧
    child rhandle "var_exp" = Some (DataSetNode var_exp) ∧
    getTypeClass var_exp = H5T_FLOAT ∧
    Z.of_N <$> ds_dims var_exp = [obs_pcs].
Proof.
  unfold check_pca_contents. split.
  - intros H. apply bind_Ok in H as (pcs & Hp & H).
    apply check_and_open_dataset_Ok in Hp as [Hp Htp].
    destruct (ds_dims pcs) as [|d0 [|d1 [|d2 rest]]] eqn:Hd; try discriminate.
    destruct (Z.of_N d0 =? size_t_of_int num_cells) eqn:E0; simpl in H; [| discriminate].
    destruct (max_pcs <? Z.of_N d1) eqn:E1; [discriminate |].
    apply bind_Ok in H as (var_exp & Hv & [= <-]).
    apply check_and_open_dataset_dims_Ok in Hv as (Hv & Htv & Hdv).
    rewrite size_t_of_int_of_N in Hdv.
    exists pcs, var_exp. rewrite Hd. simpl.
    apply Z.eqb_eq in E0. rewrite E0. repeat split; auto. lia.
  - intros (pcs & var_exp & Hp & Htp & Hdp & Hle & Hv & Htv & Hdv).
    assert (Hopen : utils.check_and_open_dataset rhandle "pcs" H5T_FLOAT = Ok pcs)
      by (apply check_and_open_dataset_Ok; auto).
    rewrite Hopen. simpl.
    destruct (ds_dims pcs) as [|d0 [|d1 [|d2 rest]]]; try discriminate.
    injection Hdp as H0 H1. subst obs_pcs. rewrite H0, Z.eqb_refl. simpl.
    destruct (max_pcs <? Z.of_N d1) eqn:E1; [lia |].
    rewrite size_t_of_int_of_N.
    assert (Hopen' : utils.check_and_open_dataset_dims rhandle "var_exp" H5T_FLOAT [Z.of_N d1]
                     = Ok var_exp) by (apply check_and_open_dataset_dims_Ok; auto).
    rewrite Hopen'. reflexivity.
Qed.

(** C6: once the [pcs] and [var_exp] of the PCA results have been
    checked, a float matrix [corrected] with the shape
    [[num_cells, observed_pcs]] of [pcs] is required exactly when
    [block_method] is ["mnn"] and the version is in [[1.1, 2.0)]: the
    results then validate exactly when it is there, and its absence is an
    error; in every other case the results validate whatever [corrected]
    is. *)
Theorem corrected_required_iff_mnn_v1 (handle rhandle : Group) (max_pcs : Z)
    (block_method : string) (num_cells version obs_pcs : Z) :
  utils.check_and_open_group handle "results" = Ok rhandle →
  check_pca_contents rhandle max_pcs num_cells = Ok obs_pcs →
  (∃ pcs, child rhandle "pcs" = Some (DataSetNode pcs) ∧
          Z.of_N <$> ds_dims pcs = [size_t_of_int num_cells; obs_pcs]) ∧
  (block_method = "mnn"%string ∧ 1001000 ≤ version < 2000000 →
     (pca.validate_results handle max_pcs block_method num_cells version = Ok obs_pcs ↔
      ∃ corrected pcs,
        child rhandle "corrected" = Some (DataSetNode corrected) ∧
        getTypeClass corrected = H5T_FLOAT ∧
        child rhandle "pcs" = Some (DataSetNode pcs) ∧
        ds_dims corrected = ds_dims pcs) ∧
     (child rhandle "corrected" = None →
        pca.validate_results handle max_pcs block_method num_cells version
        = Err MissingEntry)) ∧
  (¬ (block_method = "mnn"%string ∧ 1001000 ≤ version < 2000000) →
     pca.validate_results handle max_pcs block_method num_cells version = Ok obs_pcs).
Proof.
  intros Hr Hpca. unfold pca.validate_results. rewrite Hr. simpl. rewrite Hpca. simpl.
  pose proof Hpca as Hshape.
  apply check_pca_contents_Ok in Hshape
    as (pcs & var_exp & Hp & Htp & Hdp & Hle & Hv & Htv & Hdv).
  assert (Hobs : 0 ≤ obs_pcs).
  { destruct (ds_dims pcs) as [|d0 [|d1 [|d2 rest]]]; try discriminate.
    injection Hdp as _ <-. lia. }
  rewrite (size_t_of_int_nonneg obs_pcs Hobs).
  split; [eauto |]. split.
  - intros [-> Hv']. simpl.
    replace ((1001000 <=? version) && (version <? 2000000)) with true by lia.
    split.
    + split.
      * intros H. apply bind_Ok in H as ([] & H & _).
        apply bind_Ok in H as (corrected & Hc & _).
        apply check_and_open_dataset_dims_Ok in Hc as (Hc & Htc & Hdc).
        exists corrected, pcs. repeat split; auto.
        rewrite <- Hdp in Hdc. revert Hdc. apply (inj (fmap Z.of_N)).
      * intros (corrected & pcs' & Hc & Htc & Hp' & Hdc).
        rewrite Hp in Hp'. injection Hp' as <-.
        assert (Hopen : utils.check_and_open_dataset_dims rhandle "corrected" H5T_FLOAT
                          [size_t_of_int num_cells; obs_pcs] = Ok corrected).
        { apply check_and_open_dataset_dims_Ok. rewrite Hdc. auto. }
        rewrite Hopen. reflexivity.
    + intros Habs. rewrite check_and_open_dataset_dims_absent by exact Habs. reflexivity.
  - intros Hnot.
    destruct ((1001000 <=? version) && (version <? 2000000)) eqn:Ev; [| reflexivity].
    destruct (String.eqb_spec block_method "mnn") as [-> | Hne]; [| reflexivity].
    exfalso. apply Hnot. split; [reflexivity | lia].
Qed.

Lemma corrected_required_iff_mnn_v1_witness :
  utils.check_and_open_group (build.pca_stage "mnn" 50 100 30 30 []) "results"
  = Ok (build.pca_results 100 30 30 []) ∧
  check_pca_contents (build.pca_results 100 30 30 []) 50 100 = Ok 30 ∧
  pca.validate_results (build.pca_stage "mnn" 50 100 30 30 []) 50 "mnn" 100 1001000
  = Err MissingEntry ∧
  pca.validate_results (build.pca_stage "mnn" 50 100 30 30 []) 50 "mnn" 100 2000000
  = Ok 30.
Proof.
  split; [reflexivity |]. split; [reflexivity |]. split.
  - refine (proj2 (proj1 (proj2 (corrected_required_iff_mnn_v1
              (build.pca_stage "mnn" 50 100 30 30 []) (build.pca_results 100 30 30 [])
              50 "mnn" 100 1001000 30 eq_refl eq_refl)) _) eq_refl).
    split; [reflexivity | lia].
  - refine (proj2 (proj2 (corrected_required_iff_mnn_v1
              (build.pca_stage "mnn" 50 100 30 30 []) (build.pca_results 100 30 30 [])
              50 "mnn" 100 2000000 30 eq_refl eq_refl)) _).
    intros [_ Hv]. lia.
Defined.

(** C7: the width of [pcs] is read from the file and only bounded by the
    requested [num_pcs]: when [pcs] is a float matrix with [num_cells]
    rows and a width of at most [max_pcs], the contents validate exactly
    when [var_exp] is a float array of that width, and that width is
    returned.  With 50 PCs requested and 30 columns stored,
    [pca::validate] returns 30 when [var_exp] has length 30 and fails when
    it has length 50. *)
Theorem observed_pcs_is_stored_width :
  (∀ (rhandle : Group) (max_pcs num_cells : Z) (pcs : DataSet) (rows width : N),
     child rhandle "pcs" = Some (DataSetNode pcs) →
     getTypeClass pcs = H5T_FLOAT →
     ds_dims pcs = [rows; width] →
     Z.of_N rows = size_t_of_int num_cells →
     Z.of_N width ≤ max_pcs →
     ∀ obs_pcs, check_pca_contents rhandle max_pcs num_cells = Ok obs_pcs ↔
       obs_pcs = Z.of_N width ∧
       ∃ var_exp, child rhandle "var_exp" = Some (DataSetNode var_exp) ∧
                  getTypeClass var_exp = H5T_FLOAT ∧ ds_dims var_exp = [width]) ∧
  (∀ version, version = 1000000 ∨ version = 1002000 ∨ version = 2001000 →
     pca.validate (build.pca_file "none" 50 100 30 30 []) 100 version = Ok 30 ∧
     pca.validate (build.pca_file "none" 50 100 30 50 []) 100 version
     = Err (Wrapped "failed to retrieve results from 'pca'" ShapeMismatch)).
Proof.
  split.
  - intros rhandle max_pcs num_cells pcs rows width Hp Htp Hdp Hrows Hle obs_pcs.
    rewrite check_pca_contents_Ok. split.
    + intros (pcs' & var_exp & Hp' & _ & Hdp' & _ & Hv & Htv & Hdv).
      rewrite Hp in Hp'. injection Hp' as <-. rewrite Hdp in Hdp'.
      injection Hdp' as _ <-. split; [reflexivity |].
      exists var_exp. repeat split; auto.
      revert Hdv. change [Z.of_N width] with (Z.of_N <$> [width]).
      apply (inj (fmap Z.of_N)).
    + intros (-> & var_exp & Hv & Htv & Hdv).
      exists pcs, var_exp. rewrite Hdp, Hdv. simpl. rewrite Hrows. auto 10.
  - intros version [-> | [-> | ->]]; split; vm_compute; reflexivity.
Qed.

(** ** Instances of the theorems on small files *)

Lemma permutation_accepted_iff_bijection_witness :
  1000000 < 1002000 ∧
  is_ok (inputs.validate_results (build.permutation_results 10 [2; 0; 1])
           (inputs.mkParamDump 1 false false) 1000000) = true ∧
  inputs.validate_results (build.permutation_results 10 [0; 0; 2])
    (inputs.mkParamDump 1 false false) 1000000
  = Err (runtime_error "duplicated index in 'permutation'").
Proof.
  split; [lia |]. split; [| vm_compute; reflexivity].
  refine (proj2 (proj1 (proj2 (permutation_accepted_iff_bijection
            (build.permutation_results 10 [2; 0; 1])
            [("dimensions", build.integer_vector [3; 10]);
             ("permutation", build.integer_vector [2; 0; 1])]
            (inputs.mkParamDump 1 false false) 1000000 ["RNA"%string] [3] 10 1
            _ eq_refl eq_refl eq_refl eq_refl) [2; 0; 1] eq_refl)) _).
  - lia.
  - split; [reflexivity |].
    apply in_range_NoDup_bijection. split.
    + repeat constructor; simpl; lia.
    + apply (bool_decide_unpack _). vm_compute. reflexivity.
Defined.

Lemma selections_indices_in_range_witness :
  utils.check_and_open_group build.selections_stage "parameters"
  = Ok [("selections", GroupNode build.selections)] ∧
  custom_selections.validate_parameters build.selections_stage 10
  = Ok ["clusterA"; "clusterB"]%string ∧
  custom_selections.validate_parameters build.selections_stage 5
  = Err (runtime_error "indices out of range for selection 'clusterB'") ∧
  custom_selections.validate_parameters build.selections_stage 2
  = Err (runtime_error "indices out of range for selection 'clusterA'").
Proof.
  split; [reflexivity |]. split; [reflexivity |]. split.
  - refine (proj1 (proj2 (proj2 (selections_indices_in_range build.selections_stage
              [("selections", GroupNode build.selections)] build.selections 5
              eq_refl eq_refl))) ["clusterA"%string] "clusterB"%string [] eq_refl _ _).
    + intros x Hx. apply list_elem_of_singleton in Hx as ->.
      exists [0; 3]. split; [reflexivity |]. repeat constructor; lia.
    + exists [1; 7]. split; [reflexivity |]. right. left. lia.
  - refine (proj1 (proj2 (proj2 (selections_indices_in_range build.selections_stage
              [("selections", GroupNode build.selections)] build.selections 2
              eq_refl eq_refl))) [] "clusterA"%string ["clusterB"%string] eq_refl _ _).
    + intros x Hx. inversion Hx.
    + exists [0; 3]. split; [reflexivity |]. right. left. lia.
Defined.

Lemma multi_matrix_run_checks_witness :
  inputs.load_runs
    [("sample_groups", build.integer_vector [2; 2]);
     ("sample_names", build.string_vector ["a"; "b"]%string)]
    true ["MatrixMarket"; "10X"]%string 3
  = Err (runtime_error "sum of 'sample_groups' is not equal to the length of 'files'").
Proof.
  refine (proj1 (proj2 (proj1 (proj2 (proj2 (multi_matrix_run_checks
            [("sample_groups", build.integer_vector [2; 2]);
             ("sample_names", build.string_vector ["a"; "b"]%string)]
            ["MatrixMarket"; "10X"]%string 3))) [2; 2] ["a"; "b"]%string eq_refl eq_refl))
          eq_refl _).
  vm_compute. discriminate.
Defined.


(** * Further properties of the validators *)

(** ** inputs: the format and the flags of the parameters *)

Lemma bind_Err {A B} (r : result A) (k : A → result B) (e : Error) :
  r ≫= k = Err e ↔ r = Err e ∨ ∃ a, r = Ok a ∧ k a = Err e.
Proof.
  destruct r as [a|e']; simpl; split.
  - eauto.
  - intros [[=] | (a' & [= ->] & H)]. exact H.
  - intros [= ->]. left. reflexivity.
  - intros [[= ->] | (a' & [=] & _)]. reflexivity.
Qed.

Lemma throw_if_Err (c : bool) (msg : string) (e : Error) :
  throw_if c msg = Err e ↔ c = true ∧ e = runtime_error msg.
Proof.
  destruct c; simpl; split.
  - intros [= <-]. auto.
  - intros [_ ->]. reflexivity.
  - discriminate.
  - intros [[=] _].
Qed.

Lemma try_catch_Err {A} (body : result A) (msg : string) (e : Error) :
  utils.try_catch body msg = Err e ↔ ∃ inner, body = Err inner ∧ e = Wrapped msg inner.
Proof.
  destruct body as [a|e']; simpl; split.
  - discriminate.
  - intros (inner & [=] & _).
  - intros [= <-]. eauto.
  - intros (inner & [= <-] & ->). reflexivity.
Qed.

(** X1: The flags that [validate_parameters] returns, read off the file:
    [multi_matrix] says whether [format] is an array, [num_matrices] is
    the number of formats, and [multi_sample] holds for several matrices
    and for a single matrix with a [sample_factor]. *)
Theorem parameter_dump_flags (handle : Group) (embedded : bool) (version : Z)
    (dump : inputs.ParamDump) :
  inputs.validate_parameters handle embedded version = Ok dump →
  ∃ phandle fhandle,
    utils.check_and_open_group handle "parameters" = Ok phandle ∧
    utils.check_and_open_dataset phandle "format" H5T_STRING = Ok fhandle ∧
    inputs.multi_matrix dump = negb (getSimpleExtentNdims fhandle =? 0) ∧
    (inputs.multi_matrix dump = false → inputs.num_matrices dump = 1) ∧
    (inputs.multi_matrix dump = true →
       getSimpleExtentNdims fhandle = 1 ∧
       inputs.num_matrices dump = Z.of_nat (length (utils.strings_of fhandle))) ∧
    inputs.multi_sample dump
      = inputs.multi_matrix dump || exists_ phandle "sample_factor".
Proof.
  unfold inputs.validate_parameters. intros H.
  apply bind_Ok in H as (phandle & Hp & H).
  apply bind_Ok in H as ([multi formats] & Hf & H).
  apply bind_Ok in H as (fihandle & Hfi & H).
  apply bind_Ok in H as (runs & Hruns & H).
  apply bind_Ok in H as (bytes & Hbytes & H).
  apply bind_Ok in H as ([] & Hcheck & H).
  apply bind_Ok in H as (ms & Hms & [= <-]). simpl.
  unfold inputs.load_formats in Hf.
  apply bind_Ok in Hf as (fhandle & Hfh & Hf).
  exists phandle, fhandle. split; [exact Hp |]. split; [exact Hfh |].
  assert (Hflag : ms = multi || exists_ phandle "sample_factor").
  { unfold inputs.check_sample_factor in Hms.
    destruct multi; simpl in Hms |- *; [congruence |].
    destruct (exists_ phandle "sample_factor"); simpl in Hms |- *.
    - apply bind_Ok in Hms as (d & _ & [= <-]). reflexivity.
    - congruence. }
  destruct (getSimpleExtentNdims fhandle =? 0) eqn:E.
  - injection Hf as <- <-. simpl. repeat split; auto; discriminate.
  - apply bind_Ok in Hf as ([] & Hv & Hf).
    apply bind_Ok in Hf as (fs & Hfs & [= <- <-]). simpl.
    unfold utils.load_string_vector_of in Hfs.
    destruct (getSimpleExtentNdims fhandle =? 1) eqn:E1; [| discriminate].
    injection Hfs as <-.
    repeat split; auto; try discriminate. lia.
Qed.

Lemma parameter_dump_flags_witness :
  inputs.validate_parameters
    (build.scenario ["MatrixMarket"; "10X"] ["mtx"; "genes"; "h5"] 300)%string true 2001000
  = Ok (inputs.mkParamDump 2 true true) ∧
  ∃ phandle fhandle,
    utils.check_and_open_group
      (build.scenario ["MatrixMarket"; "10X"] ["mtx"; "genes"; "h5"] 300)%string "parameters"
    = Ok phandle ∧
    utils.check_and_open_dataset phandle "format" H5T_STRING = Ok fhandle ∧
    true = negb (getSimpleExtentNdims fhandle =? 0).
Proof.
  assert (H : inputs.validate_parameters
    (build.scenario ["MatrixMarket"; "10X"] ["mtx"; "genes"; "h5"] 300)%string true 2001000
    = Ok (inputs.mkParamDump 2 true true)) by (vm_compute; reflexivity).
  split; [exact H |].
  destruct (parameter_dump_flags _ _ _ _ H) as (phandle & fhandle & Hp & Hf & Hm & _).
  exists phandle, fhandle. auto.
Defined.

(** X2: Before version 1.1 [format] has to be a scalar: an array raises an
    error, and a file that passes the parameters phase holds a single
    matrix. *)
Theorem format_scalar_before_v1_1 (handle phandle : Group) (embedded : bool) (version : Z)
    (fhandle : DataSet) :
  version < 1001000 →
  utils.check_and_open_group handle "parameters" = Ok phandle →
  utils.check_and_open_dataset phandle "format" H5T_STRING = Ok fhandle →
  (getSimpleExtentNdims fhandle ≠ 0 →
     inputs.validate_parameters handle embedded version
     = Err (runtime_error "'format' should be a scalar string in version 1.0")) ∧
  (∀ dump, inputs.validate_parameters handle embedded version = Ok dump →
     getSimpleExtentNdims fhandle = 0 ∧
     inputs.multi_matrix dump = false ∧ inputs.num_matrices dump = 1).
Proof.
  intros Hv Hp Hf. unfold inputs.validate_parameters, inputs.load_formats.
  rewrite Hp. simpl. rewrite Hf. simpl.
  destruct (getSimpleExtentNdims fhandle =? 0) eqn:E.
  - split; [intros Hn; lia |]. intros dump H.
    apply bind_Ok in H as ([multi formats] & [= <- <-] & H).
    apply bind_Ok in H as (fihandle & _ & H).
    apply bind_Ok in H as (runs & _ & H).
    apply bind_Ok in H as (bytes & _ & H).
    apply bind_Ok in H as ([] & _ & H).
    apply bind_Ok in H as (ms & _ & [= <-]). simpl. split; [lia | auto].
  - replace (version <? 1001000) with true by lia. simpl.
    split; [reflexivity | discriminate].
Qed.

Lemma format_scalar_before_v1_1_witness :
  1000000 < 1001000 ∧
  inputs.validate_parameters
    (build.scenario ["MatrixMarket"; "10X"] ["mtx"; "genes"; "h5"] 300)%string true 1000000
  = Err (runtime_error "'format' should be a scalar string in version 1.0").
Proof.
  split; [lia |].
  refine (proj1 (format_scalar_before_v1_1
            (build.scenario ["MatrixMarket"; "10X"] ["mtx"; "genes"; "h5"] 300)%string
            _ true 1000000 _ _ eq_refl eq_refl) _).
  - lia.
  - vm_compute. discriminate.
Defined.

(** ** inputs: the types of the files of a run *)

Lemma occurrences_cons (t k : string) (types : list string) :
  spec.occurrences k (t :: types)
  = (if decide (t = k) then 1 else 0) + spec.occurrences k types.
Proof.
  unfold spec.occurrences. simpl.
  destruct (string_dec t k) as [->|Hne].
  - rewrite decide_True by reflexivity. lia.
  - rewrite decide_False by exact Hne. lia.
Qed.


(** The counting loop raises every count by the number of occurrences of
    its key, and it succeeds exactly when every type is a key. *)
Lemma count_types_Ok (types : list string) (expected expected' : gmap string Z) :
  inputs.count_types types expected = Ok expected' →
  Forall (λ t, is_Some (expected !! t)) types ∧
  ∀ k, expected' !! k = (λ c, c + spec.occurrences k types) <$> (expected !! k).
Proof.
  revert expected. induction types as [|t rest IH]; intros expected; simpl.
  - intros [= <-]. split; [constructor |]. intros k.
    destruct (expected !! k); simpl; [f_equal; unfold spec.occurrences; simpl; lia | reflexivity].
  - destruct (expected !! t) as [c|] eqn:Ht; [| discriminate].
    intros H. apply IH in H as [Hall Hlook]. split.
    + constructor; [rewrite Ht; eauto |].
      eapply Forall_impl; [exact Hall |]. intros k Hk. simpl in Hk.
      destruct (decide (t = k)) as [<-|Hne]; [rewrite Ht; eauto |].
      rewrite lookup_insert_ne in Hk by exact Hne. exact Hk.
    + intros k. rewrite Hlook, occurrences_cons.
      destruct (decide (t = k)) as [<-|Hne].
      * rewrite lookup_insert_eq, Ht. simpl. f_equal. lia.
      * rewrite lookup_insert_ne by exact Hne.
        destruct (expected !! k); simpl; [f_equal; lia | reflexivity].
Qed.

Lemma count_types_total (types : list string) (expected : gmap string Z) :
  Forall (λ t, is_Some (expected !! t)) types →
  ∃ expected', inputs.count_types types expected = Ok expected'.
Proof.
  revert expected. induction types as [|t rest IH]; intros expected Hall; simpl.
  - eauto.
  - apply Forall_cons in Hall as [[c Ht] Hall]. rewrite Ht. apply IH.
    eapply Forall_impl; [exact Hall |]. intros k Hk. simpl.
    destruct (decide (t = k)) as [<-|Hne].
    + rewrite lookup_insert_eq. eauto.
    + rewrite lookup_insert_ne by exact Hne. exact Hk.
Qed.

Lemma count_types_Err (types : list string) (expected : gmap string Z) (e : Error) :
  inputs.count_types types expected = Err e →
  ∃ t, t ∈ types ∧
       e = runtime_error ("unknown file type '" +:+ t +:+ "' when format is 'MatrixMarket'").
Proof.
  revert expected. induction types as [|t rest IH]; intros expected; simpl.
  - discriminate.
  - destruct (expected !! t) as [c|].
    + intros H. apply IH in H as (t' & Hin & ->). exists t'. split; [right; exact Hin | reflexivity].
    + intros [= <-]. exists t. split; [left | reflexivity].
Qed.

(** The counting loop fails at the first type that is not a key, and
    reports it. *)
Lemma count_types_first_unknown (pre : list string) (t : string) (post : list string)
    (expected : gmap string Z) :
  Forall (λ t', is_Some (expected !! t')) pre →
  expected !! t = None →
  inputs.count_types (pre ++ t :: post) expected
  = Err (runtime_error ("unknown file type '" +:+ t +:+ "' when format is 'MatrixMarket'")).
Proof.
  revert expected. induction pre as [|p pre IH]; intros expected Hpre Ht; simpl.
  - rewrite Ht. reflexivity.
  - apply Forall_cons in Hpre as [[c Hp] Hpre]. rewrite Hp. apply IH.
    + eapply Forall_impl; [exact Hpre |]. intros k Hk. simpl.
      destruct (decide (p = k)) as [<-|Hne].
      * rewrite lookup_insert_eq. eauto.
      * rewrite lookup_insert_ne by exact Hne. exact Hk.
    + rewrite lookup_insert_ne; [exact Ht |]. intros ->. congruence.
Qed.

Lemma expected_keys (t : string) :
  is_Some ((<[ "annotations"%string := 0 ]>
              (<[ "genes"%string := 0 ]> (<[ "mtx"%string := 0 ]> (∅ : gmap string Z)))) !! t) ↔
  t = "mtx"%string ∨ t = "genes"%string ∨ t = "annotations"%string.
Proof.
  rewrite !lookup_insert_is_Some, lookup_empty. split.
  - intros [-> | [_ [-> | [_ [-> | [_ [x Hx]]]]]]]; auto. discriminate.
  - intros [-> | [-> | ->]].
    + right. split; [discriminate |]. right. split; [discriminate |]. left. reflexivity.
    + right. split; [discriminate |]. left. reflexivity.
    + left. reflexivity.
Qed.

Lemma expected_start (k : string) :
  k = "mtx"%string ∨ k = "genes"%string ∨ k = "annotations"%string →
  (<[ "annotations"%string := 0 ]>
     (<[ "genes"%string := 0 ]> (<[ "mtx"%string := 0 ]> (∅ : gmap string Z)))) !! k = Some 0.
Proof. intros [-> | [-> | ->]]; reflexivity. Qed.

(** X3: For a [MatrixMarket] matrix the types of its files are validated
    exactly when each is [mtx], [genes] or [annotations], [mtx] occurs
    once and [genes] and [annotations] at most once; the first type of
    the run that is outside the three is reported by name. *)
Theorem matrix_market_types (types : list string) :
  (inputs.check_types "MatrixMarket" types = Ok tt ↔
     Forall (λ t, t = "mtx" ∨ t = "genes" ∨ t = "annotations")%string types ∧
     spec.occurrences "mtx" types = 1 ∧
     spec.occurrences "genes" types ≤ 1 ∧
     spec.occurrences "annotations" types ≤ 1) ∧
  (∀ pre t post,
     types = pre ++ t :: post →
     Forall (λ t', t' = "mtx" ∨ t' = "genes" ∨ t' = "annotations")%string pre →
     ¬ (t = "mtx" ∨ t = "genes" ∨ t = "annotations")%string →
     inputs.check_types "MatrixMarket" types
     = Err (runtime_error
              ("unknown file type '" +:+ t +:+ "' when format is 'MatrixMarket'"))).
Proof.
  unfold inputs.check_types. simpl. split.
  - split.
    + intros H. apply bind_Ok in H as (expected & Hc & H).
      apply bind_Ok in H as ([] & Hm & H). apply bind_Ok in H as ([] & Hg & Ha).
      apply throw_if_Ok in Hm, Hg, Ha.
      apply count_types_Ok in Hc as [Hall Hlook]. split.
      { eapply Forall_impl; [exact Hall |]. intros t. apply expected_keys. }
      unfold inputs.at_ in Hm, Hg, Ha.
      rewrite Hlook in Hm, Hg, Ha.
      rewrite expected_start in Hm, Hg, Ha by auto. simpl in Hm, Hg, Ha. lia.
    + intros (Hall & Hm & Hg & Ha).
      destruct (count_types_total types
        (<[ "annotations"%string := 0 ]>
           (<[ "genes"%string := 0 ]> (<[ "mtx"%string := 0 ]> ∅)))) as [expected Hc].
      { eapply Forall_impl; [exact Hall |]. intros t. apply expected_keys. }
      rewrite Hc. simpl. apply count_types_Ok in Hc as [_ Hlook].
      unfold inputs.at_. rewrite !Hlook. rewrite !expected_start by auto. simpl.
      replace (negb (0 + spec.occurrences "mtx" types =? 1)) with false by lia.
      replace (0 + spec.occurrences "genes" types >? 1) with false by lia.
      replace (0 + spec.occurrences "annotations" types >? 1) with false by lia.
      reflexivity.
  - intros pre t post -> Hpre Hbad.
    rewrite count_types_first_unknown; [reflexivity | |].
    + eapply Forall_impl; [exact Hpre |]. intros t'. apply expected_keys.
    + destruct (_ !! t) as [c|] eqn:Ht; [| reflexivity].
      exfalso. apply Hbad. apply expected_keys. rewrite Ht. eauto.
Qed.

(** X4: A [10X] or [H5AD] matrix is one file of type [h5]; for every format
    other than [MatrixMarket], [10X] and [H5AD] any types are accepted. *)
Theorem other_formats_types (curf : string) (types : list string) :
  curf ≠ "MatrixMarket"%string →
  (inputs.check_types curf types = Ok tt ↔
     (curf = "10X"%string ∨ curf = "H5AD"%string → types = ["h5"%string])) ∧
  (curf = "10X"%string ∨ curf = "H5AD"%string → types ≠ ["h5"%string] →
     inputs.check_types curf types
     = Err (runtime_error ("expected exactly one 'h5' file when format is '" +:+ curf +:+ "'"))).
Proof.
  intros Hmm.
  destruct (String.eqb_spec curf "10X") as [-> | H10].
  { split.
    - rewrite check_types_10X. split; [auto | intros H; apply H; auto].
    - intros _ Hne. destruct (inputs.check_types "10X" types) as [[]|e] eqn:E.
      + apply check_types_10X in E. contradiction.
      + unfold inputs.check_types in E. simpl in E.
        apply throw_if_Err in E as [_ ->]. reflexivity. }
  destruct (String.eqb_spec curf "H5AD") as [-> | H5].
  { split.
    - rewrite check_types_H5AD. split; [auto | intros H; apply H; auto].
    - intros _ Hne. destruct (inputs.check_types "H5AD" types) as [[]|e] eqn:E.
      + apply check_types_H5AD in E. contradiction.
      + unfold inputs.check_types in E. simpl in E.
        apply throw_if_Err in E as [_ ->]. reflexivity. }
  unfold inputs.check_types.
  destruct (String.eqb_spec curf "MatrixMarket") as [-> | _]; [contradiction |].
  destruct (String.eqb_spec curf "10X") as [-> | _]; [contradiction |].
  destruct (String.eqb_spec curf "H5AD") as [-> | _]; [contradiction |].
  split.
  - split; [intros _ [-> | ->]; contradiction | reflexivity].
  - intros [-> | ->]; contradiction.
Qed.

Lemma other_formats_types_witness :
  "custom"%string ≠ "MatrixMarket"%string ∧
  inputs.check_types "custom" ["blob"; "blob"; "index"]%string = Ok tt.
Proof.
  split; [discriminate |].
  apply (proj1 (other_formats_types "custom" ["blob"; "blob"; "index"]%string
                  ltac:(discriminate))).
  intros [H | H]; discriminate H.
Defined.

(** ** inputs: the loop over the files *)

Lemma file_info_Ok (fihandle : Group) (embedded : bool) (sofar : Z) (type : string)
    (recorded : list (Z * Z)) :
  inputs.file_info fihandle embedded sofar = Ok (type, recorded) →
  spec.file_entry fihandle embedded sofar ∧
  (embedded = false → recorded = []).
Proof.
  unfold inputs.file_info. intros H. apply try_catch_Ok in H.
  apply bind_Ok in H as (curfihandle & Hg & H).
  apply bind_Ok in H as (name & Hname & H).
  apply bind_Ok in H as (type' & Htype & H).
  split.
  - exists curfihandle. rewrite Hg, Hname, Htype. repeat split.
    destruct embedded.
    + apply bind_Ok in H as (offset & Ho & H). apply bind_Ok in H as (size & Hs & _).
      rewrite Ho, Hs. auto.
    + apply bind_Ok in H as (id & Hid & _). rewrite Hid. reflexivity.
  - intros ->. apply bind_Ok in H as (id & _ & [= _ <-]). reflexivity.
Qed.

Lemma file_info_Err (fihandle : Group) (embedded : bool) (sofar : Z) (e : Error) :
  inputs.file_info fihandle embedded sofar = Err e →
  ∃ inner, e = Wrapped ("failed to retrieve information for file " +:+ to_string sofar) inner.
Proof.
  unfold inputs.file_info. intros H.
  apply try_catch_Err in H as (inner & _ & ->). eauto.
Qed.

Lemma run_files_Ok (fihandle : Group) (embedded : bool) (n : nat) (sofar : Z)
    (types : list string) (bytes : list (Z * Z)) (sofar' : Z) (types' : list string)
    (bytes' : list (Z * Z)) :
  inputs.run_files fihandle embedded n sofar types bytes = Ok (sofar', types', bytes') →
  sofar' = sofar + Z.of_nat n ∧
  length types' = (length types + n)%nat ∧
  (embedded = false → bytes' = bytes) ∧
  ∀ k, sofar ≤ k < sofar + Z.of_nat n → spec.file_entry fihandle embedded k.
Proof.
  revert sofar types bytes sofar' types' bytes'.
  induction n as [|n IH]; intros sofar types bytes sofar' types' bytes'; simpl.
  - intros [= <- <- <-]. repeat split; auto; lia.
  - intros H. apply bind_Ok in H as ([type recorded] & Hinfo & H).
    apply file_info_Ok in Hinfo as [Hentry Hrec].
    apply IH in H as (-> & Hlen & Hbytes & Hfiles).
    rewrite length_app in Hlen. simpl in Hlen.
    split; [lia |]. split; [lia |]. split.
    + intros He. rewrite (Hbytes He), (Hrec He). apply app_nil_r.
    + intros k Hk. destruct (decide (k = sofar)) as [-> | Hne]; [exact Hentry |].
      apply Hfiles. lia.
Qed.

Lemma file_info_type (fihandle : Group) (embedded : bool) (sofar : Z) (type : string)
    (recorded : list (Z * Z)) :
  inputs.file_info fihandle embedded sofar = Ok (type, recorded) →
  spec.file_type fihandle sofar = Ok type.
Proof.
  unfold inputs.file_info, spec.file_type. intros H. apply try_catch_Ok in H.
  apply bind_Ok in H as (curfihandle & Hg & H).
  apply bind_Ok in H as (name & _ & H).
  apply bind_Ok in H as (type' & Htype & H).
  rewrite Hg. simpl. rewrite Htype. f_equal.
  destruct embedded.
  - apply bind_Ok in H as (offset & _ & H). apply bind_Ok in H as (size & _ & [= <- _]).
    reflexivity.
  - apply bind_Ok in H as (id & _ & [= <- _]). reflexivity.
Qed.

(** The types that the inner loop appends are those of the files it
    visits, in order. *)
Lemma run_files_types (fihandle : Group) (embedded : bool) (n : nat) (sofar : Z)
    (types : list string) (bytes : list (Z * Z)) (sofar' : Z) (types' : list string)
    (bytes' : list (Z * Z)) :
  inputs.run_files fihandle embedded n sofar types bytes = Ok (sofar', types', bytes') →
  ∃ new, types' = types ++ new ∧ length new = n ∧
    ∀ (j : nat) ty, new !! j = Some ty →
      spec.file_type fihandle (sofar + Z.of_nat j) = Ok ty.
Proof.
  revert sofar types bytes sofar' types' bytes'.
  induction n as [|n IH]; intros sofar types bytes sofar' types' bytes'; simpl.
  - intros [= <- <- <-]. exists []. rewrite app_nil_r.
    split; [reflexivity |]. split; [reflexivity |]. intros j ty Hj. discriminate.
  - intros H. apply bind_Ok in H as ([type recorded] & Hinfo & H).
    apply file_info_type in Hinfo.
    apply IH in H as (new & -> & Hlen & Hnew).
    exists (type :: new). split; [rewrite <- app_assoc; reflexivity |].
    split; [simpl; lia |].
    intros [|j] ty; simpl.
    + intros [= <-]. rewrite Z.add_0_r. exact Hinfo.
    + intros Hj. replace (sofar + Z.of_nat (S j)) with (sofar + 1 + Z.of_nat j) by lia.
      apply Hnew. exact Hj.
Qed.

(** The inner loop fails at the first file whose entry cannot be read. *)
Lemma run_files_Err (fihandle : Group) (embedded : bool) (n : nat) (sofar : Z)
    (types : list string) (bytes : list (Z * Z)) (e : Error) :
  inputs.run_files fihandle embedded n sofar types bytes = Err e →
  ∃ k, sofar ≤ k < sofar + Z.of_nat n ∧
    inputs.file_info fihandle embedded k = Err e ∧
    ∀ k', sofar ≤ k' < k → spec.file_entry fihandle embedded k'.
Proof.
  revert sofar types bytes. induction n as [|n IH]; intros sofar types bytes; simpl.
  - discriminate.
  - intros H. apply bind_Err in H as [H | ([type recorded] & Hinfo & H)].
    + exists sofar. split; [lia |]. split; [exact H |]. intros k' Hk'. lia.
    + apply file_info_Ok in Hinfo as [Hentry _].
      apply IH in H as (k & Hk & H & Hbefore). exists k.
      split; [lia |]. split; [exact H |].
      intros k' Hk'. destruct (decide (k' = sofar)) as [-> | Hne]; [exact Hentry |].
      apply Hbefore. lia.
Qed.

Lemma check_types_Err (curf : string) (types : list string) (e : Error) :
  inputs.check_types curf types = Err e → ∃ msg, e = runtime_error msg.
Proof.
  unfold inputs.check_types.
  destruct (String.eqb curf "MatrixMarket").
  - intros H. apply bind_Err in H as [H | (expected & _ & H)].
    + apply count_types_Err in H as (t & _ & ->). eauto.
    + apply bind_Err in H as [H | ([] & _ & H)]; [apply throw_if_Err in H as [_ ->]; eauto |].
      apply bind_Err in H as [H | ([] & _ & H)]; apply throw_if_Err in H as [_ ->]; eauto.
  - destruct (String.eqb curf "10X"); [intros H; apply throw_if_Err in H as [_ ->]; eauto |].
    destruct (String.eqb curf "H5AD"); [intros H; apply throw_if_Err in H as [_ ->]; eauto |].
    discriminate.
Qed.

Lemma visited_nonneg (runs : list Z) : 0 ≤ spec.files_visited runs.
Proof. induction runs as [|run rest IH]; simpl; lia. Qed.

Lemma visited_at_least_sum (runs : list Z) : spec.sum runs ≤ spec.files_visited runs.
Proof.
  induction runs as [|run rest IH]; simpl; [reflexivity |].
  unfold spec.sum in *. simpl. lia.
Qed.

Lemma check_files_Ok (fihandle : Group) (embedded : bool) (formats : list string)
    (runs : list Z) (r : nat) (sofar : Z) (bytes recorded : list (Z * Z)) :
  inputs.check_files fihandle embedded formats runs r sofar bytes = Ok recorded →
  (embedded = false → recorded = bytes) ∧
  ∀ k, sofar ≤ k < sofar + spec.files_visited runs → spec.file_entry fihandle embedded k.
Proof.
  revert r sofar bytes recorded.
  induction runs as [|run rest IH]; intros r sofar bytes recorded; simpl.
  - intros [= <-]. split; [reflexivity |]. intros k Hk. lia.
  - intros H. apply bind_Ok in H as ([[sofar' types] bytes'] & Hrun & H).
    apply bind_Ok in H as ([] & _ & H).
    apply run_files_Ok in Hrun as (-> & _ & Hbytes & Hfiles).
    apply IH in H as [Hrec Hrest]. split.
    + intros He. rewrite (Hrec He). apply Hbytes. exact He.
    + intros k Hk.
      destruct (decide (k < sofar + Z.of_nat (Z.to_nat run))) as [Hlt | Hge].
      * apply Hfiles. lia.
      * apply Hrest. lia.
Qed.

(** The loop over the runs fails in its first run [i] that has a file
    whose entry cannot be read or whose types are refused: the runs
    before it have passed the check of their types, and the error is
    that of the first unreadable file of run [i] or, when all its files
    are read, that of the check of their types. *)
Lemma check_files_Err (fihandle : Group) (embedded : bool) (formats : list string)
    (runs : list Z) (r : nat) (sofar : Z) (bytes : list (Z * Z)) (e : Error) :
  inputs.check_files fihandle embedded formats runs r sofar bytes = Err e →
  ∃ (i : nat) run,
    runs !! i = Some run ∧
    (∀ (i' : nat) run', (i' < i)%nat → runs !! i' = Some run' →
       ∃ types',
         spec.run_types fihandle (sofar + spec.files_visited (take i' runs)) run' types' ∧
         inputs.check_types (nth (r + i') formats EmptyString) types' = Ok tt) ∧
    (∀ k, sofar ≤ k < sofar + spec.files_visited (take i runs) →
       spec.file_entry fihandle embedded k) ∧
    ((∃ k, sofar + spec.files_visited (take i runs) ≤ k
             < sofar + spec.files_visited (take i runs) + run ∧
        inputs.file_info fihandle embedded k = Err e ∧
        ∀ k', sofar + spec.files_visited (take i runs) ≤ k' < k →
          spec.file_entry fihandle embedded k') ∨
     (∃ types,
        spec.run_types fihandle (sofar + spec.files_visited (take i runs)) run types ∧
        (∀ k, sofar + spec.files_visited (take i runs) ≤ k
                < sofar + spec.files_visited (take i runs) + run →
           spec.file_entry fihandle embedded k) ∧
        inputs.check_types (nth (r + i) formats EmptyString) types = Err e)).
Proof.
  revert r sofar bytes. induction runs as [|run rest IH]; intros r sofar bytes; simpl.
  - discriminate.
  - intros H. apply bind_Err in H as [H | ([[sofar' types] bytes'] & Hrun & H)].
    + apply run_files_Err in H as (k & Hk & H & Hbefore).
      exists 0%nat, run. simpl. rewrite Z.add_0_r.
      split; [reflexivity |]. split; [intros i' run' Hlt; lia |].
      split; [intros k' Hk'; lia |].
      left. exists k. split; [lia |]. split; [exact H | exact Hbefore].
    + pose proof (run_files_types _ _ _ _ _ _ _ _ _ Hrun) as (new & Htypes & Hlen & Hnew).
      simpl in Htypes. subst types.
      apply run_files_Ok in Hrun as (-> & _ & _ & Hentries).
      assert (Hthis : spec.run_types fihandle (sofar + 0) run new).
      { split; [exact Hlen |]. intros j ty Hj. rewrite Z.add_0_r. apply Hnew. exact Hj. }
      apply bind_Err in H as [H | ([] & Hcheck & H)].
      * exists 0%nat, run. simpl. rewrite Nat.add_0_r.
        split; [reflexivity |]. split; [intros i' run' Hlt; lia |].
        split; [intros k' Hk'; lia |].
        right. exists new. split; [exact Hthis |]. split; [| exact H].
        intros k Hk. apply Hentries. lia.
      * apply IH in H as (i & run' & Hi & Hearlier & Hbefore & Hcase).
        exists (S i), run'. simpl. rewrite !Z.add_assoc.
        split; [exact Hi |]. split; [| split].
        -- intros [|i'] run'' Hlt; simpl.
           ++ intros [= <-]. exists new. rewrite Nat.add_0_r. split; [exact Hthis | exact Hcheck].
           ++ intros Hi'. rewrite Z.add_assoc.
              replace (r + S i')%nat with (S r + i')%nat by lia.
              apply Hearlier; [lia | exact Hi'].
        -- intros k Hk.
           destruct (decide (k < sofar + Z.of_nat (Z.to_nat run))) as [Hlt | Hge].
           ++ apply Hentries. lia.
           ++ apply Hbefore. lia.
        -- replace (r + S i)%nat with (S r + i)%nat by lia. exact Hcase.
Qed.

Lemma files_visited_nonneg (runs : list Z) :
  Forall (λ run, 0 ≤ run) runs → spec.files_visited runs = spec.sum runs.
Proof.
  induction 1 as [|run rest Hrun Hall IH]; [reflexivity |].
  simpl. rewrite IH. unfold spec.sum. simpl. lia.
Qed.

Lemma sum_nonneg (runs : list Z) : Forall (λ run, 0 ≤ run) runs → 0 ≤ spec.sum runs.
Proof.
  induction 1 as [|run rest Hrun Hall IH]; [reflexivity |].
  unfold spec.sum in *. simpl. lia.
Qed.

Lemma int_wrap_le (z : Z) : 0 ≤ z → int_wrap z ≤ z.
Proof.
  intros Hz. unfold int_wrap. rewrite Z.mod_eq by lia.
  assert (0 ≤ (z + 2 ^ 31) / 2 ^ 32) by (apply Z.div_pos; lia).
  lia.
Qed.

(** X6: The files are addressed by their position: when the parameters phase
    succeeds, every position that the loop over the runs visits names a
    group with a scalar string [name], a scalar string [type] and the
    [offset] and [size], or the [id], of the file.  When no sample group
    is negative, and so for every single matrix, these are all the
    positions below the number of children of [files]. *)
Theorem files_addressed_by_position (handle : Group) (embedded : bool) (version : Z)
    (dump : inputs.ParamDump) :
  inputs.validate_parameters handle embedded version = Ok dump →
  ∃ phandle fihandle formats runs,
    utils.check_and_open_group handle "parameters" = Ok phandle ∧
    utils.check_and_open_group phandle "files" = Ok fihandle ∧
    inputs.load_formats phandle version = Ok (inputs.multi_matrix dump, formats) ∧
    inputs.load_runs phandle (inputs.multi_matrix dump) formats (getNumObjs fihandle)
    = Ok runs ∧
    (∀ k, 0 ≤ k < spec.files_visited runs → spec.file_entry fihandle embedded k) ∧
    (Forall (λ run, 0 ≤ run) runs →
       ∀ k, 0 ≤ k < getNumObjs fihandle → spec.file_entry fihandle embedded k) ∧
    (inputs.multi_matrix dump = false →
       ∀ k, 0 ≤ k < getNumObjs fihandle → spec.file_entry fihandle embedded k).
Proof.
  unfold inputs.validate_parameters. intros H.
  apply bind_Ok in H as (phandle & Hp & H).
  apply bind_Ok in H as ([multi formats] & Hf & H).
  apply bind_Ok in H as (fihandle & Hfi & H).
  apply bind_Ok in H as (runs & Hruns & H).
  apply bind_Ok in H as (bytes & Hbytes & H).
  apply bind_Ok in H as ([] & Hcheck & H).
  apply bind_Ok in H as (ms & Hms & [= <-]). simpl.
  exists phandle, fihandle, formats, runs.
  repeat (split; [assumption |]).
  apply check_files_Ok in Hbytes as [_ Hfiles].
  assert (Hvisited : ∀ k, 0 ≤ k < spec.files_visited runs →
                          spec.file_entry fihandle embedded k).
  { intros k Hk. apply Hfiles. lia. }
  split; [exact Hvisited |]. split.
  - intros Hnonneg k Hk. apply Hvisited.
    rewrite (files_visited_nonneg runs Hnonneg).
    destruct multi.
    + apply load_runs_Ok in Hruns as (_ & names & _ & _ & _ & Hsum & _).
      pose proof (int_wrap_le _ (sum_nonneg runs Hnonneg)). lia.
    + injection Hruns as <-. unfold spec.sum. simpl. lia.
  - intros ->. intros k Hk. apply Hvisited.
    injection Hruns as <-. simpl. lia.
Qed.

Lemma files_addressed_by_position_witness :
  inputs.validate_parameters
    (build.scenario ["MatrixMarket"; "10X"] ["mtx"; "genes"; "h5"] 300)%string true 2001000
  = Ok (inputs.mkParamDump 2 true true) ∧
  ∃ phandle fihandle,
    utils.check_and_open_group
      (build.scenario ["MatrixMarket"; "10X"] ["mtx"; "genes"; "h5"] 300)%string "parameters"
    = Ok phandle ∧
    utils.check_and_open_group phandle "files" = Ok fihandle ∧
    spec.file_entry fihandle true 2.
Proof.
  assert (H : inputs.validate_parameters
    (build.scenario ["MatrixMarket"; "10X"] ["mtx"; "genes"; "h5"] 300)%string true 2001000
    = Ok (inputs.mkParamDump 2 true true)) by (vm_compute; reflexivity).
  split; [exact H |].
  destruct (files_addressed_by_position _ _ _ _ H)
    as (phandle & fihandle & formats & runs & Hp & Hfi & Hf & Hruns & _ & Hall & _).
  exists phandle, fihandle. split; [exact Hp |]. split; [exact Hfi |].
  injection Hp as <-. injection Hfi as <-.
  apply Hall.
  - vm_compute in Hf. injection Hf as <-. vm_compute in Hruns. injection Hruns as <-.
    repeat constructor; lia.
  - vm_compute. split; [discriminate | reflexivity].
Defined.

(** X7: A failure of the loop over the files comes from the first run
    that has a file whose entry cannot be read or whose types are
    refused, every run before it having passed the check of its types.
    It is either the error of the first file of that run whose entry
    cannot be read, wrapped with the position of that file, or, when all
    the files of the run are read, the error that the check of the types
    raises on the types stored for the files of that run. *)
Theorem file_errors_name_the_file (fihandle : Group) (embedded : bool)
    (formats : list string) (runs : list Z) (e : Error) :
  inputs.check_files fihandle embedded formats runs 0 0 [] = Err e →
  ∃ (i : nat) run,
    runs !! i = Some run ∧
    (∀ (i' : nat) run', (i' < i)%nat → runs !! i' = Some run' →
       ∃ types',
         spec.run_types fihandle (spec.files_visited (take i' runs)) run' types' ∧
         inputs.check_types (nth i' formats EmptyString) types' = Ok tt) ∧
    ((∃ k inner,
        spec.files_visited (take i runs) ≤ k < spec.files_visited (take i runs) + run ∧
        inputs.file_info fihandle embedded k = Err e ∧
        (∀ k', 0 ≤ k' < k → spec.file_entry fihandle embedded k') ∧
        e = Wrapped ("failed to retrieve information for file " +:+ to_string k) inner) ∨
     (∃ types,
        spec.run_types fihandle (spec.files_visited (take i runs)) run types ∧
        (∀ k, 0 ≤ k < spec.files_visited (take i runs) + run →
           spec.file_entry fihandle embedded k) ∧
        inputs.check_types (nth i formats EmptyString) types = Err e)).
Proof.
  intros H. apply check_files_Err in H as (i & run & Hi & Hearlier & Hbefore & Hcase).
  exists i, run. split; [exact Hi |]. split; [exact Hearlier |].
  simpl in Hbefore, Hcase.
  assert (Hread : ∀ k bound,
    (∀ k', spec.files_visited (take i runs) ≤ k' < bound →
       spec.file_entry fihandle embedded k') →
    0 ≤ k < bound → spec.file_entry fihandle embedded k).
  { intros k bound Hrun Hk.
    destruct (decide (k < spec.files_visited (take i runs))) as [Hlt | Hge].
    - apply Hbefore. lia.
    - apply Hrun. lia. }
  destruct Hcase as [(k & Hk & H & Hrun) | (types & Htypes & Hrun & H)].
  - left. destruct (file_info_Err _ _ _ _ H) as (inner & ->).
    exists k, inner. split; [exact Hk |]. split; [exact H |]. split; [| reflexivity].
    intros k' Hk'. apply (Hread k' k Hrun). exact Hk'.
  - right. exists types. split; [exact Htypes |]. split; [| exact H].
    intros k Hk. apply (Hread k _ Hrun). exact Hk.
Qed.

Lemma file_errors_name_the_file_witness :
  inputs.check_files (build.files_from 0 [build.linked_file "mtx" "a"]) false
    ["MatrixMarket"%string] [2] 0 0 []
  = Err (Wrapped "failed to retrieve information for file 1" MissingEntry) ∧
  ∃ k, inputs.file_info (build.files_from 0 [build.linked_file "mtx" "a"]) false k
       = Err (Wrapped "failed to retrieve information for file 1" MissingEntry).
Proof.
  assert (H : inputs.check_files (build.files_from 0 [build.linked_file "mtx" "a"]) false
                ["MatrixMarket"%string] [2] 0 0 []
              = Err (Wrapped "failed to retrieve information for file 1" MissingEntry))
    by (vm_compute; reflexivity).
  split; [exact H |].
  destruct (file_errors_name_the_file _ _ _ _ _ H)
    as (i & run & _ & _ & [(k & inner & _ & Hk & _) | (types & _ & _ & Hcheck)]).
  - exists k. exact Hk.
  - apply check_types_Err in Hcheck as (msg & Hmsg). discriminate Hmsg.
Defined.

(** ** inputs: the row identities *)

Lemma check_unique_from_Ok (idx : list Z) (msg : string) (used : gset Z) :
  inputs.check_unique_from idx msg used = Ok tt ↔
  Forall (λ i, 0 ≤ i ∧ i ∉ used) idx ∧ NoDup idx.
Proof.
  revert used. induction idx as [|i rest IH]; intros used; simpl.
  - split; [intros _; split; constructor | reflexivity].
  - rewrite bind_Ok. split.
    + intros ([] & Hneg & H). apply throw_if_Ok in Hneg.
      apply bind_Ok in H as ([] & Hdup & H). apply throw_if_Ok in Hdup.
      apply bool_decide_eq_false in Hdup.
      apply IH in H as [Hall Hnd]. rewrite Forall_forall in Hall. split.
      * constructor; [split; [lia | exact Hdup] |].
        apply Forall_forall. intros j Hj. destruct (Hall j Hj) as [Hj0 Hjn].
        split; [exact Hj0 |]. intros Hin. apply Hjn. apply elem_of_union_r. exact Hin.
      * constructor; [| exact Hnd]. intros Hin. destruct (Hall i Hin) as [_ Hn].
        apply Hn. apply elem_of_union_l, elem_of_singleton. reflexivity.
    + intros [Hall Hnd]. apply Forall_cons in Hall as [[Hi Hfresh] Hall].
      apply NoDup_cons in Hnd as [Hnotin Hnd].
      exists tt. split; [apply throw_if_Ok; lia |].
      apply bind_Ok. exists tt. split.
      { apply throw_if_Ok. apply bool_decide_eq_false. exact Hfresh. }
      apply IH. split; [| exact Hnd].
      rewrite Forall_forall in Hall |- *. intros j Hj.
      destruct (Hall j Hj) as [Hj0 Hjn]. split; [exact Hj0 |].
      apply not_elem_of_union. split; [| exact Hjn].
      apply not_elem_of_singleton. intros ->. contradiction.
Qed.

Lemma check_unique_from_Err (idx : list Z) (msg : string) (used : gset Z) (e : Error) :
  inputs.check_unique_from idx msg used = Err e →
  e = runtime_error (msg +:+ " contains negative values") ∨
  e = runtime_error (msg +:+ " contains duplicate values").
Proof.
  revert used. induction idx as [|i rest IH]; intros used; simpl.
  - discriminate.
  - intros H. apply bind_Err in H as [H | ([] & _ & H)].
    { apply throw_if_Err in H as [_ ->]. auto. }
    apply bind_Err in H as [H | ([] & _ & H)].
    { apply throw_if_Err in H as [_ ->]. auto. }
    apply IH in H. exact H.
Qed.

Lemma check_unique_Ok (idx : list Z) (msg : string) :
  inputs.check_unique idx msg = Ok tt ↔ Forall (λ i, 0 ≤ i) idx ∧ NoDup idx.
Proof.
  unfold inputs.check_unique. rewrite check_unique_from_Ok.
  split; intros [Hall Hnd]; (split; [| exact Hnd]);
    (eapply Forall_impl; [exact Hall |]); simpl.
  - intros i [Hi _]. exact Hi.
  - intros i Hi. split; [exact Hi | apply not_elem_of_empty].
Qed.

(** X9: The check of row identities accepts exactly the arrays of pairwise
    distinct non-negative values, which need not be contiguous; a negative
    value that comes before any repeat is reported as such, and otherwise
    the failure is the one for negative or for duplicate values. *)
Theorem unique_identities (idx : list Z) (msg : string) :
  (inputs.check_unique idx msg = Ok tt ↔ Forall (λ i, 0 ≤ i) idx ∧ NoDup idx) ∧
  (∀ e, inputs.check_unique idx msg = Err e →
     e = runtime_error (msg +:+ " contains negative values") ∨
     e = runtime_error (msg +:+ " contains duplicate values")) ∧
  (NoDup idx → Exists (λ i, i < 0) idx →
     inputs.check_unique idx msg = Err (runtime_error (msg +:+ " contains negative values"))) ∧
  (Forall (λ i, 0 ≤ i) idx → ¬ NoDup idx →
     inputs.check_unique idx msg = Err (runtime_error (msg +:+ " contains duplicate values"))).
Proof.
  split; [apply check_unique_Ok |].
  split; [intros e; apply check_unique_from_Err |].
  split.
  - intros Hnd Hex. unfold inputs.check_unique.
    assert (Hgen : ∀ used, Forall (λ i, i ∉ used) idx →
      inputs.check_unique_from idx msg used
      = Err (runtime_error (msg +:+ " contains negative values"))).
    { induction Hex as [i rest Hi | i rest Hex IH]; intros used Hfresh; simpl.
      - replace (i <? 0) with true by lia. reflexivity.
      - apply NoDup_cons in Hnd as [Hnotin Hnd].
        apply Forall_cons in Hfresh as [Hi Hfresh].
        destruct (i <? 0); simpl; [reflexivity |].
        rewrite bool_decide_eq_false_2 by exact Hi. simpl.
        apply IH; [exact Hnd |].
        rewrite Forall_forall in Hfresh |- *. intros j Hj.
        apply not_elem_of_union. split; [| apply Hfresh; exact Hj].
        apply not_elem_of_singleton. intros ->. contradiction. }
    apply Hgen. apply Forall_forall. intros j _. apply not_elem_of_empty.
  - intros Hall Hdup.
    destruct (inputs.check_unique idx msg) as [[]|e] eqn:E.
    + apply check_unique_Ok in E as [_ Hnd]. contradiction.
    + f_equal. unfold inputs.check_unique in E.
      assert (Hgen : ∀ used e, Forall (λ i, 0 ≤ i) idx →
        inputs.check_unique_from idx msg used = Err e →
        e = runtime_error (msg +:+ " contains duplicate values")).
      { clear. induction idx as [|i rest IH]; intros used e Hall; simpl.
        - discriminate.
        - apply Forall_cons in Hall as [Hi Hall].
          replace (i <? 0) with false by lia. simpl.
          intros H. apply bind_Err in H as [H | ([] & _ & H)].
          + apply throw_if_Err in H as [_ ->]. reflexivity.
          + apply (IH _ _ Hall H). }
      apply (Hgen _ _ Hall E).
Qed.

(** From version 2.0 on, the loop over the children of [num_features]
    started at child [idx] with [n] children left appends their names and
    the counts stored under them. *)
Lemma load_modalities_Ok (fhandle : Group) (n idx : nat) (modalities : list string)
    (num_features : list Z) (modalities' : list string) (num_features' : list Z) :
  (idx + n = length fhandle)%nat →
  inputs.load_modalities fhandle n idx modalities num_features
    = Ok (modalities', num_features') →
  modalities' = modalities ++ drop idx (fhandle.*1) ∧
  ∃ new, num_features' = num_features ++ new ∧
    Forall2 (λ modality nf, utils.load_integer_scalar fhandle modality = Ok nf)
      (drop idx (fhandle.*1)) new.
Proof.
  revert idx modalities num_features.
  induction n as [|n IH]; intros idx modalities num_features Hlen; simpl.
  - intros [= <- <-]. rewrite drop_ge by (rewrite length_fmap; lia).
    rewrite app_nil_r. split; [reflexivity |]. exists []. rewrite app_nil_r.
    split; [reflexivity | constructor].
  - destruct ((fhandle.*1) !! idx) as [name|] eqn:Hname.
    2: { apply lookup_ge_None in Hname. rewrite length_fmap in Hname. lia. }
    rewrite (getObjnameByIdx_lookup _ _ _ Hname). rewrite (drop_S _ _ _ Hname).
    intros H. apply bind_Ok in H as (nf & Hnf & H).
    apply IH in H as (-> & new & -> & Hnew); [| lia].
    split; [rewrite <- app_assoc; reflexivity |].
    exists (nf :: new). split; [rewrite <- app_assoc; reflexivity |].
    constructor; assumption.
Qed.

(** X10: The [Details] of a successful results phase are well formed:
    [modalities] and [num_features] have the same length and are not
    empty.  Before version 2.0 the one modality is [RNA] and neither count
    is negative; from 2.0 on the modalities are the children of
    [num_features] in their order, each with the count stored under it. *)
Theorem details_well_formed (handle : Group) (param_info : inputs.ParamDump) (version : Z)
    (output : inputs.Details) :
  inputs.validate_results handle param_info version = Ok output →
  length (inputs.modalities output) = length (inputs.num_features output) ∧
  inputs.modalities output ≠ [] ∧
  (version < 2000000 →
     inputs.modalities output = ["RNA"%string] ∧
     0 ≤ nth 0 (inputs.num_features output) 0 ∧ 0 ≤ inputs.num_cells output) ∧
  (2000000 ≤ version →
     ∃ rhandle fhandle,
       utils.check_and_open_group handle "results" = Ok rhandle ∧
       utils.check_and_open_group rhandle "num_features" = Ok fhandle ∧
       inputs.modalities output = fhandle.*1 ∧
       Forall2 (λ modality nf, utils.load_integer_scalar fhandle modality = Ok nf)
         (inputs.modalities output) (inputs.num_features output)).
Proof.
  unfold inputs.validate_results. intros H.
  apply bind_Ok in H as (rhandle & Hr & H).
  apply bind_Ok in H as ([[mods nfeat] ncells] & Hdims & H).
  apply bind_Ok in H as (ns & Hns & H).
  apply bind_Ok in H as ([] & Hid & [= <-]). simpl.
  destruct (decide (version < 2000000)) as [Hv | Hv].
  - destruct (load_dimensions_before_v2 _ _ _ _ _ Hv Hdims) as (-> & Hc & genes & -> & Hg).
    split; [reflexivity |]. split; [discriminate |]. split; [auto | lia].
  - unfold inputs.load_dimensions in Hdims.
    destruct (version <? 2000000) eqn:E; [lia |].
    apply bind_Ok in Hdims as (nc & Hnc & Hdims).
    apply bind_Ok in Hdims as (fhandle & Hfh & Hdims).
    apply bind_Ok in Hdims as ([] & Hpos & Hdims). apply throw_if_Ok in Hpos.
    apply bind_Ok in Hdims as ([mods' nfeat'] & Hload & [= <- <- <-]).
    unfold getNumObjs in Hload, Hpos. rewrite Nat2Z.id in Hload.
    apply load_modalities_Ok in Hload as (-> & new & -> & Hnew); [| lia].
    rewrite drop_0 in Hnew |- *. simpl.
    split; [rewrite length_fmap; apply Forall2_length in Hnew;
            rewrite length_fmap in Hnew; exact Hnew |].
    split; [destruct fhandle; [simpl in Hpos; lia | discriminate] |].
    split; [lia |]. intros _. exists rhandle, fhandle. auto.
Qed.

Lemma details_well_formed_witness :
  inputs.validate_results
    [("results", GroupNode [
        ("num_cells", build.scalar_integer 10);
        ("num_features", GroupNode [("ADT", build.scalar_integer 2);
                                    ("RNA", build.scalar_integer 3)]);
        ("identities", GroupNode [("ADT", build.integer_vector [5; 1]);
                                  ("RNA", build.integer_vector [4; 0; 2])])])]
    (inputs.mkParamDump 1 false false) 2000000
  = Ok (inputs.mkDetails ["ADT"; "RNA"]%string [2; 3] 10 1) ∧
  length ["ADT"; "RNA"]%string = length [2; 3].
Proof.
  assert (H : inputs.validate_results
    [("results", GroupNode [
        ("num_cells", build.scalar_integer 10);
        ("num_features", GroupNode [("ADT", build.scalar_integer 2);
                                    ("RNA", build.scalar_integer 3)]);
        ("identities", GroupNode [("ADT", build.integer_vector [5; 1]);
                                  ("RNA", build.integer_vector [4; 0; 2])])])]
    (inputs.mkParamDump 1 false false) 2000000
    = Ok (inputs.mkDetails ["ADT"; "RNA"]%string [2; 3] 10 1)) by (vm_compute; reflexivity).
  split; [exact H |].
  exact (proj1 (details_well_formed _ _ _ _ H)).
Defined.

(** X11: Between versions 1.2 and 2.0 the row identities are the array
    [identities], and before 1.2 a multi-matrix input has the array
    [indices]: once the dimensions and the number of samples are read, the
    results validate exactly when that array has one entry per feature,
    all non-negative and pairwise distinct. *)
Theorem legacy_row_identities (handle rhandle : Group) (param_info : inputs.ParamDump)
    (version : Z) (modalities : list string) (num_features : list Z)
    (num_cells num_samples : Z) :
  version < 2000000 →
  1002000 ≤ version ∨ inputs.multi_matrix param_info = true →
  utils.check_and_open_group handle "results" = Ok rhandle →
  inputs.load_dimensions rhandle version = Ok (modalities, num_features, num_cells) →
  inputs.load_num_samples rhandle param_info = Ok num_samples →
  ∀ output, inputs.validate_results handle param_info version = Ok output ↔
    output = inputs.mkDetails modalities num_features num_cells num_samples ∧
    ∃ idx,
      utils.load_integer_vector rhandle
        (if 1002000 <=? version then "identities" else "indices") = Ok idx ∧
      Z.of_nat (length idx) = nth 0 num_features 0 ∧
      Forall (λ i, 0 ≤ i) idx ∧ NoDup idx.
Proof.
  intros Hv Hcase Hr Hdims Hns output.
  unfold inputs.validate_results. rewrite Hr. simpl. rewrite Hdims. simpl.
  rewrite Hns. simpl. unfold inputs.check_identities. simpl.
  destruct (2000000 <=? version) eqn:E1; [lia |].
  destruct (load_dimensions_before_v2 _ _ _ _ _ Hv Hdims)
    as (_ & _ & genes & -> & Hgenes).
  simpl. rewrite size_t_of_int_nonneg by exact Hgenes.
  assert (Hgen : ∀ name msg1 msg2,
    ((idx ← utils.load_integer_vector rhandle name;
      throw_if (negb (Z.of_nat (length idx) =? genes)) msg1;;
      inputs.check_unique idx msg2);;
     Ok (inputs.mkDetails modalities [genes] num_cells num_samples)) = Ok output ↔
    output = inputs.mkDetails modalities [genes] num_cells num_samples ∧
    ∃ idx, utils.load_integer_vector rhandle name = Ok idx ∧
      Z.of_nat (length idx) = genes ∧ Forall (λ i, 0 ≤ i) idx ∧ NoDup idx).
  { intros name msg1 msg2. split.
    - intros H. apply bind_Ok in H as ([] & H & [= <-]).
      apply bind_Ok in H as (idx & Hload & H).
      apply bind_Ok in H as ([] & Hlen & H). apply throw_if_Ok in Hlen.
      apply check_unique_Ok in H.
      split; [reflexivity |]. exists idx. split; [exact Hload |]. split; [lia | exact H].
    - intros (-> & idx & Hload & Hlen & Hu).
      rewrite Hload. simpl. rewrite Hlen, Z.eqb_refl. simpl.
      apply (check_unique_Ok idx msg2) in Hu. rewrite Hu. reflexivity. }
  destruct (1002000 <=? version) eqn:E2.
  - apply Hgen.
  - destruct Hcase as [Hc | Hc]; [lia |]. rewrite Hc. apply Hgen.
Qed.

Lemma legacy_row_identities_witness :
  1002000 < 2000000 ∧
  inputs.validate_results
    [("results", GroupNode [("dimensions", build.integer_vector [3; 10]);
                            ("identities", build.integer_vector [7; 0; 4])])]
    (inputs.mkParamDump 1 false false) 1002000
  = Ok (inputs.mkDetails ["RNA"%string] [3] 10 1).
Proof.
  split; [lia |].
  refine (proj2 (legacy_row_identities
            [("results", GroupNode [("dimensions", build.integer_vector [3; 10]);
                                    ("identities", build.integer_vector [7; 0; 4])])]
            [("dimensions", build.integer_vector [3; 10]);
             ("identities", build.integer_vector [7; 0; 4])]
            (inputs.mkParamDump 1 false false) 1002000 ["RNA"%string] [3] 10 1
            _ _ eq_refl eq_refl eq_refl _) _).
  - lia.
  - left. lia.
  - split; [reflexivity |]. exists [7; 0; 4]. split; [reflexivity |].
    split; [reflexivity |]. split.
    + repeat constructor; lia.
    + apply (bool_decide_unpack _). vm_compute. reflexivity.
Defined.

Lemma check_modality_identities_Ok (ihandle : Group) (output : inputs.Details) (n m : nat) :
  inputs.check_modality_identities ihandle output n m = Ok tt ↔
  ∀ k, (m ≤ k < m + n)%nat →
    ∃ idx,
      utils.load_integer_vector ihandle (nth k (inputs.modalities output) EmptyString)
      = Ok idx ∧
      Z.of_nat (length idx) = size_t_of_int (nth k (inputs.num_features output) 0) ∧
      Forall (λ i, 0 ≤ i) idx ∧ NoDup idx.
Proof.
  revert m. induction n as [|n IH]; intros m; simpl.
  - split; [intros _ k Hk; lia | reflexivity].
  - rewrite bind_Ok. split.
    + intros (idx & Hload & H).
      apply bind_Ok in H as ([] & Hlen & H). apply throw_if_Ok in Hlen.
      apply bind_Ok in H as ([] & Hu & H). apply check_unique_Ok in Hu.
      pose proof (proj1 (IH (S m)) H) as Hrest. intros k Hk.
      destruct (decide (k = m)) as [-> | Hne]; [| apply Hrest; lia].
      exists idx. split; [exact Hload |]. split; [lia | exact Hu].
    + intros Hall. destruct (Hall m) as (idx & Hload & Hlen & Hu); [lia |].
      exists idx. split; [exact Hload |].
      rewrite Hlen, Z.eqb_refl. simpl.
      apply (check_unique_Ok idx
               ("'identities' for modality '"
                  +:+ nth m (inputs.modalities output) EmptyString +:+ "'")) in Hu.
      rewrite Hu. simpl. apply (proj2 (IH (S m))). intros k Hk. apply Hall. lia.
Qed.

(** X12: From version 2.0 on, once the dimensions and the number of samples
    are read, the results validate exactly when the group [identities]
    holds, for every modality, an integer array of as many entries as the
    modality has features, all non-negative and pairwise distinct. *)
Theorem modality_row_identities (handle rhandle : Group) (param_info : inputs.ParamDump)
    (version : Z) (modalities : list string) (num_features : list Z)
    (num_cells num_samples : Z) :
  2000000 ≤ version →
  utils.check_and_open_group handle "results" = Ok rhandle →
  inputs.load_dimensions rhandle version = Ok (modalities, num_features, num_cells) →
  inputs.load_num_samples rhandle param_info = Ok num_samples →
  ∀ output, inputs.validate_results handle param_info version = Ok output ↔
    output = inputs.mkDetails modalities num_features num_cells num_samples ∧
    ∃ ihandle,
      utils.check_and_open_group rhandle "identities" = Ok ihandle ∧
      ∀ k, (k < length modalities)%nat →
        ∃ idx,
          utils.load_integer_vector ihandle (nth k modalities EmptyString) = Ok idx ∧
          Z.of_nat (length idx) = size_t_of_int (nth k num_features 0) ∧
          Forall (λ i, 0 ≤ i) idx ∧ NoDup idx.
Proof.
  intros Hv Hr Hdims Hns output.
  unfold inputs.validate_results. rewrite Hr. simpl. rewrite Hdims. simpl.
  rewrite Hns. simpl. unfold inputs.check_identities. simpl.
  destruct (2000000 <=? version) eqn:E1; [| lia]. split.
  - intros H. apply bind_Ok in H as ([] & H & [= <-]).
    apply bind_Ok in H as (ihandle & Hi & H).
    pose proof (proj1 (check_modality_identities_Ok _ _ _ _) H) as Hall. simpl in Hall.
    split; [reflexivity |]. exists ihandle. split; [exact Hi |].
    intros k Hk. apply Hall. lia.
  - intros (-> & ihandle & Hi & Hall). rewrite Hi. simpl.
    assert (H : inputs.check_modality_identities ihandle
                  (inputs.mkDetails modalities num_features num_cells num_samples)
                  (length modalities) 0 = Ok tt).
    { apply (proj2 (check_modality_identities_Ok _ _ _ _)). simpl.
      intros k Hk. apply Hall. lia. }
    rewrite H. reflexivity.
Qed.

Lemma modality_row_identities_witness :
  2000000 ≤ 2000000 ∧
  is_ok (inputs.validate_results
    [("results", GroupNode [
        ("num_cells", build.scalar_integer 10);
        ("num_features", GroupNode [("RNA", build.scalar_integer 3)]);
        ("identities", GroupNode [("RNA", build.integer_vector [4; 0; 4])])])]
    (inputs.mkParamDump 1 false false) 2000000) = false.
Proof.
  split; [lia |].
  destruct (inputs.validate_results _ _ _) as [output|e] eqn:E; [| reflexivity].
  exfalso.
  apply (modality_row_identities
           [("results", GroupNode [
               ("num_cells", build.scalar_integer 10);
               ("num_features", GroupNode [("RNA", build.scalar_integer 3)]);
               ("identities", GroupNode [("RNA", build.integer_vector [4; 0; 4])])])]
           [("num_cells", build.scalar_integer 10);
            ("num_features", GroupNode [("RNA", build.scalar_integer 3)]);
            ("identities", GroupNode [("RNA", build.integer_vector [4; 0; 4])])]
           (inputs.mkParamDump 1 false false) 2000000 ["RNA"%string] [3] 10 1
           ltac:(lia) eq_refl eq_refl eq_refl) in E
    as (_ & ihandle & Hi & Hall).
  injection Hi as <-.
  destruct (Hall 0%nat ltac:(simpl; lia)) as (idx & Hload & _ & _ & Hnd).
  injection Hload as <-.
  apply NoDup_cons in Hnd as [Hnotin _]. apply Hnotin. right. left.
Defined.

(** ** inputs: the number of samples *)

(** X13: When the results hold no [num_samples], the number of samples is 1:
    that is the value returned, and a multi-matrix input validates only
    if it has one matrix. *)
Theorem num_samples_defaults_to_one (handle rhandle : Group) (param_info : inputs.ParamDump)
    (version : Z) :
  utils.check_and_open_group handle "results" = Ok rhandle →
  child rhandle "num_samples" = None →
  (∀ output, inputs.validate_results handle param_info version = Ok output →
     inputs.num_samples output = 1 ∧
     (inputs.multi_matrix param_info = true → inputs.num_matrices param_info = 1)) ∧
  (inputs.multi_matrix param_info = true → inputs.num_matrices param_info ≠ 1 →
     ∀ dims, inputs.load_dimensions rhandle version = Ok dims →
       inputs.validate_results handle param_info version
       = Err (runtime_error "'num_samples' should be equal to the number of matrices")).
Proof.
  intros Hr Habs.
  assert (Hex : exists_ rhandle "num_samples" = false)
    by (unfold exists_; rewrite Habs; reflexivity).
  split.
  - unfold inputs.validate_results. intros output H.
    apply bind_Ok in H as (rhandle' & Hr' & H). rewrite Hr in Hr'. injection Hr' as <-.
    apply bind_Ok in H as ([[mods nfeat] ncells] & Hdims & H).
    apply bind_Ok in H as (ns & Hns & H).
    apply bind_Ok in H as ([] & _ & [= <-]). simpl.
    unfold inputs.load_num_samples in Hns. rewrite Hex in Hns.
    apply bind_Ok in Hns as (ns' & [= <-] & Hns).
    apply bind_Ok in Hns as ([] & Hcheck & [= <-]).
    split; [reflexivity |]. intros Hmm. rewrite Hmm in Hcheck.
    apply throw_if_Ok in Hcheck. lia.
  - intros Hmm Hne [[mods nfeat] ncells] Hdims.
    assert (Hns : inputs.load_num_samples rhandle param_info
                  = Err (runtime_error "'num_samples' should be equal to the number of matrices")).
    { unfold inputs.load_num_samples. rewrite Hex, Hmm. unfold mbind, result_bind.
      replace (negb (1 =? inputs.num_matrices param_info)) with true by lia.
      reflexivity. }
    unfold inputs.validate_results. rewrite Hr. simpl. rewrite Hdims. simpl.
    rewrite Hns. reflexivity.
Qed.

Lemma num_samples_defaults_to_one_witness :
  child [("dimensions", build.integer_vector [3; 10]);
         ("indices", build.integer_vector [7; 0; 4])] "num_samples" = None ∧
  inputs.validate_results
    [("results", GroupNode [("dimensions", build.integer_vector [3; 10]);
                            ("indices", build.integer_vector [7; 0; 4])])]
    (inputs.mkParamDump 2 true true) 1001000
  = Err (runtime_error "'num_samples' should be equal to the number of matrices").
Proof.
  split; [reflexivity |].
  refine (proj2 (num_samples_defaults_to_one
            [("results", GroupNode [("dimensions", build.integer_vector [3; 10]);
                                    ("indices", build.integer_vector [7; 0; 4])])]
            [("dimensions", build.integer_vector [3; 10]);
             ("indices", build.integer_vector [7; 0; 4])]
            (inputs.mkParamDump 2 true true) 1001000 eq_refl eq_refl)
          eq_refl _ (["RNA"%string], [3], 10) eq_refl).
  simpl. lia.
Defined.

(** ** inputs: the context of the errors *)

Lemma check_and_open_group_Err (handle : Group) (name : string) (e : Error) :
  utils.check_and_open_group handle name = Err e → e = MissingEntry.
Proof.
  unfold utils.check_and_open_group.
  destruct (child handle name) as [[g|d]|]; congruence.
Qed.

(** X14: [inputs::validate] succeeds exactly when both phases do, and it never
    lets a failure of a phase out without its context: an error is either
    the missing [inputs] group, or the error of the parameters phase or of
    the results phase behind the frame of that phase. *)
Theorem inputs_errors_carry_phase (handle : Group) (embedded : bool) (version : Z) :
  (∀ output, inputs.validate handle embedded version = Ok output ↔
     ∃ ihandle dump,
       utils.check_and_open_group handle "inputs" = Ok ihandle ∧
       inputs.validate_parameters ihandle embedded version = Ok dump ∧
       inputs.validate_results ihandle dump version = Ok output) ∧
  (∀ e, inputs.validate handle embedded version = Err e →
     (e = MissingEntry ∧ utils.check_and_open_group handle "inputs" = Err MissingEntry) ∨
     (∃ ihandle inner,
        utils.check_and_open_group handle "inputs" = Ok ihandle ∧
        inputs.validate_parameters ihandle embedded version = Err inner ∧
        e = Wrapped "failed to retrieve parameters from 'inputs'" inner) ∨
     (∃ ihandle dump inner,
        utils.check_and_open_group handle "inputs" = Ok ihandle ∧
        inputs.validate_parameters ihandle embedded version = Ok dump ∧
        inputs.validate_results ihandle dump version = Err inner ∧
        e = Wrapped "failed to retrieve results from 'inputs'" inner)).
Proof.
  unfold inputs.validate. split.
  - intros output. split.
    + intros H. apply bind_Ok in H as (ihandle & Hi & H).
      apply bind_Ok in H as (dump & Hd & H). apply try_catch_Ok in Hd, H. eauto 10.
    + intros (ihandle & dump & Hi & Hd & H). rewrite Hi. simpl. rewrite Hd. simpl.
      rewrite H. reflexivity.
  - intros e H. apply bind_Err in H as [H | (ihandle & Hi & H)].
    + left. pose proof (check_and_open_group_Err _ _ _ H) as ->. auto.
    + right. apply bind_Err in H as [H | (dump & Hd & H)].
      * left. apply try_catch_Err in H as (inner & H & ->). eauto 10.
      * right. apply try_catch_Ok in Hd. apply try_catch_Err in H as (inner & H & ->).
        eauto 10.
Qed.

(** ** pca: the parameters *)

(** X15: The parameters of the PCA validate exactly when [num_hvgs] and
    [num_pcs] are positive integers and, from version 1.1 on,
    [block_method] is a scalar string that [check_block_method] accepts;
    before 1.1 [block_method] is not read and the method returned is the
    empty string.  A count that is not positive raises its own error. *)
Theorem pca_parameters (handle phandle : Group) (version : Z) :
  utils.check_and_open_group handle "parameters" = Ok phandle →
  (∀ npcs method, pca.validate_parameters handle version = Ok (npcs, method) ↔
     ∃ nhvgs,
       utils.load_integer_scalar phandle "num_hvgs" = Ok nhvgs ∧ 0 < nhvgs ∧
       utils.load_integer_scalar phandle "num_pcs" = Ok npcs ∧ 0 < npcs ∧
       if 1001000 <=? version
       then utils.load_string phandle "block_method" = Ok method ∧
            check_block_method method version = Ok tt
       else method = EmptyString) ∧
  (∀ nhvgs, utils.load_integer_scalar phandle "num_hvgs" = Ok nhvgs → nhvgs ≤ 0 →
     pca.validate_parameters handle version
     = Err (runtime_error "number of HVGs must be positive in 'num_hvgs'")) ∧
  (∀ nhvgs npcs,
     utils.load_integer_scalar phandle "num_hvgs" = Ok nhvgs → 0 < nhvgs →
     utils.load_integer_scalar phandle "num_pcs" = Ok npcs → npcs ≤ 0 →
     pca.validate_parameters handle version
     = Err (runtime_error "number of PCs must be positive in 'num_pcs'")).
Proof.
  intros Hp. unfold pca.validate_parameters. rewrite Hp. simpl. split; [| split].
  - intros npcs method. split.
    + intros H. apply bind_Ok in H as (nhvgs & Hh & H).
      apply bind_Ok in H as ([] & Hhpos & H). apply throw_if_Ok in Hhpos.
      apply bind_Ok in H as (npcs' & Hn & H).
      apply bind_Ok in H as ([] & Hnpos & H). apply throw_if_Ok in Hnpos.
      apply bind_Ok in H as (method' & Hm & [= <- <-]).
      exists nhvgs. split; [exact Hh |]. split; [lia |]. split; [exact Hn |].
      split; [lia |].
      destruct (1001000 <=? version).
      * apply bind_Ok in Hm as (m & Hload & Hm).
        apply bind_Ok in Hm as ([] & Hcheck & [= <-]). auto.
      * injection Hm as <-. reflexivity.
    + intros (nhvgs & Hh & Hhpos & Hn & Hnpos & Hm).
      rewrite Hh. simpl. replace (nhvgs <=? 0) with false by lia. simpl.
      rewrite Hn. simpl. replace (npcs <=? 0) with false by lia. simpl.
      destruct (1001000 <=? version).
      * destruct Hm as [Hload Hcheck]. rewrite Hload. simpl. rewrite Hcheck. reflexivity.
      * rewrite Hm. reflexivity.
  - intros nhvgs Hh Hle. rewrite Hh. simpl.
    replace (nhvgs <=? 0) with true by lia. reflexivity.
  - intros nhvgs npcs Hh Hhpos Hn Hle. rewrite Hh. simpl.
    replace (nhvgs <=? 0) with false by lia. simpl. rewrite Hn. simpl.
    replace (npcs <=? 0) with true by lia. reflexivity.
Qed.

Lemma pca_parameters_witness :
  utils.check_and_open_group (build.pca_stage "mnn" 0 100 30 30 []) "parameters"
  = Ok [("num_hvgs", build.scalar_integer 2000); ("num_pcs", build.scalar_integer 0);
        ("block_method", build.scalar_string "mnn")] ∧
  pca.validate_parameters (build.pca_stage "mnn" 0 100 30 30 []) 1001000
  = Err (runtime_error "number of PCs must be positive in 'num_pcs'").
Proof.
  split; [reflexivity |].
  refine (proj2 (proj2 (pca_parameters (build.pca_stage "mnn" 0 100 30 30 [])
            [("num_hvgs", build.scalar_integer 2000); ("num_pcs", build.scalar_integer 0);
             ("block_method", build.scalar_string "mnn")] 1001000 eq_refl))
          2000 0 eq_refl _ eq_refl _); lia.
Defined.

(** ** combine_embeddings: the weights *)

Lemma check_weights_Ok (whandle : Group) (modalities : list string) :
  combine_embeddings.check_weights whandle modalities = Ok tt ↔
  ∀ m, m ∈ modalities →
    ∃ d, child whandle m = Some (DataSetNode d) ∧ getTypeClass d = H5T_FLOAT ∧
         ds_dims d = [].
Proof.
  induction modalities as [|m rest IH]; simpl.
  - split; [intros _ m Hm; inversion Hm | reflexivity].
  - rewrite bind_Ok. split.
    + intros (d & Hd & H). apply check_and_open_dataset_dims_Ok in Hd as (Hc & Ht & Hdims).
      pose proof (proj1 IH H) as Hrest. intros m' Hin.
      apply elem_of_cons in Hin as [-> | Hin]; [| auto].
      exists d. repeat split; auto. destruct (ds_dims d); [reflexivity | discriminate].
    + intros Hall. destruct (Hall m) as (d & Hc & Ht & Hdims); [left |].
      exists d. split.
      * apply check_and_open_dataset_dims_Ok. rewrite Hdims. auto.
      * apply (proj2 IH). intros m' Hin. apply Hall. right. exact Hin.
Qed.

(** X16: The parameters of [combine_embeddings] validate exactly when
    [approximate] is an integer scalar and [weights] is a group that is
    either empty or holds a float scalar for every modality; a group with
    weights for only some of the modalities is rejected, and weights under
    other names are not looked at. *)
Theorem weights_all_or_none (handle phandle whandle : Group) (modalities : list string) :
  utils.check_and_open_group handle "parameters" = Ok phandle →
  is_ok (utils.check_and_open_scalar phandle "approximate" H5T_INTEGER) = true →
  utils.check_and_open_group phandle "weights" = Ok whandle →
  (combine_embeddings.validate_parameters handle modalities = Ok tt ↔
     whandle = [] ∨
     ∀ m, m ∈ modalities →
       ∃ d, child whandle m = Some (DataSetNode d) ∧ getTypeClass d = H5T_FLOAT ∧
            ds_dims d = []) ∧
  (whandle ≠ [] → ∀ m, m ∈ modalities → child whandle m = None →
     is_ok (combine_embeddings.validate_parameters handle modalities) = false).
Proof.
  intros Hp Ha Hw. unfold combine_embeddings.validate_parameters.
  rewrite Hp. simpl.
  destruct (utils.check_and_open_scalar phandle "approximate" H5T_INTEGER) as [a|e];
    [| discriminate].
  simpl. rewrite Hw. simpl. unfold getNumObjs.
  destruct whandle as [|w whandle'].
  - simpl. split; [split; auto | intros Hne; contradiction].
  - assert (Hn : negb (Z.of_nat (length (w :: whandle')) =? 0) = true)
      by (apply negb_true_iff, Z.eqb_neq; rewrite length_cons; lia).
    rewrite Hn.
    split.
    + rewrite check_weights_Ok. split; [auto | intros [H | H]; [discriminate | exact H]].
    + intros _ m Hin Habs.
      destruct (combine_embeddings.check_weights (w :: whandle') modalities) as [[]|e] eqn:E;
        [| reflexivity].
      destruct (proj1 (check_weights_Ok _ _) E m Hin) as (d & Hd & _). congruence.
Qed.

Lemma weights_all_or_none_witness :
  utils.check_and_open_group
    [("parameters", GroupNode [("approximate", build.scalar_integer 1);
                               ("weights", GroupNode [("RNA", build.float_array [])])])]
    "parameters"
  = Ok [("approximate", build.scalar_integer 1);
        ("weights", GroupNode [("RNA", build.float_array [])])] ∧
  is_ok (combine_embeddings.validate_parameters
    [("parameters", GroupNode [("approximate", build.scalar_integer 1);
                               ("weights", GroupNode [("RNA", build.float_array [])])])]
    ["RNA"; "ADT"]%string) = false.
Proof.
  split; [reflexivity |].
  refine (proj2 (weights_all_or_none
            [("parameters", GroupNode [("approximate", build.scalar_integer 1);
                                       ("weights", GroupNode [("RNA", build.float_array [])])])]
            [("approximate", build.scalar_integer 1);
             ("weights", GroupNode [("RNA", build.float_array [])])]
            [("RNA", build.float_array [])] ["RNA"; "ADT"]%string eq_refl eq_refl eq_refl)
          _ "ADT"%string _ eq_refl).
  - discriminate.
  - right. left.
Defined.

(** ** custom_selections: the results *)

Lemma check_effects_Ok (shandle : Group) (effects : list string) (dims : list Z) :
  custom_selections.check_effects shandle effects dims = Ok tt ↔
  ∀ eff, eff ∈ effects →
    ∃ d, child shandle eff = Some (DataSetNode d) ∧ getTypeClass d = H5T_FLOAT ∧
         Z.of_N <$> ds_dims d = dims.
Proof.
  induction effects as [|eff rest IH]; simpl.
  - split; [intros _ eff Hin; inversion Hin | reflexivity].
  - rewrite bind_Ok. split.
    + intros (d & Hd & H). apply check_and_open_dataset_dims_Ok in Hd.
      pose proof (proj1 IH H) as Hrest. intros eff' Hin.
      apply elem_of_cons in Hin as [-> | Hin]; [eauto | auto].
    + intros Hall. destruct (Hall eff) as (d & Hd); [left |].
      exists d. split; [apply check_and_open_dataset_dims_Ok; exact Hd |].
      apply (proj2 IH). intros eff' Hin. apply Hall. right. exact Hin.
Qed.

(** X17: The statistics of one selection validate exactly when [means],
    [detected] and every effect size of [markers::effects] are float
    arrays with one entry per feature. *)
Theorem custom_marker_statistics (shandle : Group) (num_features : Z) :
  custom_selections.validate_custom_markers shandle num_features = Ok tt ↔
  ∀ stat, stat ∈ ("means" :: "detected" :: markers.effects)%string →
    ∃ d, child shandle stat = Some (DataSetNode d) ∧ getTypeClass d = H5T_FLOAT ∧
         Z.of_N <$> ds_dims d = [size_t_of_int num_features].
Proof.
  change (custom_selections.validate_custom_markers shandle num_features)
    with (custom_selections.check_effects shandle
            ("means" :: "detected" :: markers.effects)%string [size_t_of_int num_features]).
  apply check_effects_Ok.
Qed.

Lemma check_markers_Ok (mhandle : Group) (selections : list string) (num_features : Z) :
  custom_selections.check_markers mhandle selections num_features = Ok tt ↔
  ∀ s, s ∈ selections →
    ∃ shandle, utils.check_and_open_group mhandle s = Ok shandle ∧
      custom_selections.validate_custom_markers shandle num_features = Ok tt.
Proof.
  induction selections as [|s rest IH]; simpl.
  - split; [intros _ s Hin; inversion Hin | reflexivity].
  - rewrite bind_Ok. split.
    + intros ([] & Hs & H). apply try_catch_Ok in Hs.
      apply bind_Ok in Hs as (shandle & Hg & Hm).
      pose proof (proj1 IH H) as Hrest. intros s' Hin.
      apply elem_of_cons in Hin as [-> | Hin]; [eauto | auto].
    + intros Hall. destruct (Hall s) as (shandle & Hg & Hm); [left |].
      exists tt. split.
      * apply try_catch_Ok. rewrite Hg. simpl. exact Hm.
      * apply (proj2 IH). intros s' Hin. apply Hall. right. exact Hin.
Qed.

(** The loop over the selections fails at the first selection whose
    group is missing or whose statistics are refused, with the error of
    that selection behind its name. *)
Lemma check_markers_Err (mhandle : Group) (selections : list string) (num_features : Z)
    (e : Error) :
  custom_selections.check_markers mhandle selections num_features = Err e →
  ∃ pre s post inner,
    selections = pre ++ s :: post ∧
    (∀ s', s' ∈ pre →
       ∃ shandle, utils.check_and_open_group mhandle s' = Ok shandle ∧
         custom_selections.validate_custom_markers shandle num_features = Ok tt) ∧
    utils.check_and_open_group mhandle s
      ≫= (λ shandle, custom_selections.validate_custom_markers shandle num_features)
    = Err inner ∧
    e = Wrapped ("failed to retrieve statistics for selection '" +:+ s
                   +:+ "' in 'results/markers'") inner.
Proof.
  induction selections as [|s rest IH]; simpl.
  - discriminate.
  - intros H. apply bind_Err in H as [H | ([] & Hs & H)].
    + apply try_catch_Err in H as (inner & H & ->). exists [], s, rest, inner.
      split; [reflexivity |]. split; [intros s' Hs'; inversion Hs' |]. auto.
    + apply try_catch_Ok in Hs. apply bind_Ok in Hs as (shandle & Hg & Hm).
      apply IH in H as (pre & s0 & post & inner & -> & Hpre & Hfail & ->).
      exists (s :: pre), s0, post, inner. split; [reflexivity |].
      split; [| auto].
      intros s' Hs'. apply elem_of_cons in Hs' as [-> | Hs']; [eauto | auto].
Qed.

(** X18: Before version 2.0 the results of the custom selections validate
    exactly when [markers] has as many children as there are selections
    and holds, for every selection, a group with valid statistics.  A
    different number of children raises its own error, and any other
    failure is the error of the first selection whose group is missing or
    whose statistics are refused, behind the name of that selection. *)
Theorem selection_markers (handle rhandle mhandle : Group) (selections : list string)
    (num_features : Z) :
  utils.check_and_open_group handle "results" = Ok rhandle →
  utils.check_and_open_group rhandle "markers" = Ok mhandle →
  (custom_selections.validate_results handle selections num_features = Ok tt ↔
     length mhandle = length selections ∧
     ∀ s, s ∈ selections →
       ∃ shandle, utils.check_and_open_group mhandle s = Ok shandle ∧
         custom_selections.validate_custom_markers shandle num_features = Ok tt) ∧
  (length mhandle ≠ length selections →
     custom_selections.validate_results handle selections num_features
     = Err (runtime_error
         "number of groups in 'markers' is not consistent with the expected number of selections")) ∧
  (length mhandle = length selections →
     ∀ e, custom_selections.validate_results handle selections num_features = Err e →
       ∃ pre s post inner,
         selections = pre ++ s :: post ∧
         (∀ s', s' ∈ pre →
            ∃ shandle, utils.check_and_open_group mhandle s' = Ok shandle ∧
              custom_selections.validate_custom_markers shandle num_features = Ok tt) ∧
         utils.check_and_open_group mhandle s
           ≫= (λ shandle, custom_selections.validate_custom_markers shandle num_features)
         = Err inner ∧
         e = Wrapped ("failed to retrieve statistics for selection '" +:+ s
                        +:+ "' in 'results/markers'") inner).
Proof.
  intros Hr Hm. unfold custom_selections.validate_results.
  rewrite Hr. simpl. rewrite Hm. simpl. unfold getNumObjs.
  destruct (decide (length mhandle = length selections)) as [Hlen | Hlen].
  - rewrite Hlen, Z.eqb_refl. simpl. split; [| split].
    + rewrite check_markers_Ok. split; [auto | intros [_ H]; exact H].
    + intros Hne. contradiction.
    + intros _ e H. apply check_markers_Err in H. exact H.
  - replace (Z.of_nat (length mhandle) =? Z.of_nat (length selections)) with false by lia.
    simpl. split; [| split].
    + split; [discriminate | intros [H _]; contradiction].
    + reflexivity.
    + intros H. contradiction.
Qed.

Lemma check_selection_modalities_Ok (shandle : Group) (modalities : list string)
    (num_features : list Z) (n a : nat) :
  custom_selections.check_selection_modalities shandle modalities num_features n a = Ok tt ↔
  ∀ k, (a ≤ k < a + n)%nat →
    ∃ ahandle,
      utils.check_and_open_group shandle (nth k modalities EmptyString) = Ok ahandle ∧
      custom_selections.validate_custom_markers ahandle (nth k num_features 0) = Ok tt.
Proof.
  revert a. induction n as [|n IH]; intros a; simpl.
  - split; [intros _ k Hk; lia | reflexivity].
  - rewrite bind_Ok. split.
    + intros ([] & Ha & H). apply try_catch_Ok in Ha.
      apply bind_Ok in Ha as (ahandle & Hg & Hm).
      pose proof (proj1 (IH (S a)) H) as Hrest. intros k Hk.
      destruct (decide (k = a)) as [-> | Hne]; [eauto | apply Hrest; lia].
    + intros Hall. destruct (Hall a) as (ahandle & Hg & Hm); [lia |].
      exists tt. split.
      * apply try_catch_Ok. rewrite Hg. simpl. exact Hm.
      * apply (proj2 (IH (S a))). intros k Hk. apply Hall. lia.
Qed.

(** The loop over the modalities of a selection fails at the first
    modality whose group is missing or whose statistics are refused. *)
Lemma check_selection_modalities_Err (shandle : Group) (modalities : list string)
    (num_features : list Z) (n a : nat) (e : Error) :
  custom_selections.check_selection_modalities shandle modalities num_features n a = Err e →
  ∃ (k : nat) inner, (a ≤ k < a + n)%nat ∧
    (∀ k', (a ≤ k' < k)%nat →
       ∃ ahandle,
         utils.check_and_open_group shandle (nth k' modalities EmptyString) = Ok ahandle ∧
         custom_selections.validate_custom_markers ahandle (nth k' num_features 0) = Ok tt) ∧
    utils.check_and_open_group shandle (nth k modalities EmptyString)
      ≫= (λ ahandle,
            custom_selections.validate_custom_markers ahandle (nth k num_features 0))
    = Err inner ∧
    e = Wrapped ("failed to retrieve statistics for modality '"
                   +:+ nth k modalities EmptyString +:+ "'") inner.
Proof.
  revert a. induction n as [|n IH]; intros a; simpl.
  - discriminate.
  - intros H. apply bind_Err in H as [H | ([] & Ha & H)].
    + apply try_catch_Err in H as (inner & H & ->). exists a, inner.
      split; [lia |]. split; [intros k' Hk'; lia | auto].
    + apply try_catch_Ok in Ha. apply bind_Ok in Ha as (ahandle & Hg & Hm).
      apply IH in H as (k & inner & Hk & Hbefore & Hfail & ->). exists k, inner.
      split; [lia |]. split; [| auto].
      intros k' Hk'. destruct (decide (k' = a)) as [-> | Hne]; [eauto | apply Hbefore; lia].
Qed.

Lemma check_per_selection_Ok (mhandle : Group) (selections modalities : list string)
    (num_features : list Z) :
  custom_selections.check_per_selection mhandle selections modalities num_features = Ok tt ↔
  ∀ s, s ∈ selections →
    ∃ shandle, utils.check_and_open_group mhandle s = Ok shandle ∧
      ∀ k, (k < length modalities)%nat →
        ∃ ahandle,
          utils.check_and_open_group shandle (nth k modalities EmptyString) = Ok ahandle ∧
          custom_selections.validate_custom_markers ahandle (nth k num_features 0) = Ok tt.
Proof.
  induction selections as [|s rest IH]; simpl.
  - split; [intros _ s Hin; inversion Hin | reflexivity].
  - rewrite bind_Ok. split.
    + intros ([] & Hs & H). apply try_catch_Ok in Hs.
      apply bind_Ok in Hs as (shandle & Hg & Hm).
      pose proof (proj1 (check_selection_modalities_Ok _ _ _ _ _) Hm) as Hmods.
      pose proof (proj1 IH H) as Hrest. intros s' Hin.
      apply elem_of_cons in Hin as [-> | Hin]; [| auto].
      exists shandle. split; [exact Hg |]. intros k Hk. apply Hmods. lia.
    + intros Hall. destruct (Hall s) as (shandle & Hg & Hmods); [left |].
      exists tt. split.
      * apply try_catch_Ok. rewrite Hg. simpl.
        apply (proj2 (check_selection_modalities_Ok _ _ _ _ _)).
        intros k Hk. apply Hmods. lia.
      * apply (proj2 IH). intros s' Hin. apply Hall. right. exact Hin.
Qed.

(** The loop over the selections fails at the first selection whose
    group is missing or that has a modality whose group is missing or
    whose statistics are refused; the error carries the name of that
    selection and, inside it, the name of the first such modality. *)
Lemma check_per_selection_Err (mhandle : Group) (selections modalities : list string)
    (num_features : list Z) (e : Error) :
  custom_selections.check_per_selection mhandle selections modalities num_features = Err e →
  ∃ pre s post inner,
    selections = pre ++ s :: post ∧
    (∀ s', s' ∈ pre →
       ∃ shandle, utils.check_and_open_group mhandle s' = Ok shandle ∧
         ∀ k, (k < length modalities)%nat →
           ∃ ahandle,
             utils.check_and_open_group shandle (nth k modalities EmptyString) = Ok ahandle ∧
             custom_selections.validate_custom_markers ahandle (nth k num_features 0)
             = Ok tt) ∧
    e = Wrapped ("failed to retrieve statistics for selection '" +:+ s
                   +:+ "' in 'results/per_selection'") inner ∧
    (utils.check_and_open_group mhandle s = Err inner ∨
     ∃ shandle (k : nat) inner',
       utils.check_and_open_group mhandle s = Ok shandle ∧
       (k < length modalities)%nat ∧
       (∀ k', (k' < k)%nat →
          ∃ ahandle,
            utils.check_and_open_group shandle (nth k' modalities EmptyString) = Ok ahandle ∧
            custom_selections.validate_custom_markers ahandle (nth k' num_features 0)
            = Ok tt) ∧
       utils.check_and_open_group shandle (nth k modalities EmptyString)
         ≫= (λ ahandle,
               custom_selections.validate_custom_markers ahandle (nth k num_features 0))
       = Err inner' ∧
       inner = Wrapped ("failed to retrieve statistics for modality '"
                          +:+ nth k modalities EmptyString +:+ "'") inner').
Proof.
  induction selections as [|s rest IH]; simpl.
  - discriminate.
  - intros H. apply bind_Err in H as [H | ([] & Hs & H)].
    + apply try_catch_Err in H as (inner & H & ->). exists [], s, rest, inner.
      split; [reflexivity |]. split; [intros s' Hs'; inversion Hs' |].
      split; [reflexivity |].
      apply bind_Err in H as [H | (shandle & Hg & H)]; [left; exact H |].
      right. apply check_selection_modalities_Err in H
        as (k & inner' & Hk & Hbefore & Hfail & ->).
      exists shandle, k, inner'. split; [exact Hg |]. split; [lia |].
      split; [| auto]. intros k' Hk'. apply Hbefore. lia.
    + apply try_catch_Ok in Hs. apply bind_Ok in Hs as (shandle & Hg & Hm).
      pose proof (proj1 (check_selection_modalities_Ok _ _ _ _ _) Hm) as Hmods.
      apply IH in H as (pre & s0 & post & inner & -> & Hpre & He & Hcase).
      exists (s :: pre), s0, post, inner. split; [reflexivity |].
      split; [| auto].
      intros s' Hs'. apply elem_of_cons in Hs' as [-> | Hs']; [| auto].
      exists shandle. split; [exact Hg |]. intros k Hk. apply Hmods. lia.
Qed.

(** X19: From version 2.0 on the results of the custom selections validate
    exactly when [per_selection] has as many children as there are
    selections and holds, for every selection, a group with one group of
    valid statistics per modality.  A failure below [per_selection] is
    that of the first selection that fails: it carries the name of that
    selection and, unless the group of the selection is missing, inside
    it the name of the first modality of the selection that fails, around
    the error of that modality. *)
Theorem selection_markers_per_modality (handle rhandle mhandle : Group)
    (selections modalities : list string) (num_features : list Z) :
  utils.check_and_open_group handle "results" = Ok rhandle →
  utils.check_and_open_group rhandle "per_selection" = Ok mhandle →
  (custom_selections.validate_results_per_modality handle selections modalities num_features
   = Ok tt ↔
     length mhandle = length selections ∧
     ∀ s, s ∈ selections →
       ∃ shandle, utils.check_and_open_group mhandle s = Ok shandle ∧
         ∀ k, (k < length modalities)%nat →
           ∃ ahandle,
             utils.check_and_open_group shandle (nth k modalities EmptyString) = Ok ahandle ∧
             custom_selections.validate_custom_markers ahandle (nth k num_features 0)
             = Ok tt) ∧
  (length mhandle ≠ length selections →
     custom_selections.validate_results_per_modality handle selections modalities num_features
     = Err (runtime_error
         "number of groups in 'per_selection' is not consistent with the expected number of selections")) ∧
  (length mhandle = length selections →
     ∀ e, custom_selections.validate_results_per_modality handle selections modalities
            num_features = Err e →
       ∃ pre s post inner,
    selections = pre ++ s :: post ∧
     (∀ s', s' ∈ pre →
        ∃ shandle, utils.check_and_open_group mhandle s' = Ok shandle ∧
          ∀ k, (k < length modalities)%nat →
            ∃ ahandle,
              utils.check_and_open_group shandle (nth k modalities EmptyString) = Ok ahandle ∧
              custom_selections.validate_custom_markers ahandle (nth k num_features 0)
              = Ok tt) ∧
     e = Wrapped ("failed to retrieve statistics for selection '" +:+ s
                    +:+ "' in 'results/per_selection'") inner ∧
     (utils.check_and_open_group mhandle s = Err inner ∨
      ∃ shandle (k : nat) inner',
        utils.check_and_open_group mhandle s = Ok shandle ∧
        (k < length modalities)%nat ∧
        (∀ k', (k' < k)%nat →
           ∃ ahandle,
             utils.check_and_open_group shandle (nth k' modalities EmptyString) = Ok ahandle ∧
             custom_selections.validate_custom_markers ahandle (nth k' num_features 0)
             = Ok tt) ∧
        utils.check_and_open_group shandle (nth k modalities EmptyString)
          ≫= (λ ahandle,
                custom_selections.validate_custom_markers ahandle (nth k num_features 0))
        = Err inner' ∧
        inner = Wrapped ("failed to retrieve statistics for modality '"
                           +:+ nth k modalities EmptyString +:+ "'") inner')).
Proof.
  intros Hr Hm. unfold custom_selections.validate_results_per_modality.
  rewrite Hr. simpl. rewrite Hm. simpl. unfold getNumObjs.
  destruct (decide (length mhandle = length selections)) as [Hlen | Hlen].
  - rewrite Hlen, Z.eqb_refl. simpl. split; [| split].
    + rewrite check_per_selection_Ok. split; [auto | intros [_ H]; exact H].
    + intros Hne. contradiction.
    + intros _ e H. apply check_per_selection_Err in H. exact H.
  - replace (Z.of_nat (length mhandle) =? Z.of_nat (length selections)) with false by lia.
    simpl. split; [| split].
    + split; [discriminate | intros [H _]; contradiction].
    + reflexivity.
    + intros H. contradiction.
Qed.

Lemma selection_markers_witness :
  utils.check_and_open_group (build.selections_stage_markers 3) "results"
  = Ok [("markers", GroupNode [("clusterA", GroupNode (build.statistics 3));
                               ("clusterB", GroupNode (build.statistics 3))])] ∧
  custom_selections.validate_results (build.selections_stage_markers 3)
    ["clusterA"; "clusterB"; "clusterC"]%string 3
  = Err (runtime_error
      "number of groups in 'markers' is not consistent with the expected number of selections").
Proof.
  split; [reflexivity |].
  refine (proj1 (proj2 (selection_markers (build.selections_stage_markers 3)
            [("markers", GroupNode [("clusterA", GroupNode (build.statistics 3));
                                    ("clusterB", GroupNode (build.statistics 3))])]
            [("clusterA", GroupNode (build.statistics 3));
             ("clusterB", GroupNode (build.statistics 3))]
            ["clusterA"; "clusterB"; "clusterC"]%string 3 eq_refl eq_refl)) _).
  simpl. lia.
Defined.

Lemma selection_markers_per_modality_witness :
  utils.check_and_open_group
    (build.selections_stage_per_selection 3 2 [("RNA", GroupNode (build.statistics 3))])
    "results"
  = Ok [("per_selection", GroupNode [
          ("clusterA", GroupNode [("RNA", GroupNode (build.statistics 3));
                                  ("ADT", GroupNode (build.statistics 2))]);
          ("clusterB", GroupNode [("RNA", GroupNode (build.statistics 3))])])] ∧
  custom_selections.validate_results_per_modality
    (build.selections_stage_per_selection 3 2 [("RNA", GroupNode (build.statistics 3))])
    ["clusterA"; "clusterB"]%string ["RNA"; "ADT"]%string [3; 2]
  = Err (Wrapped "failed to retrieve statistics for selection 'clusterB' in 'results/per_selection'"
           (Wrapped "failed to retrieve statistics for modality 'ADT'" MissingEntry)) ∧
  is_ok (custom_selections.validate_results_per_modality
    (build.selections_stage_per_selection 3 2 [("RNA", GroupNode (build.statistics 3))])
    ["clusterA"; "clusterB"]%string ["RNA"; "ADT"]%string [3; 2]) = false.
Proof.
  split; [reflexivity |]. split; [vm_compute; reflexivity |].
  destruct (custom_selections.validate_results_per_modality _ _ _ _) as [[]|e] eqn:E;
    [| reflexivity].
  exfalso.
  apply (proj1 (selection_markers_per_modality
           (build.selections_stage_per_selection 3 2 [("RNA", GroupNode (build.statistics 3))])
           [("per_selection", GroupNode [
               ("clusterA", GroupNode [("RNA", GroupNode (build.statistics 3));
                                       ("ADT", GroupNode (build.statistics 2))]);
               ("clusterB", GroupNode [("RNA", GroupNode (build.statistics 3))])])]
           [("clusterA", GroupNode [("RNA", GroupNode (build.statistics 3));
                                    ("ADT", GroupNode (build.statistics 2))]);
            ("clusterB", GroupNode [("RNA", GroupNode (build.statistics 3))])]
           ["clusterA"; "clusterB"]%string ["RNA"; "ADT"]%string [3; 2] eq_refl eq_refl)) in E
    as [_ Hall].
  destruct (Hall "clusterB"%string) as (shandle & Hs & Hmods); [right; left |].
  injection Hs as <-.
  destruct (Hmods 1%nat) as (ahandle & Ha & _); [simpl; lia |].
  discriminate Ha.
Defined.

(** ** custom_selections: the whole stage *)

(** X20: Before version 2.0 [custom_selections::validate] ignores the
    modalities and every feature count but the first. *)
Theorem legacy_selections_ignore_modalities (handle : Group) (num_cells : Z)
    (modalities modalities' : list string) (genes : Z) (others others' : list Z)
    (version : Z) :
  version < 2000000 →
  custom_selections.validate handle num_cells modalities (genes :: others) version
  = custom_selections.validate handle num_cells modalities' (genes :: others') version.
Proof.
  intros Hv. unfold custom_selections.validate.
  destruct (2000000 <=? version) eqn:E; [lia | reflexivity].
Qed.

Lemma legacy_selections_ignore_modalities_witness :
  1002000 < 2000000 ∧
  custom_selections.validate
    [("custom_selections", GroupNode (build.selections_stage_markers 3))]
    10 ["RNA"; "ADT"]%string [3; 2] 1002000
  = custom_selections.validate
      [("custom_selections", GroupNode (build.selections_stage_markers 3))]
      10 [] [3] 1002000.
Proof.
  split; [lia |].
  apply (legacy_selections_ignore_modalities
           [("custom_selections", GroupNode (build.selections_stage_markers 3))]
           10 ["RNA"; "ADT"]%string [] 3 [2] [] 1002000).
  lia.
Defined.

(** X21: When [custom_selections::validate] succeeds, the results hold one
    group for each selection of the parameters and no other child: the
    group of the results ([per_selection] from version 2.0 on, [markers]
    before) has as many children as [selections], every selection has its
    indices in range and a group of results under its name. *)
Theorem every_selection_has_results (handle : Group) (num_cells : Z)
    (modalities : list string) (num_features : list Z) (version : Z) :
  custom_selections.validate handle num_cells modalities num_features version = Ok tt →
  ∃ mhandle phandle shandle rhandle reshandle,
    utils.check_and_open_group handle "custom_selections" = Ok mhandle ∧
    utils.check_and_open_group mhandle "parameters" = Ok phandle ∧
    utils.check_and_open_group phandle "selections" = Ok shandle ∧
    utils.check_and_open_group mhandle "results" = Ok rhandle ∧
    utils.check_and_open_group rhandle
      (if 2000000 <=? version then "per_selection" else "markers") = Ok reshandle ∧
    length reshandle = length shandle ∧
    ∀ name, name ∈ shandle.*1 →
      spec.selection_in_range shandle num_cells name ∧
      ∃ results, utils.check_and_open_group reshandle name = Ok results.
Proof.
  unfold custom_selections.validate. intros H.
  apply bind_Ok in H as (mhandle & Hm & H).
  apply bind_Ok in H as (collected & Hc & H). apply try_catch_Ok in Hc, H.
  unfold custom_selections.validate_parameters in Hc.
  apply bind_Ok in Hc as (phandle & Hp & Hc).
  apply bind_Ok in Hc as (shandle & Hs & Hc).
  unfold getNumObjs in Hc. rewrite Nat2Z.id in Hc.
  apply (check_selections_Ok shandle num_cells (length shandle) 0 [] collected) in Hc
    as [-> Hrange]; [| lia].
  rewrite drop_0 in H, Hrange. simpl in H.
  destruct (2000000 <=? version).
  - unfold custom_selections.validate_results_per_modality in H.
    apply bind_Ok in H as (rhandle & Hr & H).
    apply bind_Ok in H as (reshandle & Hres & H).
    apply bind_Ok in H as ([] & Hlen & H). apply throw_if_Ok in Hlen.
    pose proof (proj1 (check_per_selection_Ok _ _ _ _) H) as Hall.
    exists mhandle, phandle, shandle, rhandle, reshandle.
    repeat (split; [assumption |]). split.
    + unfold getNumObjs in Hlen. rewrite length_fmap in Hlen. lia.
    + intros name Hin. split; [apply Hrange; exact Hin |].
      destruct (Hall name Hin) as (g & Hg & _). eauto.
  - unfold custom_selections.validate_results in H.
    apply bind_Ok in H as (rhandle & Hr & H).
    apply bind_Ok in H as (reshandle & Hres & H).
    apply bind_Ok in H as ([] & Hlen & H). apply throw_if_Ok in Hlen.
    pose proof (proj1 (check_markers_Ok _ _ _) H) as Hall.
    exists mhandle, phandle, shandle, rhandle, reshandle.
    repeat (split; [assumption |]). split.
    + unfold getNumObjs in Hlen. rewrite length_fmap in Hlen. lia.
    + intros name Hin. split; [apply Hrange; exact Hin |].
      destruct (Hall name Hin) as (g & Hg & _). eauto.
Qed.

Lemma every_selection_has_results_witness :
  custom_selections.validate
    [("custom_selections", GroupNode (build.selections_stage_markers 3))]
    10 ["RNA"%string] [3] 1002000 = Ok tt ∧
  ∃ reshandle : Group, length reshandle = length build.selections.
Proof.
  assert (H : custom_selections.validate
    [("custom_selections", GroupNode (build.selections_stage_markers 3))]
    10 ["RNA"%string] [3] 1002000 = Ok tt) by (vm_compute; reflexivity).
  split; [exact H |].
  destruct (every_selection_has_results _ _ _ _ _ H)
    as (mhandle & phandle & shandle & rhandle & reshandle & Hm & Hp & Hs & _ & _ & Hlen & _).
  injection Hm as <-. injection Hp as <-. injection Hs as <-.
  exists reshandle. exact Hlen.
Defined.

(** ** inputs: the number of files of a matrix *)





